(** * thumbnail_poc: the model registry, the pricing table and the
      generate endpoint, embedded in Rocq

    The development follows the two library files and the route handler:

    - [lib/modelRegistry.ts]: providers, the model catalog,
      [resolveApiModel], [normalizeEngineConfig];
    - [lib/costing.ts]: the rate tables, [usd], [calcTextCostUsd],
      [calcImageCostUsd];
    - [app/api/generate/route.ts]: [safeParseJson], [parseDataUrl],
      [chooseVisionEngine], the two vendor adapters and [POST];
    - the accessors of [route.ts] that read a vendor's response,
      [app/api/providers/route.ts], the helpers of
      [app/components/SettingsModal.tsx] and the sums of
      [app/admin/page.tsx], with the further properties at the end.

    Conventions.
    - A JavaScript number is an IEEE 754 binary64 value: [spec_float] of the
      Standard Library with [prec = 53] and [emax = 1024]; the arithmetic is
      the library's [SFadd], [SFmul], [SFdiv], so every cost below is computed
      bit for bit as the engine computes it.
    - A JavaScript string is the list of its UTF-8 bytes ([string]).
    - A JavaScript value that comes out of [JSON.parse] is a [jsval].
    - The closed unions [Provider], [ApiVendor] and the [kind] of a model are
      inductive types; a field of a configuration that was not checked yet is
      a [jsval].
    - The handler is sequential code with early [return], [throw] and one
      [try]/[catch]; it is written in a state-and-exit monad over the
      persistent store and the trace of vendor calls.
    - The process environment, the clock and the vendors are the environment
      of a request ([Env]): a vendor answers each [fetch], and what the
      adapter reads out of the answer through its accessors is part of the
      answer ([Body]).
    - The three prompts are kept as their template and arguments
      ([Prompt]).
    - A conversion of a value to a string ([String(v)], a template literal,
      [join], [+]) throws a [TypeError] on an object that has a key
      [toString] of its own; a function that makes such a conversion returns
      an [option], and the handler throws where it is [None]. *)

From Stdlib Require Import ZArith String Ascii List Floats.SpecFloat.
From stdpp Require Import base option list strings gmap.

Open Scope string_scope.
Open Scope Z_scope.
Open Scope list_scope.

Set Warnings "-register-all".

(* ===================================================================== *)
(** ** Numbers *)
(* ===================================================================== *)

Definition number := spec_float.

Definition prec : Z := 53.
Definition emax : Z := 1024.

Definition NaN : number := S754_nan.
Definition num_add : number -> number -> number := SFadd prec emax.
Definition num_mul : number -> number -> number := SFmul prec emax.
Definition num_div : number -> number -> number := SFdiv prec emax.

(** An integer literal. *)
Definition num_of_Z (n : Z) : number := binary_normalize prec emax n 0 false.

(** The decimal literal [m]e[e10], rounded to the nearest binary64 value
    (ties to even), as the engine reads a literal such as [0.7] or [1e6]. *)
Definition dec (m e10 : Z) : number :=
  match m with
  | Z0 => S754_zero false
  | _ =>
      if 0 <=? e10 then binary_normalize prec emax (m * 10 ^ e10) 0 false
      else
        let '(q, e', l) :=
          SFdiv_core_binary prec emax (Z.abs m) 0 (10 ^ (- e10)) 0 in
        binary_round_aux prec emax (m <? 0) q e' l
  end.

(** [Math.round]: the nearest integral value, halves towards +infinity; the
    sign of a zero result is the sign of the argument. *)
Definition Math_round (x : number) : number :=
  match x with
  | S754_finite s m e =>
      if 0 <=? e then x
      else
        let k := - e in
        let n :=
          if s then - ((2 ^ (k - 1) - Zpos m) / 2 ^ k)
          else (Zpos m + 2 ^ (k - 1)) / 2 ^ k in
        binary_normalize prec emax (if s then - n else n) 0 s
  | _ => x
  end.

(** Truthiness of a number: everything but [0], [-0] and [NaN]. *)
Definition num_truthy (x : number) : bool :=
  match x with
  | S754_zero _ | S754_nan => false
  | _ => true
  end.

(* ===================================================================== *)
(** ** JavaScript values *)
(* ===================================================================== *)

(** The values [JSON.parse] produces, and [undefined]. An object is the list
    of its properties in insertion order; when a key occurs twice the later
    binding is the property's value. *)
Inductive jsval : Type :=
| JUndefined
| JNull
| JBool (b : bool)
| JNum (x : number)
| JStr (s : string)
| JArr (xs : list jsval)
| JObj (props : list (string * jsval)).

Definition js_truthy (v : jsval) : bool :=
  match v with
  | JUndefined | JNull => false
  | JBool b => b
  | JNum x => num_truthy x
  | JStr s => negb (String.eqb s "")
  | JArr _ | JObj _ => true
  end.

(** [a || b] *)
Definition js_or (a b : jsval) : jsval := if js_truthy a then a else b.

(** [a ?? b] *)
Definition js_nullish (v : jsval) : bool :=
  match v with JUndefined | JNull => true | _ => false end.

Definition js_coalesce (a b : jsval) : jsval := if js_nullish a then b else a.

(** [v === "s"] for a string literal [s]. *)
Definition js_is_string (v : jsval) (s : string) : bool :=
  match v with JStr t => String.eqb t s | _ => false end.

(** The value bound to [k] by the last binding of [k] in a property list. *)
Fixpoint last_binding (props : list (string * jsval)) (k : string)
  : option jsval :=
  match props with
  | [] => None
  | (k', v) :: rest =>
      match last_binding rest k with
      | Some w => Some w
      | None => if String.eqb k' k then Some v else None
      end
  end.

(** The own property [k] of [v], for a key [k] that is not an array index and
    not [length] (the handler and the registry only read such keys). Strings
    and arrays have own properties at indices and [length] only. *)
Definition own_property (v : jsval) (k : string) : option jsval :=
  match v with
  | JObj props => last_binding props k
  | _ => None
  end.

(** [v?.k] for a key no prototype defines. *)
Definition js_get (v : jsval) (k : string) : jsval :=
  default JUndefined (own_property v k).

(* ===================================================================== *)
(** ** lib/modelRegistry.ts *)
(* ===================================================================== *)

Inductive Provider := Openai | Gemini | Anthropic.
Inductive ApiVendor := VOpenai | VGoogle | VAnthropic.
Inductive Kind := KText | KImage.

(** The string each [Provider] is in the source. *)
Definition provider_id (p : Provider) : string :=
  match p with
  | Openai => "openai"
  | Gemini => "gemini"
  | Anthropic => "anthropic"
  end.

Definition vendor_id (v : ApiVendor) : string :=
  match v with
  | VOpenai => "openai"
  | VGoogle => "google"
  | VAnthropic => "anthropic"
  end.

Definition Provider_eqb (a b : Provider) : bool :=
  match a, b with
  | Openai, Openai | Gemini, Gemini | Anthropic, Anthropic => true
  | _, _ => false
  end.

Definition Kind_eqb (a b : Kind) : bool :=
  match a, b with
  | KText, KText | KImage, KImage => true
  | _, _ => false
  end.

(** [gemini] is called as [google]; the other providers keep their name. *)
Definition getApiVendor (provider : Provider) : ApiVendor :=
  match provider with
  | Gemini => VGoogle
  | Openai => VOpenai
  | Anthropic => VAnthropic
  end.

Record Capabilities := {
  inputImage : option bool;
  outputImage : option bool
}.

Record ModelOption := {
  opt_id : string;
  opt_label : string;
  opt_provider : Provider;
  opt_kind : Kind;
  opt_enabled : bool;
  opt_apiModel : option string;
  opt_capabilities : option Capabilities
}.

Record EngineConfig := {
  textProvider : Provider;
  textModel : string;
  imageProvider : Provider;
  imageModel : string
}.

Definition defaultConfig : EngineConfig := {|
  textProvider := Openai;
  textModel := "gpt-4.1-mini";
  imageProvider := Openai;
  imageModel := "gpt-image-1-mini"
|}.

Definition text_option (i l : string) (p : Provider) (img : bool)
  (api : option string) : ModelOption := {|
  opt_id := i; opt_label := l; opt_provider := p; opt_kind := KText;
  opt_enabled := true; opt_apiModel := api;
  opt_capabilities := Some {| inputImage := Some img; outputImage := None |}
|}.

Definition image_option (i l : string) (p : Provider) : ModelOption := {|
  opt_id := i; opt_label := l; opt_provider := p; opt_kind := KImage;
  opt_enabled := true; opt_apiModel := None;
  opt_capabilities :=
    Some {| inputImage := Some true; outputImage := Some true |}
|}.

Definition TEXT_MODELS : list ModelOption := [
  text_option "gpt-5.2" "ChatGPT 5.2" Openai true None;
  text_option "gpt-5.1" "ChatGPT 5.1" Openai true None;
  text_option "gpt-4.1-mini" "ChatGPT 4.1 mini" Openai true None;
  text_option "gemini-2.5-pro" "Gemini 2.5 Pro" Gemini true None;
  text_option "gemini-2.5-flash" "Gemini 2.5 Flash" Gemini true None;
  text_option "claude-sonnet" "Claude Sonnet" Anthropic false
    (Some "claude-3-5-sonnet-latest");
  text_option "claude-haiku" "Claude Haiku" Anthropic false
    (Some "claude-3-5-haiku-latest")
].

Definition IMAGE_MODELS : list ModelOption := [
  image_option "gpt-image-1-mini" "OpenAI gpt-image-1-mini" Openai;
  image_option "gpt-image-1" "OpenAI gpt-image-1" Openai;
  image_option "gemini-2.5-flash-image"
    "Gemini 2.5 Flash Image (Nano Banana)" Gemini
].

(** [isValidTextModel] and [isValidImageModel] are called on the fields of a
    merged object, which hold whatever the caller supplied: the arguments are
    values, compared with [===]. *)
Definition isValidTextModel (provider model : jsval) : bool :=
  existsb
    (fun m =>
       js_is_string provider (provider_id (opt_provider m))
       && js_is_string model (opt_id m)
       && opt_enabled m)
    TEXT_MODELS.

Definition isValidImageModel (provider model : jsval) : bool :=
  existsb
    (fun m =>
       js_is_string provider (provider_id (opt_provider m))
       && js_is_string model (opt_id m)
       && opt_enabled m)
    IMAGE_MODELS.

Definition catalog (kind : Kind) : list ModelOption :=
  match kind with KText => TEXT_MODELS | KImage => IMAGE_MODELS end.

Definition getModelOption (provider : Provider) (kind : Kind) (id : string)
  : option ModelOption :=
  List.find
    (fun m =>
       opt_enabled m
       && Provider_eqb (opt_provider m) provider
       && Kind_eqb (opt_kind m) kind
       && String.eqb (opt_id m) id)
    (catalog kind).

(** [found?.apiModel || id]: an absent or empty override gives [id]. *)
Definition resolveApiModel (provider : Provider) (kind : Kind) (id : string)
  : string :=
  match getModelOption provider kind id with
  | Some found =>
      match opt_apiModel found with
      | Some api => if String.eqb api "" then id else api
      | None => id
      end
  | None => id
  end.

(** The object [normalizeEngineConfig] builds and repairs. Until the three
    checks have run, its fields hold the caller's values. *)
Record Merged := {
  raw_textProvider : jsval;
  raw_textModel : jsval;
  raw_imageProvider : jsval;
  raw_imageModel : jsval
}.

(** [{ ...defaultConfig, ...(input || {}) }], read at the four fields. *)
Definition merged_of (input : jsval) : Merged :=
  let src := js_or input (JObj []) in
  let field k d := default (JStr d) (own_property src k) in
  {| raw_textProvider := field "textProvider" (provider_id (textProvider defaultConfig));
     raw_textModel := field "textModel" (textModel defaultConfig);
     raw_imageProvider := field "imageProvider" (provider_id (imageProvider defaultConfig));
     raw_imageModel := field "imageModel" (imageModel defaultConfig) |}.

Definition reset_text (m : Merged) : Merged :=
  {| raw_textProvider := JStr (provider_id (textProvider defaultConfig));
     raw_textModel := JStr (textModel defaultConfig);
     raw_imageProvider := raw_imageProvider m;
     raw_imageModel := raw_imageModel m |}.

Definition reset_image (m : Merged) : Merged :=
  {| raw_textProvider := raw_textProvider m;
     raw_textModel := raw_textModel m;
     raw_imageProvider := JStr (provider_id (imageProvider defaultConfig));
     raw_imageModel := JStr (imageModel defaultConfig) |}.

Definition normalizeEngineConfig (input : jsval) : Merged :=
  let merged := merged_of input in
  let merged :=
    if negb (isValidTextModel (raw_textProvider merged) (raw_textModel merged))
    then reset_text merged else merged in
  let merged :=
    if js_is_string (raw_imageProvider merged) "anthropic"
    then reset_image merged else merged in
  let merged :=
    if negb (isValidImageModel (raw_imageProvider merged) (raw_imageModel merged))
    then reset_image merged else merged in
  merged.

(** The object a [Merged] is, as a value (to pass it to the function again). *)
Definition merged_value (m : Merged) : jsval :=
  JObj [("textProvider", raw_textProvider m);
        ("textModel", raw_textModel m);
        ("imageProvider", raw_imageProvider m);
        ("imageModel", raw_imageModel m)].

Definition config_value (c : EngineConfig) : jsval :=
  JObj [("textProvider", JStr (provider_id (textProvider c)));
        ("textModel", JStr (textModel c));
        ("imageProvider", JStr (provider_id (imageProvider c)));
        ("imageModel", JStr (imageModel c))].

(** Reading a repaired object at its declared type [EngineConfig]. *)
Definition provider_of_value (v : jsval) : option Provider :=
  match v with
  | JStr s =>
      if String.eqb s "openai" then Some Openai
      else if String.eqb s "gemini" then Some Gemini
      else if String.eqb s "anthropic" then Some Anthropic
      else None
  | _ => None
  end.

Definition string_of_value (v : jsval) : option string :=
  match v with JStr s => Some s | _ => None end.

Definition as_EngineConfig (m : Merged) : option EngineConfig :=
  tp ← provider_of_value (raw_textProvider m);
  tm ← string_of_value (raw_textModel m);
  ip ← provider_of_value (raw_imageProvider m);
  im ← string_of_value (raw_imageModel m);
  Some {| textProvider := tp; textModel := tm;
          imageProvider := ip; imageModel := im |}.

(* ===================================================================== *)
(** ** lib/costing.ts *)
(* ===================================================================== *)

Record TokenUsage := {
  u_input : number;
  u_output : number;
  u_total : number
}.

Definition PER_M : number := num_of_Z 1000000.

(** [Math.round(n * 1e6) / 1e6] *)
Definition usd (n : number) : number :=
  num_div (Math_round (num_mul n (dec 1 6))) (dec 1 6).

Record TextRate := {
  inputPerM : number;
  outputPerM : number
}.

Record ImagePrice := {
  low : option number;
  medium : option number;
  high : option number;
  fixedPerImage : option number
}.

Inductive Quality := QLow | QMedium | QHigh.

(** The rate tables are object literals, so [table[key]] finds an own entry,
    or else whatever [Object.prototype] defines under that name, or else
    [undefined]. *)
Inductive Property (A : Type) : Type :=
| Own (a : A)
| Inherited
| Undefined.
Arguments Own {A} a.
Arguments Inherited {A}.
Arguments Undefined {A}.

(** The names every object literal inherits; each is bound to a function,
    [__proto__] to the prototype object itself: all are truthy and none has a
    property named as a rate or a price is. *)
Definition Object_prototype_keys : list string := [
  "constructor"; "__defineGetter__"; "__defineSetter__"; "hasOwnProperty";
  "__lookupGetter__"; "__lookupSetter__"; "isPrototypeOf";
  "propertyIsEnumerable"; "toString"; "valueOf"; "__proto__";
  "toLocaleString"
].

Fixpoint table_get {A : Type} (table : list (string * A)) (key : string)
  : option A :=
  match table with
  | [] => None
  | (k, a) :: rest => if String.eqb k key then Some a else table_get rest key
  end.

Definition get_property {A : Type} (table : list (string * A)) (key : string)
  : Property A :=
  match table_get table key with
  | Some a => Own a
  | None =>
      if existsb (String.eqb key) Object_prototype_keys then Inherited
      else Undefined
  end.

Definition TEXT_RATES (vendor : ApiVendor) : list (string * TextRate) :=
  match vendor with
  | VOpenai => [
      ("gpt-5.2", {| inputPerM := dec 35 (-1); outputPerM := dec 280 (-1) |});
      ("gpt-5.1", {| inputPerM := dec 25 (-1); outputPerM := dec 200 (-1) |});
      ("gpt-4.1-mini", {| inputPerM := dec 7 (-1); outputPerM := dec 28 (-1) |})
    ]
  | VGoogle => [
      ("gemini-2.5-pro", {| inputPerM := dec 125 (-2); outputPerM := dec 100 (-1) |});
      ("gemini-2.5-flash", {| inputPerM := dec 30 (-2); outputPerM := dec 250 (-2) |})
    ]
  | VAnthropic => [
      ("claude-3-5-sonnet-latest", {| inputPerM := dec 30 (-1); outputPerM := dec 150 (-1) |});
      ("claude-3-5-haiku-latest", {| inputPerM := dec 8 (-1); outputPerM := dec 40 (-1) |})
    ]
  end.

Definition tiers (l m h : number) : ImagePrice :=
  {| low := Some l; medium := Some m; high := Some h; fixedPerImage := None |}.

Definition IMAGE_PER_IMAGE (vendor : ApiVendor) : list (string * ImagePrice) :=
  match vendor with
  | VOpenai => [
      ("gpt-image-1-mini", tiers (dec 5 (-3)) (dec 11 (-3)) (dec 36 (-3)));
      ("gpt-image-1", tiers (dec 11 (-3)) (dec 42 (-3)) (dec 167 (-3)))
    ]
  | VGoogle => [
      ("gemini-2.5-flash-image",
       {| low := None; medium := None; high := None;
          fixedPerImage := Some (dec 39 (-3)) |})
    ]
  | VAnthropic => []
  end.

(** [rate.inputPerM] and [rate.outputPerM] as operands of [*]: an inherited
    value has neither, and [undefined] is [NaN] in arithmetic. *)
Definition rate_inputPerM (rate : Property TextRate) : number :=
  match rate with Own r => inputPerM r | _ => NaN end.

Definition rate_outputPerM (rate : Property TextRate) : number :=
  match rate with Own r => outputPerM r | _ => NaN end.

Definition calcTextCostUsd (vendor : ApiVendor) (apiModel : string)
  (usage : TokenUsage) : number :=
  let rate := get_property (TEXT_RATES vendor) apiModel in
  match rate with
  | Undefined => num_of_Z 0
  | _ =>
      let inCost := num_mul (num_div (u_input usage) PER_M) (rate_inputPerM rate) in
      let outCost := num_mul (num_div (u_output usage) PER_M) (rate_outputPerM rate) in
      usd (num_add inCost outCost)
  end.

Definition tier (q : Quality) (p : ImagePrice) : option number :=
  match q with QLow => low p | QMedium => medium p | QHigh => high p end.

Record ImageCostParams := {
  p_vendor : ApiVendor;
  p_apiModel : string;
  p_imageCount : number;
  p_quality : option Quality;
  p_usage : option TokenUsage
}.

Definition calcImageCostUsd (params : ImageCostParams) : number :=
  let vendor := p_vendor params in
  let apiModel := p_apiModel params in
  let imageCount := p_imageCount params in
  let quality := default QLow (p_quality params) in
  let usage := p_usage params in
  match vendor with
  | VOpenai =>
      let table := get_property (IMAGE_PER_IMAGE VOpenai) apiModel in
      let per :=
        match table with
        | Own t =>
            match tier quality t with
            | Some x => x
            | None => default (num_of_Z 0) (low t)
            end
        | _ => num_of_Z 0
        end in
      usd (num_mul per imageCount)
  | VGoogle =>
      let table := get_property (IMAGE_PER_IMAGE VGoogle) apiModel in
      let perOut :=
        match table with
        | Own t => default (num_of_Z 0) (fixedPerImage t)
        | _ => num_of_Z 0
        end in
      let inputRate :=
        match get_property (TEXT_RATES VGoogle) "gemini-2.5-flash" with
        | Own r => inputPerM r
        | _ => dec 30 (-2)
        end in
      let inTok :=
        match usage with Some u => u_input u | None => num_of_Z 0 end in
      let inCost := num_mul (num_div inTok PER_M) inputRate in
      usd (num_add inCost (num_mul perOut imageCount))
  | VAnthropic => num_of_Z 0
  end.

(* ===================================================================== *)
(** ** JSON.parse *)
(* ===================================================================== *)

(** The grammar of ECMA-404 as [JSON.parse] reads it: the four whitespace
    characters, objects, arrays, strings with their escapes, numbers, and the
    three literals. [None] stands for the [SyntaxError] it throws. *)

Definition byte_of (n : N) : ascii := ascii_of_N n.
Definition code (c : ascii) : N := N_of_ascii c.

Definition is_json_ws (c : ascii) : bool :=
  let n := code c in
  (n =? 32)%N || (n =? 9)%N || (n =? 10)%N || (n =? 13)%N.

Fixpoint skip_ws (s : string) : string :=
  match s with
  | String c rest => if is_json_ws c then skip_ws rest else s
  | EmptyString => s
  end.

Definition digit_value (c : ascii) : option Z :=
  let n := code c in
  if ((48 <=? n) && (n <=? 57))%N then Some (Z.of_N (n - 48)) else None.

Definition hex_value (c : ascii) : option N :=
  let n := code c in
  if ((48 <=? n) && (n <=? 57))%N then Some (n - 48)%N
  else if ((65 <=? n) && (n <=? 70))%N then Some (n - 55)%N
  else if ((97 <=? n) && (n <=? 102))%N then Some (n - 87)%N
  else None.

(** The UTF-8 bytes of a code point (a lone surrogate is written as any other
    three-byte code point). *)
Definition utf8 (cp : N) : string :=
  if (cp <? 128)%N then String (byte_of cp) ""
  else if (cp <? 2048)%N then
    String (byte_of (192 + cp / 64)) (String (byte_of (128 + cp mod 64)) "")
  else if (cp <? 65536)%N then
    String (byte_of (224 + cp / 4096))
      (String (byte_of (128 + (cp / 64) mod 64))
         (String (byte_of (128 + cp mod 64)) ""))
  else
    String (byte_of (240 + cp / 262144))
      (String (byte_of (128 + (cp / 4096) mod 64))
         (String (byte_of (128 + (cp / 64) mod 64))
            (String (byte_of (128 + cp mod 64)) ""))).

Definition is_high_surrogate (u : N) : bool := ((55296 <=? u) && (u <=? 56319))%N.
Definition is_low_surrogate (u : N) : bool := ((56320 <=? u) && (u <=? 57343))%N.

(** A string literal's content: bytes copied from the text, and code units
    written as [\uXXXX]; a high surrogate followed by a low one is one code
    point. *)
Fixpoint encode_units (us : list (ascii + N)) : string :=
  match us with
  | [] => ""
  | inl c :: r => String c (encode_units r)
  | inr hi :: r =>
      match r with
      | inr lo :: r' =>
          if is_high_surrogate hi && is_low_surrogate lo
          then utf8 (65536 + (hi - 55296) * 1024 + (lo - 56320)) +:+ encode_units r'
          else utf8 hi +:+ encode_units r
      | _ => utf8 hi +:+ encode_units r
      end
  end.

Definition simple_escape (c : ascii) : option ascii :=
  let n := code c in
  if (n =? 34)%N then Some (byte_of 34)          (* quote *)
  else if (n =? 92)%N then Some (byte_of 92)     (* \\ *)
  else if (n =? 47)%N then Some (byte_of 47)     (* \/ *)
  else if (n =? 98)%N then Some (byte_of 8)      (* \b *)
  else if (n =? 102)%N then Some (byte_of 12)    (* \f *)
  else if (n =? 110)%N then Some (byte_of 10)    (* \n *)
  else if (n =? 114)%N then Some (byte_of 13)    (* \r *)
  else if (n =? 116)%N then Some (byte_of 9)     (* \t *)
  else None.

(** After the opening quote: the units up to the closing quote, and the rest
    of the text. *)
Fixpoint string_body (s : string) (acc : list (ascii + N))
  : option (list (ascii + N) * string) :=
  match s with
  | EmptyString => None
  | String c rest =>
      let n := code c in
      if (n =? 34)%N then Some (rev acc, rest)
      else if (n <? 32)%N then None
      else if (n =? 92)%N then
        match rest with
        | String e rest' =>
            if (code e =? 117)%N then
              match rest' with
              | String h1 (String h2 (String h3 (String h4 rest''))) =>
                  match hex_value h1, hex_value h2, hex_value h3, hex_value h4 with
                  | Some a, Some b, Some c', Some d =>
                      string_body rest''
                        (inr (a * 4096 + b * 256 + c' * 16 + d)%N :: acc)
                  | _, _, _, _ => None
                  end
              | _ => None
              end
            else
              match simple_escape e with
              | Some b => string_body rest' (inl b :: acc)
              | None => None
              end
        | EmptyString => None
        end
      else string_body rest (inl c :: acc)
  end.

Definition parse_string (s : string) : option (string * string) :=
  match string_body s [] with
  | Some (us, rest) => Some (encode_units us, rest)
  | None => None
  end.

(** The digits at the head of [s]: their value after [acc], how many there
    are, and the rest. *)
Fixpoint take_digits (s : string) (acc : Z) (count : Z) : Z * Z * string :=
  match s with
  | String c rest =>
      match digit_value c with
      | Some d => take_digits rest (acc * 10 + d) (count + 1)
      | None => (acc, count, s)
      end
  | EmptyString => (acc, count, s)
  end.

Definition parse_exponent (s : string) : option (Z * string) :=
  match s with
  | String c rest =>
      if ((code c =? 101) || (code c =? 69))%N then
        let '(neg, rest1) :=
          match rest with
          | String sg r =>
              if (code sg =? 45)%N then (true, r)
              else if (code sg =? 43)%N then (false, r)
              else (false, rest)
          | EmptyString => (false, rest)
          end in
        let '(e, k, rest2) := take_digits rest1 0 0 in
        if k =? 0 then None else Some (if neg then - e else e, rest2)
      else Some (0, s)
  | EmptyString => Some (0, s)
  end.

Definition parse_number (s : string) : option (number * string) :=
  let '(neg, s1) :=
    match s with
    | String c rest => if (code c =? 45)%N then (true, rest) else (false, s)
    | EmptyString => (false, s)
    end in
  let '(ip, ik, s2) := take_digits s1 0 0 in
  let leading_zero :=
    match s1 with String c _ => (code c =? 48)%N | EmptyString => false end in
  if (ik =? 0) || (leading_zero && (1 <? ik)) then None
  else
    let frac :=
      match s2 with
      | String c rest =>
          if (code c =? 46)%N then
            let '(m, fk, s3) := take_digits rest ip 0 in
            if fk =? 0 then None else Some (m, fk, s3)
          else Some (ip, 0, s2)
      | EmptyString => Some (ip, 0, s2)
      end in
    match frac with
    | None => None
    | Some (m, fk, s3) =>
        match parse_exponent s3 with
        | None => None
        | Some (e, s4) =>
            let x :=
              if m =? 0 then S754_zero neg
              else dec (if neg then - m else m) (e - fk) in
            Some (x, s4)
        end
    end.

Fixpoint strip_prefix (p s : string) : option string :=
  match p with
  | EmptyString => Some s
  | String a p' =>
      match s with
      | String b s' => if Ascii.eqb a b then strip_prefix p' s' else None
      | EmptyString => None
      end
  end.

(** One value at the head of [s] (after whitespace); [fuel] bounds the
    nesting and the number of elements. *)
Fixpoint parse_value (fuel : nat) (s : string) : option (jsval * string) :=
  match fuel with
  | O => None
  | S fuel' =>
      match skip_ws s with
      | EmptyString => None
      | String c rest as s0 =>
          let n := code c in
          if (n =? 123)%N then                       (* { *)
            match skip_ws rest with
            | String c' rest' =>
                if (code c' =? 125)%N then Some (JObj [], rest')
                else parse_members fuel' rest []
            | EmptyString => None
            end
          else if (n =? 91)%N then                   (* [ *)
            match skip_ws rest with
            | String c' rest' =>
                if (code c' =? 93)%N then Some (JArr [], rest')
                else parse_elements fuel' rest []
            | EmptyString => None
            end
          else if (n =? 34)%N then                   (* quote *)
            match parse_string rest with
            | Some (str, r) => Some (JStr str, r)
            | None => None
            end
          else
            match strip_prefix "true" s0 with
            | Some r => Some (JBool true, r)
            | None =>
            match strip_prefix "false" s0 with
            | Some r => Some (JBool false, r)
            | None =>
            match strip_prefix "null" s0 with
            | Some r => Some (JNull, r)
            | None =>
            match parse_number s0 with
            | Some (x, r) => Some (JNum x, r)
            | None => None
            end end end end
      end
  end
with parse_elements (fuel : nat) (s : string) (acc : list jsval)
  : option (jsval * string) :=
  match fuel with
  | O => None
  | S fuel' =>
      match parse_value fuel' s with
      | Some (v, r) =>
          match skip_ws r with
          | String c r' =>
              if (code c =? 44)%N then parse_elements fuel' r' (v :: acc)
              else if (code c =? 93)%N then Some (JArr (rev (v :: acc)), r')
              else None
          | EmptyString => None
          end
      | None => None
      end
  end
with parse_members (fuel : nat) (s : string) (acc : list (string * jsval))
  : option (jsval * string) :=
  match fuel with
  | O => None
  | S fuel' =>
      match skip_ws s with
      | String q r0 =>
          if (code q =? 34)%N then
            match parse_string r0 with
            | Some (k, r1) =>
                match skip_ws r1 with
                | String colon r2 =>
                    if (code colon =? 58)%N then
                      match parse_value fuel' r2 with
                      | Some (v, r3) =>
                          match skip_ws r3 with
                          | String c r4 =>
                              if (code c =? 44)%N
                              then parse_members fuel' r4 ((k, v) :: acc)
                              else if (code c =? 125)%N
                              then Some (JObj (rev ((k, v) :: acc)), r4)
                              else None
                          | EmptyString => None
                          end
                      | None => None
                      end
                    else None
                | EmptyString => None
                end
            | None => None
            end
          else None
      | EmptyString => None
      end
  end.

(** [JSON.parse(text)]: one value, whitespace around it, nothing else. Every
    step of the parser consumes a character, so twice the length of the text
    is fuel enough. *)
Definition JSON_parse (text : string) : option jsval :=
  match parse_value (2 * String.length text + 2) text with
  | Some (v, rest) =>
      match skip_ws rest with
      | EmptyString => Some v
      | String _ _ => None
      end
  | None => None
  end.

(* ===================================================================== *)
(** ** Strings: [String(v)], [trim], base64 *)
(* ===================================================================== *)

(** The decimal digits of [s], [k] of them. *)
Fixpoint digits_of (k : nat) (s : Z) (acc : string) : string :=
  match k with
  | O => acc
  | S k' => digits_of k' (s / 10) (String (byte_of (Z.to_N (48 + s mod 10))) acc)
  end.

Fixpoint decimal_length (fuel : nat) (s : Z) : nat :=
  match fuel with
  | O => O
  | S f => if s <? 10 then 1%nat else S (decimal_length f (s / 10))
  end.

Definition Z_to_string (s : Z) : string :=
  let a := Z.abs s in
  let d := digits_of (decimal_length (Z.to_nat (Z.log2 a + 1)) a) a "" in
  if s <? 0 then "-" +:+ d else d.

Fixpoint zeros (k : nat) : string :=
  match k with O => "" | S k' => String "0" (zeros k') end.

(** [10^j <= m * 2^e], exactly. *)
Definition pow10_le (j : Z) (m : positive) (e : Z) : bool :=
  let lhs := (if 0 <=? j then 10 ^ j else 1) * (if e <? 0 then 2 ^ (- e) else 1) in
  let rhs := Zpos m * (if 0 <=? e then 2 ^ e else 1) * (if j <? 0 then 10 ^ (- j) else 1) in
  lhs <=? rhs.

(** The [n] with [10^(n-1) <= m * 2^e < 10^n], searched downwards from [j]. *)
Fixpoint decimal_exponent (fuel : nat) (j : Z) (m : positive) (e : Z) : Z :=
  match fuel with
  | O => j + 1
  | S f => if pow10_le j m e then j + 1 else decimal_exponent f (j - 1) m e
  end.

(** The shortest digit string [s] (of [k] digits, [k] from [k0] upwards) with
    [s * 10^(n-k)] reading back as [x], the closest to [x] when two fit;
    returned with its [n]. *)
Fixpoint shortest_digits (fuel : nat) (k : Z) (n : Z) (m : positive) (e : Z)
  : Z * Z * Z :=
  let x := S754_finite false m e in
  let t := n - k in
  let num := Zpos m * (if 0 <=? e then 2 ^ e else 1) * (if t <? 0 then 10 ^ (- t) else 1) in
  let den := (if e <? 0 then 2 ^ (- e) else 1) * (if 0 <=? t then 10 ^ t else 1) in
  let lo := num / den in
  let r := num mod den in
  let hi := lo + 1 in
  let fits s := SFeqb (dec s t) x in
  let norm s := if s =? 10 ^ k then (10 ^ (k - 1), k, n + 1) else (s, k, n) in
  match fuel with
  | O => (lo, k, n)
  | S f =>
      match fits lo, fits hi with
      | true, true =>
          if 2 * r <? den then (lo, k, n)
          else if den <? 2 * r then norm hi
          else if Z.even lo then (lo, k, n) else norm hi
      | true, false => (lo, k, n)
      | false, true => norm hi
      | false, false => shortest_digits f (k + 1) n m e
      end
  end.

(** [Number::toString] in radix 10. *)
Definition Number_toString (x : number) : string :=
  match x with
  | S754_nan => "NaN"
  | S754_zero _ => "0"
  | S754_infinity s => if s then "-Infinity" else "Infinity"
  | S754_finite sg m e =>
      let est := ((Z.log2 (Zpos m) + e) * 30103) / 100000 in
      let n0 := decimal_exponent 6 (est + 2) m e in
      let '(s, k, n) := shortest_digits 17 1 n0 m e in
      let d := digits_of (Z.to_nat k) s "" in
      let body :=
        if (k <=? n) && (n <=? 21) then d +:+ zeros (Z.to_nat (n - k))
        else if (0 <? n) && (n <=? 21) then
          String.substring 0 (Z.to_nat n) d +:+ "." +:+
          String.substring (Z.to_nat n) (Z.to_nat (k - n)) d
        else if (-6 <? n) && (n <=? 0) then
          "0." +:+ zeros (Z.to_nat (- n)) +:+ d
        else
          let ex := (if 0 <? n - 1 then "+" else "-") +:+ Z_to_string (Z.abs (n - 1)) in
          if k =? 1 then d +:+ "e" +:+ ex
          else String.substring 0 1 d +:+ "." +:+
               String.substring 1 (Z.to_nat (k - 1)) d +:+ "e" +:+ ex in
      if sg then "-" +:+ body else body
  end.

(** [String(v)], and what a template literal makes of [v]. A value read from
    JSON has no property that is a function: an object with a key [toString]
    of its own hides [Object.prototype.toString], neither [toString] nor
    [valueOf] gives a primitive, and the conversion throws a [TypeError];
    every other object is [[object Object]]. An array is the texts of its
    elements joined by commas, [null] and [undefined] counting as the empty
    text. [None] stands for the [TypeError]. *)
Fixpoint js_String (v : jsval) : option string :=
  match v with
  | JUndefined => Some "undefined"
  | JNull => Some "null"
  | JBool b => Some (if b then "true" else "false")
  | JNum x => Some (Number_toString x)
  | JStr s => Some s
  | JArr xs =>
      let fix join (l : list jsval) : option string :=
        match l with
        | [] => Some ""
        | a :: r =>
            match (if js_nullish a then Some "" else js_String a) with
            | None => None
            | Some s =>
                match r with
                | [] => Some s
                | _ :: _ =>
                    match join r with
                    | None => None
                    | Some t => Some (s +:+ "," +:+ t)
                    end
                end
            end
        end in
      join xs
  | JObj props =>
      match last_binding props "toString" with
      | Some _ => None
      | None => Some "[object Object]"
      end
  end.

(** [xs.join(sep)] *)
Fixpoint js_join (sep : string) (xs : list jsval) : option string :=
  match xs with
  | [] => Some ""
  | a :: r =>
      match (if js_nullish a then Some "" else js_String a) with
      | None => None
      | Some s =>
          match r with
          | [] => Some s
          | _ :: _ =>
              match js_join sep r with
              | None => None
              | Some t => Some (s +:+ sep +:+ t)
              end
          end
      end
  end.

(** The message of the [TypeError] of a conversion that fails, in V8 (the
    route runs on [nodejs]). *)
Definition primitive_error_message : string :=
  "Cannot convert object to primitive value".

(** The characters [trim] removes (WhiteSpace and LineTerminator), as UTF-8
    byte sequences. *)
Definition bytes (l : list N) : string :=
  fold_right (fun n s => String (byte_of n) s) "" l.

Definition white_space : list (list N) :=
  [[9]; [10]; [11]; [12]; [13]; [32]; [194; 160]; [225; 154; 128];
   [226; 128; 128]; [226; 128; 129]; [226; 128; 130]; [226; 128; 131];
   [226; 128; 132]; [226; 128; 133]; [226; 128; 134]; [226; 128; 135];
   [226; 128; 136]; [226; 128; 137]; [226; 128; 138]; [226; 128; 168];
   [226; 128; 169]; [226; 128; 175]; [226; 129; 159]; [227; 128; 128];
   [239; 187; 191]]%N.

Fixpoint strip_any (seqs : list string) (s : string) : option string :=
  match seqs with
  | [] => None
  | p :: rest =>
      match strip_prefix p s with
      | Some s' => Some s'
      | None => strip_any rest s
      end
  end.

Fixpoint strip_all (fuel : nat) (seqs : list string) (s : string) : string :=
  match fuel with
  | O => s
  | S f =>
      match strip_any seqs s with
      | Some s' => strip_all f seqs s'
      | None => s
      end
  end.

Definition trimStart (s : string) : string :=
  strip_all (String.length s) (map bytes white_space) s.

Definition trimEnd (s : string) : string :=
  String.rev
    (strip_all (String.length s) (map (fun l => bytes (rev l)) white_space)
       (String.rev s)).

Definition trim (s : string) : string := trimEnd (trimStart s).

Definition b64_alphabet : string :=
  "ABCDEFGHIJKLMNOPQRSTUVWXYZabcdefghijklmnopqrstuvwxyz0123456789+/".

Definition b64_char (n : N) : ascii :=
  default "="%char (String.get (N.to_nat n) b64_alphabet).

(** [buf.toString("base64")] *)
Fixpoint base64 (buf : string) : string :=
  match buf with
  | EmptyString => ""
  | String a EmptyString =>
      let x := code a in
      String (b64_char (x / 4)) (String (b64_char ((x mod 4) * 16)) "==")
  | String a (String b EmptyString) =>
      let x := code a in
      let y := code b in
      String (b64_char (x / 4))
        (String (b64_char ((x mod 4) * 16 + y / 16))
           (String (b64_char ((y mod 16) * 4)) "="))
  | String a (String b (String c rest)) =>
      let x := code a in
      let y := code b in
      let z := code c in
      String (b64_char (x / 4))
        (String (b64_char ((x mod 4) * 16 + y / 16))
           (String (b64_char ((y mod 16) * 4 + z / 64))
              (String (b64_char (z mod 64)) (base64 rest))))
  end%N.

(* ===================================================================== *)
(** ** app/api/generate/route.ts: helpers *)
(* ===================================================================== *)

(** The suffix of [s] that starts at the first [c]. *)
Fixpoint from_first (c : ascii) (s : string) : option string :=
  match s with
  | EmptyString => None
  | String a rest => if Ascii.eqb a c then Some s else from_first c rest
  end.

(** The prefix of [s] that ends at the last [c]. *)
Fixpoint upto_last (c : ascii) (s : string) : option string :=
  match s with
  | EmptyString => None
  | String a rest =>
      match upto_last c rest with
      | Some p => Some (String a p)
      | None => if Ascii.eqb a c then Some (String a "") else None
      end
  end.

(** [text.match(/\{[\s\S]*\}/)]: the leftmost match starts at the first
    opening brace that has a closing brace after it, which is the first
    opening brace of the text, and being greedy it ends at the last closing
    brace. *)
Definition match_braces (text : string) : option string :=
  match from_first "{" text with
  | Some s => upto_last "}" s
  | None => None
  end.

(** [null] is the value [JNull]: what the function returns when nothing
    parses is also what it returns for the text [null]. *)
Definition safeParseJson (text : string) : jsval :=
  match JSON_parse text with
  | Some v => v
  | None =>
      match match_braces text with
      | None => JNull
      | Some m0 =>
          match JSON_parse m0 with
          | Some v => v
          | None => JNull
          end
      end
  end.

(** [dataUrl.match(/^data:([^;]+);base64,(.+)$/)]: the first group is what
    precedes the first semicolon, the second the rest of the text, which [.]
    matches only if it holds no line terminator. [None] stands for the
    [Error] the function throws. *)
Fixpoint before_semicolon (s : string) : string * string :=
  match s with
  | EmptyString => ("", "")
  | String c rest =>
      if (code c =? 59)%N then ("", s)
      else let '(a, b) := before_semicolon rest in (String c a, b)
  end.

Fixpoint has_line_terminator (s : string) : bool :=
  match s with
  | EmptyString => false
  | String c rest =>
      (code c =? 10)%N || (code c =? 13)%N
      || match strip_prefix (bytes [226; 128; 168]%N) s,
               strip_prefix (bytes [226; 128; 169]%N) s with
         | None, None => false
         | _, _ => true
         end
      || has_line_terminator rest
  end.

Definition parseDataUrl (dataUrl : string) : option (string * string) :=
  match strip_prefix "data:" dataUrl with
  | None => None
  | Some r =>
      let '(mime, rest) := before_semicolon r in
      if String.eqb mime "" then None
      else
        match strip_prefix ";base64," rest with
        | None => None
        | Some b64 =>
            if String.eqb b64 "" || has_line_terminator b64 then None
            else Some (mime, b64)
        end
  end.

(** The three prompts are templates filled with the builder's arguments; a
    prompt is kept as the template and its arguments. *)
Inductive Prompt :=
| VisionPrompt (title : string)
| ConceptPrompt (title : string) (vision : jsval) (userConcept : option string)
| FinalImagePrompt (title : string) (vision direction : jsval).

Definition buildVisionPrompt (title : string) : Prompt := VisionPrompt title.

Definition buildConceptPrompt (title : string) (vision : jsval)
  (userConcept : option string) : Prompt :=
  ConceptPrompt title vision userConcept.

(** The texts [buildFinalImagePrompt] puts into its template: the elements
    of [vision.immutable_elements] joined, when that is an array that is not
    empty, and eight fields of the direction. *)
Definition immutable_line (vision : jsval) : option string :=
  let immutable :=
    match js_get vision "immutable_elements" with
    | JArr xs => xs
    | _ => []
    end in
  match immutable with
  | [] => Some ""
  | _ :: _ =>
      joined ← js_join "; " immutable;
      Some ("- Immutable elements: " +:+ joined)
  end.

Definition direction_fields : list string :=
  ["product_description"; "background"; "lighting_setup"; "lighting_purpose";
   "camera_angle"; "showcase_feature"; "key_detail"; "aspect_ratio"].

(** [None] stands for the [TypeError] of a value of the vision or of the
    direction that has no string form. *)
Definition buildFinalImagePrompt (title : string) (vision direction : jsval)
  : option Prompt :=
  _ ← immutable_line vision;
  _ ← mapM (fun field => js_String (js_get direction field)) direction_fields;
  Some (FinalImagePrompt title vision direction).

(* ===================================================================== *)
(** ** The store, the vendors and the environment *)
(* ===================================================================== *)

Inductive Stage := VISION | CONCEPT | IMAGE_EDIT.

(** A row of [RequestLog]; its [id] is the key it is stored under. *)
Record RequestLog := {
  log_title : string;
  log_userConcept : option string;
  log_conceptUsed : option string;
  log_textProvider : Provider;
  log_textModel : string;
  log_imageProvider : Provider;
  log_imageModel : string;
  log_success : bool;
  log_errorMessage : option string;
  log_totalCostUsd : number;
  log_latencyMs : Z
}.

Record RequestCostLineItem := {
  item_requestId : nat;
  item_stage : Stage;
  item_provider : Provider;
  item_model : string;
  item_inputTokens : option number;
  item_outputTokens : option number;
  item_totalTokens : option number;
  item_imageSize : option Z;
  item_imageCount : option Z;
  item_costUsd : number
}.

Inductive Endpoint :=
| Responses          (* api.openai.com/v1/responses *)
| GenerateContent    (* generativelanguage.googleapis.com ...:generateContent *)
| Messages           (* api.anthropic.com/v1/messages *)
| ImagesEdits.       (* api.openai.com/v1/images/edits *)

Inductive Attachment :=
| NoImage
| ImageUrl (dataUrl : string)
| InlineData (mime data : string)
| Binary (buf mime : string).

(** One [fetch] to a vendor. *)
Record NetCall := {
  net_endpoint : Endpoint;
  net_model : string;
  net_prompt : Prompt;
  net_image : Attachment
}.

(** What an adapter reads out of a response body through its accessors
    ([getOpenAITextOut], [getOpenAIUsage], [geminiTextFromResponse],
    [geminiUsage], [claudeTextFromResponse], [claudeUsage], and the lookups of
    the image payload). *)
Record Body := {
  read_text : string;
  read_usage : TokenUsage;
  read_image : jsval;
  read_parts_text : string
}.

(** How a vendor exchange ends. [msg] is the text of the value thrown, as
    the [catch] block of the handler renders it. *)
Inductive Answer :=
| FetchFails (msg : string)     (* fetch rejects *)
| NotOk (text : string)         (* !res.ok, with res.text() *)
| ReadFails (msg : string)      (* res.json() or an accessor throws *)
| Ok (body : Body).

(** The process environment, the vendors and the clock. [respond] answers a
    call given the calls made before it. *)
Record Env := {
  OPENAI_API_KEY : option string;
  GEMINI_API_KEY : option string;
  ANTHROPIC_API_KEY : option string;
  respond : list NetCall -> NetCall -> Answer;
  startedAt : Z;
  finishedAt : Z
}.

(** The persistent store and the calls made so far. The data-access layer
    is taken to work: [create] and [update] do not throw. *)
Record World := {
  requestLogs : gmap nat RequestLog;
  costLineItems : list RequestCostLineItem;
  calls : list NetCall
}.

(** [!key] is true for an absent and for an empty key. *)
Definition key_set (key : option string) : bool :=
  match key with
  | Some k => negb (String.eqb k "")
  | None => false
  end.

(** *** The request *)

Record File := {
  file_type : string;
  file_bytes : string
}.

Inductive FormValue :=
| FormString (s : string)
| FormFile (f : File).

(** [req.formData()]: the entries in order, or the text of the error it
    throws. *)
Record Request := {
  formData : string + list (string * FormValue)
}.

(** [String(form.get(name) || fallback)] *)
Definition form_string (form : list (string * FormValue)) (name fallback : string)
  : string :=
  match table_get form name with
  | Some (FormString s) => if String.eqb s "" then fallback else s
  | Some (FormFile _) => "[object File]"
  | None => fallback
  end.

Inductive ResponseBody :=
| ErrorBody (error : string)
| ResultBody (concept_used : string) (image_base64 : jsval).

Record Response := {
  status : Z;
  body : ResponseBody
}.

Definition bad (msg : string) (status : Z) : Response :=
  {| status := status; body := ErrorBody msg |}.

(* ===================================================================== *)
(** ** The handler's monad: state, early return, exceptions *)
(* ===================================================================== *)

Record State := {
  world : World;
  requestLogId : option nat
}.

(** How a computation of the handler ends: with a value, with a [return] of
    the handler, or with an exception. An exception is kept as the text the
    [catch] block makes of it, [String(e?.message || e || "unknown error")]:
    for the [new Error(m)] of this file, whose [m] is never empty, that is
    [m]. *)
Inductive Exit (A : Type) : Type :=
| Val (a : A)
| Return (r : Response)
| Throw (msg : string).
Arguments Val {A} a.
Arguments Return {A} r.
Arguments Throw {A} msg.

Definition M (A : Type) : Type := State -> Exit A * State.

Definition ret {A : Type} (a : A) : M A := fun st => (Val a, st).
Definition early {A : Type} (r : Response) : M A := fun st => (Return r, st).
Definition throw {A : Type} (msg : string) : M A := fun st => (Throw msg, st).

Definition bind {A B : Type} (m : M A) (k : A -> M B) : M B :=
  fun st =>
    match m st with
    | (Val a, st') => k a st'
    | (Return r, st') => (Return r, st')
    | (Throw msg, st') => (Throw msg, st')
    end.

#[global] Instance M_ret : MRet M := @ret.
#[global] Instance M_bind : MBind M := fun A B k m => bind m k.

Definition set_world (w : World) (st : State) : State :=
  {| world := w; requestLogId := requestLogId st |}.

(** [await fetch(...)]: the call is made, the vendor answers. *)
Definition fetch (env : Env) (call : NetCall) : M Answer :=
  fun st =>
    let w := world st in
    (Val (respond env (calls w) call),
     set_world {| requestLogs := requestLogs w;
                  costLineItems := costLineItems w;
                  calls := calls w ++ [call] |} st).

(** [prisma.requestLog.create]: the row is stored under a new id. *)
Definition requestLog_create (data : RequestLog) : M nat :=
  fun st =>
    let w := world st in
    let id := fresh (dom (requestLogs w)) in
    (Val id,
     set_world {| requestLogs := <[id := data]> (requestLogs w);
                  costLineItems := costLineItems w;
                  calls := calls w |} st).

Definition requestCostLineItem_create (data : RequestCostLineItem) : M unit :=
  fun st =>
    let w := world st in
    (Val tt,
     set_world {| requestLogs := requestLogs w;
                  costLineItems := costLineItems w ++ [data];
                  calls := calls w |} st).

(** [prisma.requestLog.update] of the row this request created (the row is
    there: the handler is the only writer during a request). *)
Definition update_row (id : nat) (f : RequestLog -> RequestLog) (w : World)
  : World :=
  {| requestLogs := alter f id (requestLogs w);
     costLineItems := costLineItems w;
     calls := calls w |}.

Definition requestLog_update (id : nat) (f : RequestLog -> RequestLog) : M unit :=
  fun st => (Val tt, set_world (update_row id f (world st)) st).

Definition set_requestLogId (id : nat) : M unit :=
  fun st => (Val tt, {| world := world st; requestLogId := Some id |}).

(* ===================================================================== *)
(** ** The vendor adapters *)
(* ===================================================================== *)

Definition truthy_string (s : option string) : option string :=
  match s with
  | Some d => if String.eqb d "" then None else Some d
  | None => None
  end.

(** The end of a text call: [if (!res.ok) throw ...], then the accessors. *)
Definition text_result (failure : string) (ans : Answer)
  : M (string * TokenUsage) :=
  match ans with
  | FetchFails msg => throw msg
  | NotOk text => throw (failure +:+ text)
  | ReadFails msg => throw msg
  | Ok b => mret (read_text b, read_usage b)
  end.

(** [parseDataUrl] where the adapter attaches the image. *)
Definition inline_image (dataUrl : option string) : M Attachment :=
  match truthy_string dataUrl with
  | None => mret NoImage
  | Some d =>
      match parseDataUrl d with
      | Some (mime, b64) => mret (InlineData mime b64)
      | None => throw "dataUrl 파싱 실패"
      end
  end.

Definition callTextModel (env : Env) (vendor : ApiVendor) (apiModel : string)
  (prompt : Prompt) (dataUrl : option string)
  (openaiKey geminiKey anthropicKey : option string)
  : M (string * TokenUsage) :=
  match vendor with
  | VOpenai =>
      let image :=
        match truthy_string dataUrl with
        | Some d => ImageUrl d
        | None => NoImage
        end in
      ans ← fetch env {| net_endpoint := Responses; net_model := apiModel;
                         net_prompt := prompt; net_image := image |};
      text_result "OpenAI 텍스트 호출 실패: " ans
  | VGoogle =>
      if negb (key_set geminiKey)
      then throw "GEMINI_API_KEY가 설정되지 않았습니다."
      else
        image ← inline_image dataUrl;
        ans ← fetch env {| net_endpoint := GenerateContent; net_model := apiModel;
                           net_prompt := prompt; net_image := image |};
        text_result "Gemini 텍스트 호출 실패: " ans
  | VAnthropic =>
      if negb (key_set anthropicKey)
      then throw "ANTHROPIC_API_KEY가 설정되지 않았습니다."
      else
        image ← inline_image dataUrl;
        ans ← fetch env {| net_endpoint := Messages; net_model := apiModel;
                           net_prompt := prompt; net_image := image |};
        text_result "Anthropic 텍스트 호출 실패: " ans
  end.

Definition callImageEdit (env : Env) (vendor : ApiVendor) (apiModel : string)
  (prompt : Prompt) (buf mime : string) (openaiKey geminiKey : option string)
  : M (jsval * option TokenUsage) :=
  match vendor with
  | VOpenai =>
      ans ← fetch env {| net_endpoint := ImagesEdits; net_model := apiModel;
                         net_prompt := prompt; net_image := Binary buf mime |};
      match ans with
      | FetchFails msg => throw msg
      | NotOk text => throw ("OpenAI 이미지 편집 실패: " +:+ text)
      | ReadFails msg => throw msg
      | Ok b =>
          let b64 := read_image b in
          if negb (js_truthy b64) then throw "이미지 응답 파싱 실패"
          else mret (b64, None)
      end
  | VGoogle =>
      if negb (key_set geminiKey)
      then throw "GEMINI_API_KEY가 설정되지 않았습니다."
      else
        ans ← fetch env {| net_endpoint := GenerateContent; net_model := apiModel;
                           net_prompt := prompt;
                           net_image := InlineData mime (base64 buf) |};
        match ans with
        | FetchFails msg => throw msg
        | NotOk text => throw ("Gemini 이미지 호출 실패: " +:+ text)
        | ReadFails msg => throw msg
        | Ok b =>
            let outB64 := read_image b in
            if negb (js_truthy outB64) then
              let textFallback := read_parts_text b in
              throw ("Gemini 이미지 응답 파싱 실패 (텍스트: " +:+
                     (if String.eqb textFallback "" then "없음" else textFallback)
                     +:+ ")")
            else mret (outB64, Some (read_usage b))
        end
  | VAnthropic => throw "Anthropic은 이미지 생성/편집을 지원하지 않습니다."
  end.

Record VisionEngine := {
  ve_provider : Provider;
  ve_vendor : ApiVendor;
  ve_apiModel : string
}.

(** The engine of the vision step: the text engine, but for [anthropic]
    OpenAI first and Gemini second. [inl] is the [Error] thrown. *)
Definition chooseVisionEngine (cfg : EngineConfig)
  (openaiKey geminiKey : option string) : string + VisionEngine :=
  match textProvider cfg with
  | Anthropic =>
      if key_set openaiKey then
        let provider := Openai in
        inr {| ve_provider := provider; ve_vendor := getApiVendor provider;
               ve_apiModel := resolveApiModel provider KText (textModel defaultConfig) |}
      else if key_set geminiKey then
        let provider := Gemini in
        inr {| ve_provider := provider; ve_vendor := getApiVendor provider;
               ve_apiModel := resolveApiModel provider KText "gemini-2.5-flash" |}
      else
        inl "Claude(Text) 선택 시 Vision 분석을 위해 OPENAI_API_KEY 또는 GEMINI_API_KEY가 필요합니다."
  | provider =>
      inr {| ve_provider := provider; ve_vendor := getApiVendor provider;
             ve_apiModel := resolveApiModel provider KText (textModel cfg) |}
  end.

Definition or_throw {A : Type} (r : string + A) : M A :=
  match r with
  | inl msg => throw msg
  | inr a => mret a
  end.

(** A conversion to a string, where it is made: its [TypeError] is thrown. *)
Definition converted {A : Type} (r : option A) : M A :=
  match r with
  | Some a => mret a
  | None => throw primitive_error_message
  end.

(* ===================================================================== *)
(** ** POST *)
(* ===================================================================== *)

(** Step 2: the configuration of the request. [normalizeEngineConfig] always
    yields an object of type [EngineConfig] (lemma [normalized_is_config]),
    so the default of [default] is never taken. *)
Definition loadEngineConfig (cfgRaw : string) : EngineConfig :=
  let merged :=
    match JSON_parse cfgRaw with
    | Some v => normalizeEngineConfig v
    | None => normalizeEngineConfig (config_value defaultConfig)
    end in
  default defaultConfig (as_EngineConfig merged).

Definition initial_log (title userConcept : string) (cfg : EngineConfig)
  : RequestLog := {|
  log_title := title;
  log_userConcept := if String.eqb userConcept "" then None else Some userConcept;
  log_conceptUsed := None;
  log_textProvider := textProvider cfg;
  log_textModel := textModel cfg;
  log_imageProvider := imageProvider cfg;
  log_imageModel := imageModel cfg;
  log_success := false;
  log_errorMessage := None;
  log_totalCostUsd := num_of_Z 0;
  log_latencyMs := 0
|}.

Definition text_item (requestId : nat) (stage : Stage) (provider : Provider)
  (model : string) (usage : TokenUsage) (cost : number)
  : RequestCostLineItem := {|
  item_requestId := requestId;
  item_stage := stage;
  item_provider := provider;
  item_model := model;
  item_inputTokens := Some (u_input usage);
  item_outputTokens := Some (u_output usage);
  item_totalTokens := Some (u_total usage);
  item_imageSize := None;
  item_imageCount := None;
  item_costUsd := cost
|}.

Definition image_item (requestId : nat) (provider : Provider) (model : string)
  (cost : number) : RequestCostLineItem := {|
  item_requestId := requestId;
  item_stage := IMAGE_EDIT;
  item_provider := provider;
  item_model := model;
  item_inputTokens := None;
  item_outputTokens := None;
  item_totalTokens := None;
  item_imageSize := Some 1024;
  item_imageCount := Some 1;
  item_costUsd := cost
|}.

Definition default_vision (text : string) : jsval :=
  JObj [("product_type", JStr "product");
        ("immutable_elements", JArr []);
        ("distinguishing_features", JArr []);
        ("raw", JStr text)].

Definition default_direction (userConcept : string) : jsval :=
  JObj [("one_line_concept",
         JStr (if String.eqb userConcept ""
               then "스튜디오 라이팅으로 제품 선명 강조" else userConcept));
        ("product_description", JStr "the product (accurate description required)");
        ("background", JStr "a clean neutral studio surface");
        ("lighting_setup", JStr "three-point softbox setup");
        ("lighting_purpose", JStr "create a clean premium silhouette and reveal texture");
        ("camera_angle", JStr "3/4 front angle");
        ("showcase_feature", JStr "the product’s main form and key brand elements");
        ("key_detail", JStr "material texture and stitching");
        ("aspect_ratio", JStr "1:1")].

(** The label stored and returned: the model's one-line concept, else the
    user's concept, else a fixed phrase. [None] stands for the [TypeError] of
    a concept that has no string form. *)
Definition deriveConceptUsed (direction : jsval) (userConcept : string)
  : option string :=
  text ← js_String (js_or (js_get direction "one_line_concept") (JStr ""));
  let own := trim text in
  Some (if String.eqb own "" then
          if String.eqb userConcept "" then "스튜디오 무드로 제품 강조" else userConcept
        else own).

Definition succeed (conceptUsed : string) (latencyMs : Z) (totalCostUsd : number)
  (r : RequestLog) : RequestLog := {|
  log_title := log_title r;
  log_userConcept := log_userConcept r;
  log_conceptUsed := Some conceptUsed;
  log_textProvider := log_textProvider r;
  log_textModel := log_textModel r;
  log_imageProvider := log_imageProvider r;
  log_imageModel := log_imageModel r;
  log_success := true;
  log_errorMessage := None;
  log_totalCostUsd := totalCostUsd;
  log_latencyMs := latencyMs
|}.

Definition fail (msg : string) (latencyMs : Z) (r : RequestLog) : RequestLog := {|
  log_title := log_title r;
  log_userConcept := log_userConcept r;
  log_conceptUsed := log_conceptUsed r;
  log_textProvider := log_textProvider r;
  log_textModel := log_textModel r;
  log_imageProvider := log_imageProvider r;
  log_imageModel := log_imageModel r;
  log_success := false;
  log_errorMessage := Some msg;
  log_totalCostUsd := log_totalCostUsd r;
  log_latencyMs := latencyMs
|}.

(** Steps 7 to 10, once the row [id] exists. *)
Definition pipeline (env : Env) (id : nat) (title userConcept : string)
  (cfg : EngineConfig) (buf mime dataUrl : string) : M Response :=
  let textVendor := getApiVendor (textProvider cfg) in
  let imageVendor := getApiVendor (imageProvider cfg) in
  let openaiKey := OPENAI_API_KEY env in
  let geminiKey := GEMINI_API_KEY env in
  let anthropicKey := ANTHROPIC_API_KEY env in
  let textApiModel := resolveApiModel (textProvider cfg) KText (textModel cfg) in
  let imageApiModel := resolveApiModel (imageProvider cfg) KImage (imageModel cfg) in
  visionEngine ← or_throw (chooseVisionEngine cfg openaiKey geminiKey);
  let totalCostUsd := num_of_Z 0 in
  (* 7) VISION *)
  let visionPrompt := buildVisionPrompt title in
  visionCall ← callTextModel env (ve_vendor visionEngine) (ve_apiModel visionEngine)
                  visionPrompt (Some dataUrl) openaiKey geminiKey anthropicKey;
  let vU := snd visionCall in
  let vCost := calcTextCostUsd (ve_vendor visionEngine) (ve_apiModel visionEngine) vU in
  let totalCostUsd := num_add totalCostUsd vCost in
  _ ← requestCostLineItem_create
        (text_item id VISION (ve_provider visionEngine) (ve_apiModel visionEngine) vU vCost);
  let visionJson :=
    js_coalesce (safeParseJson (fst visionCall)) (default_vision (fst visionCall)) in
  (* 8) CONCEPT *)
  let conceptPrompt :=
    buildConceptPrompt title visionJson (truthy_string (Some userConcept)) in
  conceptCall ← callTextModel env textVendor textApiModel conceptPrompt None
                   openaiKey geminiKey anthropicKey;
  let cU := snd conceptCall in
  let cCost := calcTextCostUsd textVendor textApiModel cU in
  let totalCostUsd := num_add totalCostUsd cCost in
  _ ← requestCostLineItem_create
        (text_item id CONCEPT (textProvider cfg) textApiModel cU cCost);
  let direction :=
    js_coalesce (safeParseJson (fst conceptCall)) (default_direction userConcept) in
  conceptUsed ← converted (deriveConceptUsed direction userConcept);
  (* 9) IMAGE EDIT *)
  editPrompt ← converted (buildFinalImagePrompt title visionJson direction);
  imgCall ← callImageEdit env imageVendor imageApiModel editPrompt buf mime
               openaiKey geminiKey;
  let b64 := fst imgCall in
  let imgCost :=
    calcImageCostUsd
      {| p_vendor := imageVendor; p_apiModel := imageApiModel;
         p_imageCount := num_of_Z 1; p_quality := Some QLow;
         p_usage := match imageVendor with VGoogle => snd imgCall | _ => None end |} in
  let totalCostUsd := num_add totalCostUsd imgCost in
  _ ← requestCostLineItem_create
        (image_item id (imageProvider cfg) imageApiModel imgCost);
  (* 10) success *)
  let latencyMs := finishedAt env - startedAt env in
  _ ← requestLog_update id (succeed conceptUsed latencyMs totalCostUsd);
  mret {| status := 200; body := ResultBody conceptUsed b64 |}.

(** The body of the [try] block. *)
Definition handler (env : Env) (req : Request) : M Response :=
  (* 1) the form *)
  form ← or_throw (formData req);
  let imageFile := table_get form "image" in
  let title := trim (form_string form "title" "") in
  let userConcept := trim (form_string form "concept" "") in
  (* 2) engineConfig *)
  let cfgRaw := form_string form "engineConfig" "{}" in
  let cfg := loadEngineConfig cfgRaw in
  (* 3) required fields *)
  if String.eqb title "" then early (bad "상품명(title)은 필수입니다." 400)
  else
    match imageFile with
    | Some (FormFile file) =>
        (* 4) the image as a data URL *)
        let buf := file_bytes file in
        let mime := if String.eqb (file_type file) "" then "image/png" else file_type file in
        let dataUrl := "data:" +:+ mime +:+ ";base64," +:+ base64 buf in
        (* 5) vendors and keys *)
        let textVendor := getApiVendor (textProvider cfg) in
        let imageVendor := getApiVendor (imageProvider cfg) in
        let openaiKey := OPENAI_API_KEY env in
        let geminiKey := GEMINI_API_KEY env in
        let anthropicKey := ANTHROPIC_API_KEY env in
        match textVendor with
        | VOpenai => if negb (key_set openaiKey)
                     then early (bad "OPENAI_API_KEY가 설정되지 않았습니다." 500) else mret tt
        | VGoogle => if negb (key_set geminiKey)
                     then early (bad "GEMINI_API_KEY가 설정되지 않았습니다." 500) else mret tt
        | VAnthropic => if negb (key_set anthropicKey)
                        then early (bad "ANTHROPIC_API_KEY가 설정되지 않았습니다." 500) else mret tt
        end;;
        match imageVendor with
        | VOpenai => if negb (key_set openaiKey)
                     then early (bad "OPENAI_API_KEY가 설정되지 않았습니다." 500) else mret tt
        | VGoogle => if negb (key_set geminiKey)
                     then early (bad "GEMINI_API_KEY가 설정되지 않았습니다." 500) else mret tt
        | VAnthropic => early (bad "Anthropic은 이미지 생성/편집을 지원하지 않습니다." 400)
        end;;
        (* 6) the log row first *)
        id ← requestLog_create (initial_log title userConcept cfg);
        set_requestLogId id;;
        pipeline env id title userConcept cfg buf mime dataUrl
    | _ => early (bad "이미지(image)는 필수입니다." 400)
    end.

(** The [try] block and its [catch]: an early return or the final answer is
    the response; an exception is written to the row of the request, when
    there is one, and answered with status 500. *)
Definition POST (env : Env) (req : Request) (w : World) : Response * World :=
  let '(exit, st) := handler env req {| world := w; requestLogId := None |} in
  match exit with
  | Val r => (r, world st)
  | Return r => (r, world st)
  | Throw msg =>
      let latencyMs := finishedAt env - startedAt env in
      let w' :=
        match requestLogId st with
        | Some id => update_row id (fail msg latencyMs) (world st)
        | None => world st
        end in
      (bad msg 500, w')
  end.

(* ===================================================================== *)
(** ** The vocabulary of the statements *)
(* ===================================================================== *)

(** A text contains a JSON object: some part of it, from an opening brace to
    a closing brace, is the text of an object. *)
Definition object_within (text : string) : Prop :=
  exists pre mid post props,
    text = pre +:+ String "{" (mid +:+ String "}" post)
    /\ JSON_parse (String "{" (mid +:+ "}")) = Some (JObj props).

(** The suffixes and the prefixes of a text. *)
Fixpoint tails (s : string) : list string :=
  s :: match s with
       | EmptyString => []
       | String _ rest => tails rest
       end.

Fixpoint inits (s : string) : list string :=
  EmptyString :: match s with
                 | EmptyString => []
                 | String c rest => map (String c) (inits rest)
                 end.

(** Some part of the text parses as an object: a test that finds every
    object within the text. *)
Definition parses_object_within (text : string) : bool :=
  existsb
    (fun suffix =>
       existsb (fun part => match JSON_parse part with
                            | Some (JObj _) => true
                            | _ => false
                            end)
         (inits suffix))
    (tails text).

(** A computation that only adds to the calls made so far. *)
Definition appends {A : Type} (m : M A) : Prop :=
  forall st, exists l, calls (world (snd (m st))) = calls (world st) ++ l.

(** A computation whose first call is [c], in every state. *)
Definition calls_first {A : Type} (c : NetCall) (m : M A) : Prop :=
  forall st, exists l, calls (world (snd (m st))) = calls (world st) ++ c :: l.

(** An entry of a catalog that makes the pair [(provider, model)] valid. *)
Definition listed (models : list ModelOption) (provider model : jsval) : Prop :=
  exists o, In o models /\ opt_enabled o = true
            /\ provider = JStr (provider_id (opt_provider o))
            /\ model = JStr (opt_id o).

(** The endpoint [callTextModel] posts to for each vendor. *)
Definition text_endpoint (vendor : ApiVendor) : Endpoint :=
  match vendor with
  | VOpenai => Responses
  | VGoogle => GenerateContent
  | VAnthropic => Messages
  end.

(** [st'] is [st] after the calls [new_calls], the store untouched. *)
Definition after_calls (st st' : State) (new_calls : list NetCall) : Prop :=
  requestLogId st' = requestLogId st
  /\ requestLogs (world st') = requestLogs (world st)
  /\ costLineItems (world st') = costLineItems (world st)
  /\ calls (world st') = calls (world st) ++ new_calls.

(** The costs of line items added up from [0] in the order of the list, as
    [totalCostUsd += cost] does stage after stage. *)
Definition sum_costs (items : list RequestCostLineItem) : number :=
  fold_left (fun acc item => num_add acc (item_costUsd item)) items (num_of_Z 0).

(** What a completed pipeline leaves: the answer, three line items, three
    calls, and the row [id] marked as a success with the sum of the three
    costs. *)
Definition pipeline_done (env : Env) (id : nat) (title userConcept : string)
  (st st' : State) (resp : Response) : Prop :=
  exists conceptUsed b64 vision direction vItem cItem iItem c1 c2 c3,
    resp = {| status := 200; body := ResultBody conceptUsed b64 |}
    /\ js_truthy b64 = true
    /\ deriveConceptUsed direction userConcept = Some conceptUsed
    /\ costLineItems (world st') = costLineItems (world st) ++ [vItem; cItem; iItem]
    /\ map item_stage [vItem; cItem; iItem] = [VISION; CONCEPT; IMAGE_EDIT]
    /\ map item_requestId [vItem; cItem; iItem] = [id; id; id]
    /\ calls (world st') = calls (world st) ++ [c1; c2; c3]
    /\ net_prompt c1 = VisionPrompt title
    /\ net_prompt c2 = ConceptPrompt title vision (truthy_string (Some userConcept))
    /\ net_prompt c3 = FinalImagePrompt title vision direction
    /\ requestLogs (world st')
       = alter (succeed conceptUsed (finishedAt env - startedAt env)
                  (sum_costs [vItem; cItem; iItem]))
           id (requestLogs (world st)).

(** The calls of a request start with the vision call, to the engine
    [chooseVisionEngine] chose. *)
Definition vision_first (env : Env) (title : string) (cfg : EngineConfig)
  (new_calls : list NetCall) : Prop :=
  match new_calls with
  | [] => True
  | c :: _ =>
      exists engine,
        chooseVisionEngine cfg (OPENAI_API_KEY env) (GEMINI_API_KEY env) = inr engine
        /\ net_endpoint c = text_endpoint (ve_vendor engine)
        /\ net_model c = ve_apiModel engine
        /\ net_prompt c = VisionPrompt title
  end.

(** The [title], [userConcept] and [cfg] of steps 1 and 2 of [POST]. *)
Definition title_of (form : list (string * FormValue)) : string :=
  trim (form_string form "title" "").

Definition concept_of (form : list (string * FormValue)) : string :=
  trim (form_string form "concept" "").

Definition config_of (form : list (string * FormValue)) : EngineConfig :=
  loadEngineConfig (form_string form "engineConfig" "{}").

(** The key of a vendor in the process environment, and the message of step 5
    when it is missing. *)
Definition vendor_key (env : Env) (vendor : ApiVendor) : option string :=
  match vendor with
  | VOpenai => OPENAI_API_KEY env
  | VGoogle => GEMINI_API_KEY env
  | VAnthropic => ANTHROPIC_API_KEY env
  end.

Definition key_message (vendor : ApiVendor) : string :=
  match vendor with
  | VOpenai => "OPENAI_API_KEY가 설정되지 않았습니다."
  | VGoogle => "GEMINI_API_KEY가 설정되지 않았습니다."
  | VAnthropic => "ANTHROPIC_API_KEY가 설정되지 않았습니다."
  end.

(** The vendor whose key step 5 finds missing: the text vendor is checked
    first, the image vendor second. *)
Definition missing_key (env : Env) (cfg : EngineConfig) : option ApiVendor :=
  let textVendor := getApiVendor (textProvider cfg) in
  let imageVendor := getApiVendor (imageProvider cfg) in
  if negb (key_set (vendor_key env textVendor)) then Some textVendor
  else if negb (key_set (vendor_key env imageVendor)) then Some imageVendor
  else None.

(** The six ways a request ends: the answer, and the world after it. *)
Inductive Outcome (env : Env) (req : Request) (w : World)
  : Response -> World -> Prop :=
| BadForm (msg : string) :
    formData req = inl msg ->
    Outcome env req w (bad msg 500) w
| MissingTitle (form : list (string * FormValue)) :
    formData req = inr form ->
    title_of form = "" ->
    Outcome env req w (bad "상품명(title)은 필수입니다." 400) w
| MissingImage (form : list (string * FormValue)) :
    formData req = inr form ->
    title_of form <> "" ->
    (forall file, table_get form "image" <> Some (FormFile file)) ->
    Outcome env req w (bad "이미지(image)는 필수입니다." 400) w
| MissingKey (form : list (string * FormValue)) (file : File) (vendor : ApiVendor) :
    formData req = inr form ->
    title_of form <> "" ->
    table_get form "image" = Some (FormFile file) ->
    missing_key env (config_of form) = Some vendor ->
    Outcome env req w (bad (key_message vendor) 500) w
| Failed (form : list (string * FormValue)) (file : File) (msg : string)
    (items : list RequestCostLineItem) (new_calls : list NetCall) (w' : World) :
    formData req = inr form ->
    title_of form <> "" ->
    table_get form "image" = Some (FormFile file) ->
    missing_key env (config_of form) = None ->
    requestLogs w'
    = <[fresh (dom (requestLogs w)) :=
          fail msg (finishedAt env - startedAt env)
            (initial_log (title_of form) (concept_of form) (config_of form))]>
        (requestLogs w) ->
    costLineItems w' = costLineItems w ++ items ->
    calls w' = calls w ++ new_calls ->
    vision_first env (title_of form) (config_of form) new_calls ->
    Outcome env req w (bad msg 500) w'
| Completed (form : list (string * FormValue)) (file : File)
    (conceptUsed : string) (b64 vision direction : jsval)
    (vItem cItem iItem : RequestCostLineItem) (c1 c2 c3 : NetCall) (w' : World) :
    formData req = inr form ->
    title_of form <> "" ->
    table_get form "image" = Some (FormFile file) ->
    missing_key env (config_of form) = None ->
    js_truthy b64 = true ->
    deriveConceptUsed direction (concept_of form) = Some conceptUsed ->
    requestLogs w'
    = <[fresh (dom (requestLogs w)) :=
          succeed conceptUsed (finishedAt env - startedAt env)
            (sum_costs [vItem; cItem; iItem])
            (initial_log (title_of form) (concept_of form) (config_of form))]>
        (requestLogs w) ->
    costLineItems w' = costLineItems w ++ [vItem; cItem; iItem] ->
    map item_stage [vItem; cItem; iItem] = [VISION; CONCEPT; IMAGE_EDIT] ->
    map item_requestId [vItem; cItem; iItem]
    = [fresh (dom (requestLogs w)); fresh (dom (requestLogs w));
       fresh (dom (requestLogs w))] ->
    calls w' = calls w ++ [c1; c2; c3] ->
    vision_first env (title_of form) (config_of form) [c1; c2; c3] ->
    net_prompt c2
    = ConceptPrompt (title_of form) vision (truthy_string (Some (concept_of form))) ->
    net_prompt c3 = FinalImagePrompt (title_of form) vision direction ->
    Outcome env req w {| status := 200; body := ResultBody conceptUsed b64 |} w'.

(** The message of the last check of step 5. *)
Definition anthropic_image_message : string :=
  "Anthropic은 이미지 생성/편집을 지원하지 않습니다.".

(** The two fallback engines of [chooseVisionEngine], and the message of its
    [Error]. *)
Definition openai_engine : VisionEngine :=
  {| ve_provider := Openai; ve_vendor := VOpenai; ve_apiModel := "gpt-4.1-mini" |}.

Definition gemini_engine : VisionEngine :=
  {| ve_provider := Gemini; ve_vendor := VGoogle; ve_apiModel := "gemini-2.5-flash" |}.

Definition no_fallback_message : string :=
  "Claude(Text) 선택 시 Vision 분석을 위해 OPENAI_API_KEY 또는 GEMINI_API_KEY가 필요합니다.".

(* ===================================================================== *)
(** ** Scenarios *)
(* ===================================================================== *)

(** Concrete requests, environments and worlds, at which the statements
    below are run. A JSON text is written with [quoted] around its strings. *)
Definition quote : string := String (byte_of 34) "".

Definition quoted (s : string) : string := quote +:+ s +:+ quote.

Definition usage_of (input output : Z) : TokenUsage :=
  {| u_input := num_of_Z input; u_output := num_of_Z output;
     u_total := num_of_Z (input + output) |}.

(** [{"one_line_concept":"clean studio"}] *)
Definition concept_text : string :=
  "{" +:+ quoted "one_line_concept" +:+ ":" +:+ quoted "clean studio" +:+ "}".

Definition good_body : Body :=
  {| read_text := concept_text; read_usage := usage_of 1000 500;
     read_image := JStr "aGVsbG8="; read_parts_text := "" |}.

Definition photo : File := {| file_type := "image/png"; file_bytes := "abc" |}.

Definition sneaker_form (engineConfig : string) : list (string * FormValue) :=
  [("title", FormString "Blue Sneaker");
   ("image", FormFile photo);
   ("engineConfig", FormString engineConfig)].

Definition sneaker (engineConfig : string) : Request :=
  {| formData := inr (sneaker_form engineConfig) |}.

(** [{"imageProvider":"anthropic"}] *)
Definition anthropic_image : string :=
  "{" +:+ quoted "imageProvider" +:+ ":" +:+ quoted "anthropic" +:+ "}".

(** [{"textProvider":"anthropic","textModel":"claude-sonnet"}] *)
Definition claude_text : string :=
  "{" +:+ quoted "textProvider" +:+ ":" +:+ quoted "anthropic" +:+ ","
  +:+ quoted "textModel" +:+ ":" +:+ quoted "claude-sonnet" +:+ "}".

(** Only the OpenAI key is set; every vendor call succeeds. *)
Definition env_openai : Env :=
  {| OPENAI_API_KEY := Some "sk-test"; GEMINI_API_KEY := None;
     ANTHROPIC_API_KEY := None;
     respond := fun _ _ => Ok good_body;
     startedAt := 1000; finishedAt := 1250 |}.

(** The vision call succeeds, the next call is refused. *)
Definition env_second_call_fails : Env :=
  {| OPENAI_API_KEY := Some "sk-test"; GEMINI_API_KEY := None;
     ANTHROPIC_API_KEY := None;
     respond := fun earlier _ =>
                  match earlier with
                  | [] => Ok good_body
                  | _ :: _ => NotOk "rate limit"
                  end;
     startedAt := 1000; finishedAt := 1250 |}.

(** Only the Anthropic key is set. *)
Definition env_claude_only : Env :=
  {| OPENAI_API_KEY := None; GEMINI_API_KEY := None;
     ANTHROPIC_API_KEY := Some "sk-ant";
     respond := fun _ _ => Ok good_body;
     startedAt := 1000; finishedAt := 1250 |}.

Definition empty_world : World :=
  {| requestLogs := ∅; costLineItems := []; calls := [] |}.

(* ===================================================================== *)
(** ** app/api/generate/route.ts: reading a vendor's response *)
(* ===================================================================== *)

(** The accessors of the adapters, on the value [res.json()] gave. [None]
    stands for the [TypeError] of reading a property of [undefined] or
    [null], of calling a method the value does not have, or of a value that
    has no string form. *)

(** [v.k] *)
Definition js_member (v : jsval) (k : string) : option jsval :=
  if js_nullish v then None else Some (js_get v k).

(** The elements of [v] where a method of [Array.prototype] is called on it:
    only an array has [map], [flatMap], [filter], [find] and [join] (in a
    value read from JSON no property is a function). *)
Definition as_array (v : jsval) : option (list jsval) :=
  match v with JArr xs => Some xs | _ => None end.

(** The first character of a text in UTF-8. *)
Definition first_char (s : string) : string :=
  match s with
  | EmptyString => ""
  | String c _ =>
      let n := code c in
      String.substring 0
        (if (n <? 192)%N then 1 else if (n <? 224)%N then 2
         else if (n <? 240)%N then 3 else 4)
        s
  end.

(** [v?.[0]]. Of a string it is the first character (for a character outside
    the Basic Multilingual Plane the engine gives half of it; the accessors
    only read a property of the result, and a string has none). *)
Definition js_index0 (v : jsval) : jsval :=
  match v with
  | JArr (x :: _) => x
  | JObj props => default JUndefined (last_binding props "0")
  | JStr (String _ _ as s) => JStr (first_char s)
  | _ => JUndefined
  end.

(** [Number(v)] for a value that is not a string, an array or an object. *)
Definition js_Number (v : jsval) : number :=
  match v with
  | JNum x => x
  | JBool true => num_of_Z 1
  | JBool false | JNull => num_of_Z 0
  | _ => NaN
  end.

(** [a + b]: an array or an object is first made a string, which throws
    where [String] throws; with a string on either side the texts are
    joined, else the numbers are added. *)
Definition js_add (a b : jsval) : option jsval :=
  let prim v :=
    match v with
    | JArr _ | JObj _ => JStr <$> js_String v
    | _ => Some v
    end in
  p ← prim a;
  q ← prim b;
  match p, q with
  | JStr s, q => t ← js_String q; Some (JStr (s +:+ t))
  | p, JStr t => s ← js_String p; Some (JStr (s +:+ t))
  | p, q => Some (JNum (num_add (js_Number p) (js_Number q)))
  end.

Definition newline : string := String (byte_of 10) "".

(** The object an accessor of usage returns. [TokenUsage] declares its three
    fields numbers; they hold what the response held. *)
Record UsageValue := {
  usage_input : jsval;
  usage_output : jsval;
  usage_total : jsval
}.

(** [reported || input + output]: the sum is made only when no total is
    reported. *)
Definition total_or_sum (reported input output : jsval) : option jsval :=
  if js_truthy reported then Some reported else js_add input output.

Definition getOpenAIUsage (json : jsval) : option UsageValue :=
  let u := js_or (js_get json "usage") (JObj []) in
  let input := js_or (js_get u "input_tokens") (JNum (num_of_Z 0)) in
  let output := js_or (js_get u "output_tokens") (JNum (num_of_Z 0)) in
  total ← total_or_sum (js_get u "total_tokens") input output;
  Some {| usage_input := input; usage_output := output; usage_total := total |}.

Definition geminiUsage (json : jsval) : option UsageValue :=
  let u := js_or (js_get json "usageMetadata") (JObj []) in
  let input := js_or (js_get u "promptTokenCount") (JNum (num_of_Z 0)) in
  let output := js_or (js_get u "candidatesTokenCount") (JNum (num_of_Z 0)) in
  total ← total_or_sum (js_get u "totalTokenCount") input output;
  Some {| usage_input := input; usage_output := output; usage_total := total |}.

Definition claudeUsage (json : jsval) : option UsageValue :=
  let u := js_or (js_get json "usage") (JObj []) in
  let input := js_or (js_get u "input_tokens") (JNum (num_of_Z 0)) in
  let output := js_or (js_get u "output_tokens") (JNum (num_of_Z 0)) in
  total ← js_add input output;
  Some {| usage_input := input; usage_output := output; usage_total := total |}.

(** The usage at its declared type, when its fields are numbers. *)
Definition as_TokenUsage (u : UsageValue) : option TokenUsage :=
  match usage_input u, usage_output u, usage_total u with
  | JNum i, JNum o, JNum t => Some {| u_input := i; u_output := o; u_total := t |}
  | _, _, _ => None
  end.

(** [(o.content || []).map((c) => c.text).filter(Boolean)] *)
Definition output_texts (o : jsval) : option (list jsval) :=
  content ← js_member o "content";
  blocks ← as_array (js_or content (JArr []));
  texts ← mapM (fun c => js_member c "text") blocks;
  Some (List.filter js_truthy texts).

Definition getOpenAITextOut (json : jsval) : option string :=
  output ← js_member json "output";
  items ← as_array (js_or output (JArr []));
  chunks ← mapM output_texts items;
  js_join newline (concat chunks).

(** [json?.candidates?.[0]?.content?.parts ?? []] *)
Definition gemini_parts (json : jsval) : jsval :=
  js_coalesce
    (js_get (js_get (js_index0 (js_get json "candidates")) "content") "parts")
    (JArr []).

(** [parts.map((p) => p?.text).filter(Boolean).join("\n")] *)
Definition parts_text (parts : list jsval) : option string :=
  js_join newline (List.filter js_truthy (map (fun p => js_get p "text") parts)).

Definition geminiTextFromResponse (json : jsval) : option string :=
  parts ← as_array (gemini_parts json);
  parts_text parts.

Definition claudeTextFromResponse (json : jsval) : option string :=
  content ← as_array (js_or (js_get json "content") (JArr []));
  js_join newline
    (map (fun c => js_get c "text")
       (List.filter
          (fun c => js_is_string (js_get c "type") "text"
                    && js_truthy (js_get c "text"))
          content)).

(** The image payload of an OpenAI answer: [json?.data?.[0]?.b64_json]. *)
Definition openai_b64 (json : jsval) : jsval :=
  js_get (js_index0 (js_get json "data")) "b64_json".

(** [p?.inline_data?.data || p?.inlineData?.data] *)
Definition inline_payload (p : jsval) : jsval :=
  js_or (js_get (js_get p "inline_data") "data")
        (js_get (js_get p "inlineData") "data").

(** The image payload of a Gemini answer: that of the first part that has
    one. *)
Definition gemini_b64 (json : jsval) : option jsval :=
  parts ← as_array (gemini_parts json);
  let inline := List.find (fun p => js_truthy (inline_payload p)) parts in
  Some (inline_payload (default JUndefined inline)).

(* ===================================================================== *)
(** ** app/api/providers/route.ts *)
(* ===================================================================== *)

Record ProviderAvailability := {
  av_openai : bool;
  av_gemini : bool;
  av_anthropic : bool
}.

(** [Boolean(process.env.KEY)] for each of the three keys. *)
Definition GET (env : Env) : ProviderAvailability :=
  {| av_openai := key_set (OPENAI_API_KEY env);
     av_gemini := key_set (GEMINI_API_KEY env);
     av_anthropic := key_set (ANTHROPIC_API_KEY env) |}.

(* ===================================================================== *)
(** ** app/components/SettingsModal.tsx *)
(* ===================================================================== *)

(** [a[provider]] *)
Definition available (a : ProviderAvailability) (provider : Provider) : bool :=
  match provider with
  | Openai => av_openai a
  | Gemini => av_gemini a
  | Anthropic => av_anthropic a
  end.

(** [JSON.stringify] of a string whose text is well formed: the quote, the
    backslash and the control characters are escaped. *)
Definition hex_digit (n : N) : ascii :=
  default "0"%char (String.get (N.to_nat n) "0123456789abcdef").

Definition json_escape (c : ascii) : string :=
  let n := code c in
  let backslash := byte_of 92 in
  if (n =? 34)%N then String backslash (String c "")
  else if (n =? 92)%N then String backslash (String c "")
  else if (n =? 8)%N then String backslash "b"
  else if (n =? 12)%N then String backslash "f"
  else if (n =? 10)%N then String backslash "n"
  else if (n =? 13)%N then String backslash "r"
  else if (n =? 9)%N then String backslash "t"
  else if (n <? 32)%N then
    String backslash
      (String "u" (String "0" (String "0"
         (String (hex_digit (n / 16)) (String (hex_digit (n mod 16)) "")))))
  else String c "".

Fixpoint json_escaped (s : string) : string :=
  match s with
  | EmptyString => ""
  | String c rest => json_escape c +:+ json_escaped rest
  end.

Definition JSON_stringify_string (s : string) : string :=
  quote +:+ json_escaped s +:+ quote.

(** What [localStorage.getItem] does: there is no [window] (on the server),
    the call throws, or it gives the stored text or [null]. *)
Inductive Storage :=
| NoWindow
| StorageThrows
| Item (raw : option string).

Definition getStoredConfig (storage : Storage) : EngineConfig :=
  match storage with
  | NoWindow => defaultConfig
  | StorageThrows => defaultConfig
  | Item raw =>
      match truthy_string raw with
      | None => defaultConfig
      | Some text =>
          match JSON_parse text with
          | Some v => default defaultConfig (as_EngineConfig (normalizeEngineConfig v))
          | None => defaultConfig
          end
      end
  end.

(** The text [storeConfig] stores: [JSON.stringify(cfg)] of an object with
    the four fields of [EngineConfig]. *)
Definition storeConfig (cfg : EngineConfig) : string :=
  "{" +:+ quoted "textProvider" +:+ ":"
      +:+ JSON_stringify_string (provider_id (textProvider cfg)) +:+ ","
      +:+ quoted "textModel" +:+ ":" +:+ JSON_stringify_string (textModel cfg) +:+ ","
      +:+ quoted "imageProvider" +:+ ":"
      +:+ JSON_stringify_string (provider_id (imageProvider cfg)) +:+ ","
      +:+ quoted "imageModel" +:+ ":" +:+ JSON_stringify_string (imageModel cfg)
  +:+ "}".

Definition firstEnabledTextModel (provider : Provider) : string :=
  match List.find (fun m => opt_enabled m && Provider_eqb (opt_provider m) provider)
          TEXT_MODELS with
  | Some first => opt_id first
  | None => textModel defaultConfig
  end.

Definition firstEnabledImageModel (provider : Provider) : string :=
  match List.find (fun m => opt_enabled m && Provider_eqb (opt_provider m) provider)
          IMAGE_MODELS with
  | Some first => opt_id first
  | None => imageModel defaultConfig
  end.

Definition pickFirstAvailableTextProvider (avail : ProviderAvailability)
  : option Provider :=
  if av_openai avail then Some Openai
  else if av_gemini avail then Some Gemini
  else if av_anthropic avail then Some Anthropic
  else None.

Definition pickFirstAvailableImageProvider (avail : ProviderAvailability)
  : option Provider :=
  if av_openai avail then Some Openai
  else if av_gemini avail then Some Gemini
  else None.

(** [fetchAvailability], given what [GET /api/providers] answered ([None]
    when the answer is not ok). *)
Definition fetchAvailability (answer : option ProviderAvailability)
  : ProviderAvailability :=
  match answer with
  | Some a => a
  | None => {| av_openai := true; av_gemini := true; av_anthropic := true |}
  end.

Definition normalizeWithAvailability (inputCfg : jsval) (a : ProviderAvailability)
  : EngineConfig :=
  let next := default defaultConfig (as_EngineConfig (normalizeEngineConfig inputCfg)) in
  let next :=
    if negb (available a (textProvider next)) then
      match pickFirstAvailableTextProvider a with
      | Some p =>
          {| textProvider := p; textModel := firstEnabledTextModel p;
             imageProvider := imageProvider next; imageModel := imageModel next |}
      | None => next
      end
    else next in
  let imageProviderKeyOk :=
    (Provider_eqb (imageProvider next) Openai && av_openai a)
    || (Provider_eqb (imageProvider next) Gemini && av_gemini a) in
  if negb imageProviderKeyOk then
    match pickFirstAvailableImageProvider a with
    | Some ip =>
        {| textProvider := textProvider next; textModel := textModel next;
           imageProvider := ip; imageModel := firstEnabledImageModel ip |}
    | None => next
    end
  else next.

(** What the settings dialog shows when it opens: the stored configuration,
    adjusted to the providers the server reports. *)
Definition opened_config (storage : Storage) (answer : option ProviderAvailability)
  : EngineConfig :=
  let stored := getStoredConfig storage in
  let a := fetchAvailability answer in
  normalizeWithAvailability (config_value stored) a.

(* ===================================================================== *)
(** ** app/admin/page.tsx *)
(* ===================================================================== *)

(** [include: { lineItems: true }]: the line items of the row [id], in the
    order in which they were stored. *)
Definition lineItems (w : World) (id : nat) : list RequestCostLineItem :=
  List.filter (fun it => Nat.eqb (item_requestId it) id) (costLineItems w).

Definition Stage_eqb (a b : Stage) : bool :=
  match a, b with
  | VISION, VISION | CONCEPT, CONCEPT | IMAGE_EDIT, IMAGE_EDIT => true
  | _, _ => false
  end.

(** [acc[k] = (acc[k] ?? 0) + cost] on an object whose keys are stages (a
    stage is never the empty text, so [it.stage || "UNKNOWN"] is the stage),
    kept in the order in which they were first set. *)
Fixpoint stage_add (acc : list (Stage * number)) (k : Stage) (cost : number)
  : list (Stage * number) :=
  match acc with
  | [] => [(k, num_add (num_of_Z 0) cost)]
  | (k', c) :: rest =>
      if Stage_eqb k' k then (k', num_add c cost) :: rest
      else (k', c) :: stage_add rest k cost
  end.

Definition stageCostMap (items : list RequestCostLineItem) : list (Stage * number) :=
  fold_left (fun acc it => stage_add acc (item_stage it) (item_costUsd it)) items [].

(* ===================================================================== *)
(** ** The vocabulary of the further statements *)
(* ===================================================================== *)

(** The [mime] and the [dataUrl] of step 4 of [POST]. *)
Definition file_mime (file : File) : string :=
  if String.eqb (file_type file) "" then "image/png" else file_type file.

Definition file_dataUrl (file : File) : string :=
  "data:" +:+ file_mime file +:+ ";base64," +:+ base64 (file_bytes file).

(** The state in which the pipeline of a request starts: the row of the
    request is stored under a new id. *)
Definition logged (w : World) (row : RequestLog) : State :=
  {| world := {| requestLogs := <[fresh (dom (requestLogs w)) := row]> (requestLogs w);
                 costLineItems := costLineItems w;
                 calls := calls w |};
     requestLogId := Some (fresh (dom (requestLogs w))) |}.

(** A configuration whose two pairs are in the catalogs. *)
Definition valid_config (cfg : EngineConfig) : Prop :=
  listed TEXT_MODELS (JStr (provider_id (textProvider cfg))) (JStr (textModel cfg))
  /\ listed IMAGE_MODELS (JStr (provider_id (imageProvider cfg))) (JStr (imageModel cfg)).

(** Responses as the vendors document them, built from the texts they
    carry. *)
Definition text_block (t : string) : jsval :=
  JObj [("type", JStr "output_text"); ("text", JStr t)].

Definition openai_response (outputs : list (list string)) : jsval :=
  JObj [("id", JStr "resp_1");
        ("output",
         JArr (map (fun ts => JObj [("type", JStr "message");
                                    ("content", JArr (map text_block ts))])
                 outputs))].

Definition gemini_response (parts : list jsval) : jsval :=
  JObj [("candidates",
         JArr [JObj [("content", JObj [("role", JStr "model");
                                       ("parts", JArr parts)])]])].

Definition text_part (t : string) : jsval := JObj [("text", JStr t)].

Definition claude_block (type text : string) : jsval :=
  JObj [("type", JStr type); ("text", JStr text)].

Definition claude_response (blocks : list (string * string)) : jsval :=
  JObj [("role", JStr "assistant");
        ("content", JArr (map (fun b => claude_block (fst b) (snd b)) blocks))].

(** The non-empty texts of a list, joined by line feeds. *)
Definition lines (ts : list string) : string :=
  String.concat newline (List.filter (fun t => negb (String.eqb t "")) ts).

(** The token counts a line item stores, as a usage. *)
Definition item_usage (it : RequestCostLineItem) : option TokenUsage :=
  match item_inputTokens it, item_outputTokens it, item_totalTokens it with
  | Some i, Some o, Some t => Some {| u_input := i; u_output := o; u_total := t |}
  | _, _, _ => None
  end.

(** A line item of a text stage whose cost is the price of its own token
    counts at its own provider and model. *)
Definition text_item_priced (it : RequestCostLineItem) : Prop :=
  exists usage,
    item_usage it = Some usage
    /\ item_costUsd it
       = calcTextCostUsd (getApiVendor (item_provider it)) (item_model it) usage.

(** A line item as the request [id] with configuration [cfg] stores it. *)
Definition logged_item (env : Env) (id : nat) (cfg : EngineConfig)
  (it : RequestCostLineItem) : Prop :=
  item_requestId it = id
  /\ match item_stage it with
     | VISION =>
         (exists engine,
            chooseVisionEngine cfg (OPENAI_API_KEY env) (GEMINI_API_KEY env) = inr engine
            /\ item_provider it = ve_provider engine
            /\ item_model it = ve_apiModel engine)
         /\ text_item_priced it
     | CONCEPT =>
         item_provider it = textProvider cfg
         /\ item_model it = resolveApiModel (textProvider cfg) KText (textModel cfg)
         /\ text_item_priced it
     | IMAGE_EDIT =>
         item_provider it = imageProvider cfg
         /\ item_model it = resolveApiModel (imageProvider cfg) KImage (imageModel cfg)
         /\ item_totalTokens it = None
         /\ item_imageCount it = Some 1
     end.

(** How far a request went: its line items are the first stages in order,
    one for each vendor call that returned; a request that completed made
    three calls and stored three items, one that did not stopped before its
    next item, at a call or before it. *)
Definition stages_done (items : list RequestCostLineItem)
  (new_calls : list NetCall) (completed : bool) : Prop :=
  map item_stage items = take (length items) [VISION; CONCEPT; IMAGE_EDIT]
  /\ if completed then length items = 3%nat /\ length new_calls = 3%nat
     else (length items < 3)%nat
          /\ (length new_calls = length items
              \/ length new_calls = S (length items)).

(** Every vendor answers every call with a body that holds an image. *)
Definition vendors_answer (env : Env) : Prop :=
  forall earlier call,
    exists b, respond env earlier call = Ok b /\ js_truthy (read_image b) = true.

(** A value in which no object has a key [toString]: the values of which
    [String] makes a text, whatever part of them is read. *)
Fixpoint printable (v : jsval) : bool :=
  match v with
  | JArr xs => forallb printable xs
  | JObj props =>
      forallb (fun kv => match kv with
                         | (k, x) => negb (String.eqb k "toString") && printable x
                         end) props
  | _ => true
  end.

(** The texts the vendors answer hold only such values. *)
Definition answers_printable (env : Env) : Prop :=
  forall earlier call b,
    respond env earlier call = Ok b ->
    printable (safeParseJson (read_text b)) = true.

(** The foreign key of [RequestCostLineItem]: every line item belongs to a
    row of [RequestLog]. *)
Definition referential_integrity (w : World) : Prop :=
  Forall (fun it => requestLogs w !! item_requestId it <> None) (costLineItems w).

(** The usage of a response that reports none. *)
Definition zero_usage : UsageValue :=
  {| usage_input := JNum (num_of_Z 0); usage_output := JNum (num_of_Z 0);
     usage_total := JNum (num_of_Z 0) |}.

(** [x || 0] for a number [x]. *)
Definition or_zero (x : number) : number := if num_truthy x then x else num_of_Z 0.

(** A part of a Gemini answer that carries an image, in the two spellings of
    the API. *)
Definition camel_image_part (mime : string) (data : jsval) : jsval :=
  JObj [("inlineData", JObj [("mimeType", JStr mime); ("data", data)])].

Definition snake_image_part (mime : string) (data : jsval) : jsval :=
  JObj [("inline_data", JObj [("mime_type", JStr mime); ("data", data)])].

(** The message of [parseDataUrl]'s [Error]. *)
Definition unreadable_image_message : string := "dataUrl 파싱 실패".

(** A character that is neither a line terminator nor the first byte of
    one; a text of such characters. *)
Definition plain (c : ascii) : bool :=
  negb ((code c =? 10)%N || (code c =? 13)%N || (code c =? 226)%N).

Fixpoint all_plain (s : string) : bool :=
  match s with
  | EmptyString => true
  | String c rest => plain c && all_plain rest
  end.

(** What [string_body] reads a character of a text back from, once
    [json_escape] wrote it: the character, or its code unit where the escape
    is [\u00XX]. *)
Definition unit_of (c : ascii) : ascii + N :=
  let n := code c in
  if ((n <? 32) && negb ((n =? 8) || (n =? 9) || (n =? 10) || (n =? 12) || (n =? 13)))%N
  then inr n else inl c.

Fixpoint units_of (s : string) : list (ascii + N) :=
  match s with
  | EmptyString => []
  | String c rest => unit_of c :: units_of rest
  end.

(** What a text adapter attaches to its call for a data URL: OpenAI the URL
    itself, Gemini and Anthropic the type and the payload [parseDataUrl]
    reads out of it. [None]: the adapter throws before it calls. *)
Definition text_attachment (vendor : ApiVendor) (dataUrl : option string)
  : option Attachment :=
  match truthy_string dataUrl with
  | None => Some NoImage
  | Some d =>
      match vendor with
      | VOpenai => Some (ImageUrl d)
      | _ =>
          match parseDataUrl d with
          | Some (mime, b64) => Some (InlineData mime b64)
          | None => None
          end
      end
  end.




(* ===================================================================== *)
(** ** More scenarios *)
(* ===================================================================== *)

(** [{"textProvider":"gemini","textModel":"gemini-2.5-flash"}] *)
Definition gemini_text : string :=
  "{" +:+ quoted "textProvider" +:+ ":" +:+ quoted "gemini" +:+ ","
  +:+ quoted "textModel" +:+ ":" +:+ quoted "gemini-2.5-flash" +:+ "}".

(** Both the OpenAI and the Gemini key are set; every vendor call succeeds. *)
Definition env_two_keys : Env :=
  {| OPENAI_API_KEY := Some "sk-test"; GEMINI_API_KEY := Some "g-test";
     ANTHROPIC_API_KEY := None;
     respond := fun _ _ => Ok good_body;
     startedAt := 1000; finishedAt := 1250 |}.

(** The Anthropic key and the OpenAI key are set; every vendor call
    succeeds. *)
Definition env_claude_and_openai : Env :=
  {| OPENAI_API_KEY := Some "sk-test"; GEMINI_API_KEY := None;
     ANTHROPIC_API_KEY := Some "sk-ant";
     respond := fun _ _ => Ok good_body;
     startedAt := 1000; finishedAt := 1250 |}.

(** The Anthropic key and the Gemini key are set; every vendor call
    succeeds. *)
Definition env_claude_and_gemini : Env :=
  {| OPENAI_API_KEY := None; GEMINI_API_KEY := Some "g-test";
     ANTHROPIC_API_KEY := Some "sk-ant";
     respond := fun _ _ => Ok good_body;
     startedAt := 1000; finishedAt := 1250 |}.

(** [{"textProvider":"anthropic","textModel":"claude-sonnet",
      "imageProvider":"gemini","imageModel":"gemini-2.5-flash-image"}] *)
Definition claude_text_gemini_image : string :=
  "{" +:+ quoted "textProvider" +:+ ":" +:+ quoted "anthropic" +:+ ","
  +:+ quoted "textModel" +:+ ":" +:+ quoted "claude-sonnet" +:+ ","
  +:+ quoted "imageProvider" +:+ ":" +:+ quoted "gemini" +:+ ","
  +:+ quoted "imageModel" +:+ ":" +:+ quoted "gemini-2.5-flash-image" +:+ "}".

(** [{"one_line_concept":{"toString":1}}] *)
Definition unprintable_concept_text : string :=
  "{" +:+ quoted "one_line_concept" +:+ ":{" +:+ quoted "toString" +:+ ":1}}".

(** [{"one_line_concept":"clean studio","background":{"toString":1}}] *)
Definition unprintable_background_text : string :=
  "{" +:+ quoted "one_line_concept" +:+ ":" +:+ quoted "clean studio" +:+ ","
  +:+ quoted "background" +:+ ":{" +:+ quoted "toString" +:+ ":1}}".

(** Only the OpenAI key is set; every vendor call succeeds with the text
    [text]. *)
Definition env_answering (text : string) : Env :=
  {| OPENAI_API_KEY := Some "sk-test"; GEMINI_API_KEY := None;
     ANTHROPIC_API_KEY := None;
     respond := fun _ _ =>
                  Ok {| read_text := text; read_usage := usage_of 1000 500;
                        read_image := JStr "aGVsbG8="; read_parts_text := "" |};
     startedAt := 1000; finishedAt := 1250 |}.

(** An upload without content. *)
Definition empty_photo : File := {| file_type := "image/png"; file_bytes := "" |}.

Definition empty_upload (engineConfig : string) : list (string * FormValue) :=
  [("title", FormString "Blue Sneaker");
   ("image", FormFile empty_photo);
   ("engineConfig", FormString engineConfig)].

(** The form the page sends after the dialog saved its configuration for the
    keys of [env_openai]. *)
Definition saved_form : list (string * FormValue) :=
  sneaker_form
    (storeConfig
       (normalizeWithAvailability (config_value defaultConfig)
          (fetchAvailability (Some (GET env_openai))))).

(* ===================================================================== *)
(** * Properties *)
(* ===================================================================== *)
(** ** The embedded functions at concrete inputs *)

Example normalize_null :
  as_EngineConfig (normalizeEngineConfig JNull) = Some defaultConfig.
Proof. reflexivity. Qed.

Example normalize_unknown_text_model :
  as_EngineConfig
    (normalizeEngineConfig
       (JObj [("textProvider", JStr "gemini"); ("textModel", JStr "gpt-5.2");
              ("imageProvider", JStr "gemini");
              ("imageModel", JStr "gemini-2.5-flash-image")]))
  = Some {| textProvider := Openai; textModel := "gpt-4.1-mini";
            imageProvider := Gemini; imageModel := "gemini-2.5-flash-image" |}.
Proof. reflexivity. Qed.

Example resolve_claude :
  resolveApiModel Anthropic KText "claude-haiku" = "claude-3-5-haiku-latest".
Proof. reflexivity. Qed.

Example resolve_unknown : resolveApiModel Gemini KImage "imagen" = "imagen".
Proof. reflexivity. Qed.

(** 1000 tokens in and 500 out on gpt-4.1-mini: 0.0007 + 0.0014 dollars. *)
Example text_cost_mini :
  calcTextCostUsd VOpenai "gpt-4.1-mini" (usage_of 1000 500) = dec 21 (-4).
Proof. vm_compute. reflexivity. Qed.

(** One Gemini image with 1290 input tokens: 0.039 + 0.000387 dollars. *)
Example image_cost_gemini :
  calcImageCostUsd
    {| p_vendor := VGoogle; p_apiModel := "gemini-2.5-flash-image";
       p_imageCount := num_of_Z 1; p_quality := Some QLow;
       p_usage := Some (usage_of 1290 0) |}
  = dec 39387 (-6).
Proof. vm_compute. reflexivity. Qed.

Example round_half_up :
  map Math_round [dec 25 (-1); dec (-25) (-1); dec 4 (-1); dec (-5) (-1)]
  = [num_of_Z 3; num_of_Z (-2); S754_zero false; S754_zero true].
Proof. vm_compute. reflexivity. Qed.

Example parse_nested :
  JSON_parse ("{" +:+ quoted "a" +:+ ": [1, 2.5, true, null, {}]}")
  = Some (JObj [("a", JArr [JNum (num_of_Z 1); JNum (dec 25 (-1)); JBool true;
                            JNull; JObj []])]).
Proof. vm_compute. reflexivity. Qed.

Example parse_rejects :
  map JSON_parse ["{x}"; "[1,]"; "01"; "1."; "nul"; ""; "{} {}"]
  = [None; None; None; None; None; None; None].
Proof. vm_compute. reflexivity. Qed.

Example numbers_as_strings :
  map Number_toString
    [num_of_Z 1; dec 1 (-1); dec 1 21; dec 15 (-8); dec 5 (-324);
     dec 123456 (-3); dec (-25) (-1); num_of_Z 0; NaN]
  = ["1"; "0.1"; "1e+21"; "1.5e-7"; "5e-324"; "123.456"; "-2.5"; "0"; "NaN"].
Proof. vm_compute. reflexivity. Qed.

Example trim_spaces : trim "  Blue Sneaker  " = "Blue Sneaker".
Proof. vm_compute. reflexivity. Qed.

Example base64_padding : map base64 ["Man"; "Ma"; "M"] = ["TWFu"; "TWE="; "TQ=="].
Proof. vm_compute. reflexivity. Qed.

Example data_url_of_png :
  parseDataUrl ("data:image/png;base64," +:+ base64 "abc")
  = Some ("image/png", "YWJj").
Proof. vm_compute. reflexivity. Qed.

Example data_url_of_empty_file :
  parseDataUrl ("data:image/png;base64," +:+ base64 "") = None.
Proof. vm_compute. reflexivity. Qed.

(** Arrays are joined, [null] in them is the empty text; an object with a
    key [toString] has no string form, and neither has an array that holds
    one. *)
Example strings_of_values :
  map js_String
    [JArr [JNum (num_of_Z 1); JNull; JStr "a"; JArr [JBool true; JUndefined]];
     JObj [("a", JNum (num_of_Z 1))];
     JObj [("toString", JNum (num_of_Z 1))];
     JArr [JStr "a"; JObj [("toString", JNull)]]]
  = [Some "1,,a,true,"; Some "[object Object]"; None; None].
Proof. vm_compute. reflexivity. Qed.

Example concept_of_the_model :
  deriveConceptUsed (safeParseJson concept_text) "" = Some "clean studio".
Proof. vm_compute. reflexivity. Qed.

Example concept_of_the_user :
  deriveConceptUsed (JObj []) "on a marble table" = Some "on a marble table".
Proof. vm_compute. reflexivity. Qed.

Example concept_without_string_form :
  deriveConceptUsed (safeParseJson unprintable_concept_text) "on a marble table"
  = None.
Proof. vm_compute. reflexivity. Qed.

Example prompt_of_the_defaults :
  buildFinalImagePrompt "Blue Sneaker" (default_vision "") (default_direction "")
  = Some (FinalImagePrompt "Blue Sneaker" (default_vision "") (default_direction "")).
Proof. vm_compute. reflexivity. Qed.

Example prompt_without_string_form :
  buildFinalImagePrompt "Blue Sneaker" (default_vision "")
    (safeParseJson unprintable_background_text) = None
  /\ buildFinalImagePrompt "Blue Sneaker"
       (JObj [("immutable_elements", JArr [JObj [("toString", JNull)]])])
       (default_direction "") = None.
Proof. vm_compute. split; reflexivity. Qed.

(** ** The registry *)
Lemma js_is_string_true (v : jsval) (s : string) :
  js_is_string v s = true <-> v = JStr s.
Proof.
  destruct v; simpl; try (split; [discriminate | intros H; discriminate H]).
  rewrite String.eqb_eq. split; [intros -> | intros [= ->]]; reflexivity.
Qed.

Lemma isValidTextModel_listed (provider model : jsval) :
  isValidTextModel provider model = true <-> listed TEXT_MODELS provider model.
Proof.
  unfold isValidTextModel, listed. rewrite existsb_exists.
  split; intros (o & Hin & H).
  - apply andb_prop in H as [H He]. apply andb_prop in H as [Hp Hm].
    apply js_is_string_true in Hp, Hm. eauto.
  - destruct H as (He & -> & ->). exists o. split; [assumption |].
    rewrite He. simpl. rewrite !String.eqb_refl. reflexivity.
Qed.

Lemma isValidImageModel_listed (provider model : jsval) :
  isValidImageModel provider model = true <-> listed IMAGE_MODELS provider model.
Proof.
  unfold isValidImageModel, listed. rewrite existsb_exists.
  split; intros (o & Hin & H).
  - apply andb_prop in H as [H He]. apply andb_prop in H as [Hp Hm].
    apply js_is_string_true in Hp, Hm. eauto.
  - destruct H as (He & -> & ->). exists o. split; [assumption |].
    rewrite He. simpl. rewrite !String.eqb_refl. reflexivity.
Qed.

(** No image model belongs to [anthropic]. *)
Lemma image_model_not_anthropic (provider model : jsval) :
  isValidImageModel provider model = true ->
  js_is_string provider "anthropic" = false.
Proof.
  intros H. apply isValidImageModel_listed in H as (o & Hin & _ & -> & _).
  simpl in Hin. destruct Hin as [<- | [<- | [<- | []]]]; reflexivity.
Qed.

(** The three checks hold of what [normalizeEngineConfig] returns. *)
Ltac simp_cfg :=
  cbn [negb reset_text reset_image raw_textProvider raw_textModel
         raw_imageProvider raw_imageModel] in *.

Lemma normalized_checks (input : jsval) :
  let c := normalizeEngineConfig input in
  isValidTextModel (raw_textProvider c) (raw_textModel c) = true
  /\ js_is_string (raw_imageProvider c) "anthropic" = false
  /\ isValidImageModel (raw_imageProvider c) (raw_imageModel c) = true.
Proof.
  unfold normalizeEngineConfig. cbv zeta.
  generalize (merged_of input). intros m0.
  destruct (isValidTextModel (raw_textProvider m0) (raw_textModel m0)) eqn:Ht;
    simp_cfg.
  all: destruct (js_is_string (raw_imageProvider m0) "anthropic") eqn:Ha;
    simp_cfg.
  all: match goal with
       | |- context [isValidImageModel ?p ?m] =>
           destruct (isValidImageModel p m) eqn:Hv
       end; simp_cfg.
  all: try (vm_compute in Hv; discriminate Hv).
  all: repeat split; first [assumption | reflexivity].
Qed.

Lemma provider_of_value_id (p : Provider) :
  provider_of_value (JStr (provider_id p)) = Some p.
Proof. destruct p; reflexivity. Qed.

Lemma listed_typed (models : list ModelOption) (provider model : jsval) :
  listed models provider model ->
  exists p s, provider_of_value provider = Some p /\ string_of_value model = Some s.
Proof.
  intros (o & _ & _ & -> & ->).
  exists (opt_provider o), (opt_id o). split; [apply provider_of_value_id | reflexivity].
Qed.

(** What [normalizeEngineConfig] returns can be read at type [EngineConfig]. *)
Lemma normalized_is_config (input : jsval) :
  exists cfg, as_EngineConfig (normalizeEngineConfig input) = Some cfg.
Proof.
  destruct (normalized_checks input) as (Ht & _ & Hv).
  apply isValidTextModel_listed, listed_typed in Ht as (tp & tm & Htp & Htm).
  apply isValidImageModel_listed, listed_typed in Hv as (ip & im & Hip & Him).
  unfold as_EngineConfig. rewrite Htp, Htm, Hip, Him. simpl. eauto.
Qed.

(** C1. For every input, [normalizeEngineConfig] returns a configuration
    whose text pair is an enabled entry of the text catalog, whose image
    provider is not [anthropic], whose image pair is an enabled entry of the
    image catalog, and which is of type [EngineConfig]; a valid pair of the
    merged object is kept and an invalid one is replaced by the default
    pair. *)
Theorem normalizeEngineConfig_valid (input : jsval) :
  let m := merged_of input in
  let c := normalizeEngineConfig input in
  listed TEXT_MODELS (raw_textProvider c) (raw_textModel c)
  /\ raw_imageProvider c <> JStr "anthropic"
  /\ listed IMAGE_MODELS (raw_imageProvider c) (raw_imageModel c)
  /\ (raw_textProvider c, raw_textModel c) =
       (if isValidTextModel (raw_textProvider m) (raw_textModel m)
        then (raw_textProvider m, raw_textModel m)
        else (JStr (provider_id (textProvider defaultConfig)),
              JStr (textModel defaultConfig)))
  /\ (raw_imageProvider c, raw_imageModel c) =
       (if negb (js_is_string (raw_imageProvider m) "anthropic")
           && isValidImageModel (raw_imageProvider m) (raw_imageModel m)
        then (raw_imageProvider m, raw_imageModel m)
        else (JStr (provider_id (imageProvider defaultConfig)),
              JStr (imageModel defaultConfig)))
  /\ exists cfg, as_EngineConfig c = Some cfg.
Proof.
  intros m c.
  destruct (normalized_checks input) as (Ht & Ha & Hv). fold c in Ht, Ha, Hv.
  split; [apply isValidTextModel_listed, Ht |].
  split; [intros E; rewrite E in Ha; discriminate Ha |].
  split; [apply isValidImageModel_listed, Hv |].
  split; [| split; [| apply normalized_is_config]].
  - subst c m. unfold normalizeEngineConfig. cbv zeta.
    generalize (merged_of input). intros m0.
    destruct (isValidTextModel (raw_textProvider m0) (raw_textModel m0));
      simp_cfg;
      repeat match goal with
             | |- context [if ?b then _ else _] => destruct b
             end; reflexivity.
  - subst c m. unfold normalizeEngineConfig. cbv zeta.
    generalize (merged_of input). intros m0.
    destruct (isValidTextModel (raw_textProvider m0) (raw_textModel m0));
      simp_cfg.
    all: destruct (js_is_string (raw_imageProvider m0) "anthropic"); simp_cfg.
    all: cbn [andb].
    all: match goal with
         | |- context [isValidImageModel ?p ?q] =>
             destruct (isValidImageModel p q) eqn:Hq
         end; simp_cfg.
    all: try (vm_compute in Hq; discriminate Hq).
    all: reflexivity.
Qed.

Lemma merged_of_merged_value (m : Merged) : merged_of (merged_value m) = m.
Proof. destruct m. reflexivity. Qed.

(** A repaired object passes the three checks unchanged. *)
Lemma normalize_of_normalized (input v : jsval) :
  merged_of v = normalizeEngineConfig input ->
  normalizeEngineConfig v = normalizeEngineConfig input.
Proof.
  intros E. destruct (normalized_checks input) as (Ht & Ha & Hv).
  unfold normalizeEngineConfig at 1. cbv zeta. rewrite E.
  rewrite Ht. simp_cfg. rewrite Ha, Hv. reflexivity.
Qed.

(** C9. [normalizeEngineConfig] is idempotent: applied to the object it
    returned, it returns that object again; and so it does applied to any
    value whose four configuration fields are those of the object it returned
    (the object with the other properties the input had). *)
Theorem normalizeEngineConfig_idempotent (input : jsval) :
  normalizeEngineConfig (merged_value (normalizeEngineConfig input))
  = normalizeEngineConfig input
  /\ forall v,
       merged_of v = normalizeEngineConfig input ->
       normalizeEngineConfig v = normalizeEngineConfig input.
Proof.
  split.
  - apply normalize_of_normalized, merged_of_merged_value.
  - intros v. apply normalize_of_normalized.
Qed.

(** [resolveApiModel] changes an id in two cases only. *)
Lemma resolveApiModel_cases (provider : Provider) (kind : Kind) (id : string) :
  resolveApiModel provider kind id = id
  \/ (provider = Anthropic /\ kind = KText /\ id = "claude-sonnet"
      /\ resolveApiModel provider kind id = "claude-3-5-sonnet-latest")
  \/ (provider = Anthropic /\ kind = KText /\ id = "claude-haiku"
      /\ resolveApiModel provider kind id = "claude-3-5-haiku-latest").
Proof.
  unfold resolveApiModel, getModelOption.
  destruct kind, provider;
    cbn [find catalog TEXT_MODELS IMAGE_MODELS text_option image_option
           opt_enabled opt_provider opt_kind opt_id opt_apiModel
           Provider_eqb Kind_eqb andb];
    repeat match goal with
           | |- context [String.eqb ?a id] =>
               destruct (String.eqb_spec a id) as [<- | ?];
               cbn [find opt_enabled opt_provider opt_kind opt_id opt_apiModel
                      Provider_eqb Kind_eqb andb]
           end;
    auto 10.
Qed.

(** C4, as amended. [resolveApiModel] is total and idempotent; it returns the
    override of the enabled entry that matches provider, kind and id when
    that entry has one, and the id unchanged otherwise; the result is
    non-empty whenever the id is. *)
Theorem resolveApiModel_total_idempotent
  (provider : Provider) (kind : Kind) (id : string) :
  resolveApiModel provider kind (resolveApiModel provider kind id)
  = resolveApiModel provider kind id
  /\ (forall o api,
        In o (catalog kind) -> opt_enabled o = true ->
        opt_provider o = provider -> opt_kind o = kind -> opt_id o = id ->
        opt_apiModel o = Some api ->
        resolveApiModel provider kind id = api)
  /\ ((forall o,
         In o (catalog kind) -> opt_enabled o = true ->
         opt_provider o = provider -> opt_kind o = kind -> opt_id o = id ->
         opt_apiModel o = None) ->
      resolveApiModel provider kind id = id)
  /\ (id <> "" -> resolveApiModel provider kind id <> "").
Proof.
  split; [| split; [| split]].
  - destruct (resolveApiModel_cases provider kind id)
      as [E | [(-> & -> & -> & E) | (-> & -> & -> & E)]];
      rewrite !E; reflexivity.
  - intros o api Hin He Hp Hk Hi Ha.
    destruct kind; simpl in Hin;
      repeat (destruct Hin as [<- | Hin]; [simpl in *; subst; try discriminate;
                                           injection Ha as <-; reflexivity |]);
      destruct Hin.
  - intros H.
    destruct (resolveApiModel_cases provider kind id)
      as [E | [(-> & -> & -> & E) | (-> & -> & -> & E)]]; [exact E | |].
    + specialize (H (text_option "claude-sonnet" "Claude Sonnet" Anthropic false
                       (Some "claude-3-5-sonnet-latest"))).
      simpl in H. discriminate H; auto 10.
    + specialize (H (text_option "claude-haiku" "Claude Haiku" Anthropic false
                       (Some "claude-3-5-haiku-latest"))).
      simpl in H. discriminate H; auto 10.
  - intros Hid.
    destruct (resolveApiModel_cases provider kind id)
      as [E | [(-> & -> & -> & E) | (-> & -> & -> & E)]];
      rewrite E; [exact Hid | discriminate | discriminate].
Qed.

(** C4, the claim as stated fails: the empty id passes through. *)
Lemma resolveApiModel_empty_id : resolveApiModel Openai KText "" = "".
Proof. reflexivity. Qed.

(** ** JSON extraction *)

Lemma from_first_app (c : ascii) (pre s : string) :
  from_first c pre = None ->
  from_first c (pre +:+ String c s) = Some (String c s).
Proof.
  induction pre as [| a pre IH]; simpl; intros H.
  - rewrite Ascii.eqb_refl. reflexivity.
  - destruct (Ascii.eqb a c); [discriminate H | apply IH, H].
Qed.

Lemma upto_last_app (c : ascii) (s post : string) :
  upto_last c post = None ->
  upto_last c (s +:+ String c post) = Some (s +:+ String c "").
Proof.
  intros H. induction s as [| a s IH]; simpl.
  - rewrite H, Ascii.eqb_refl. reflexivity.
  - rewrite IH. reflexivity.
Qed.

(** The braces expression finds an object that stands between commentary
    without braces of its own. *)
Lemma match_braces_between (pre mid post : string) :
  from_first "{" pre = None -> upto_last "}" post = None ->
  match_braces (pre +:+ String "{" (mid +:+ String "}" post))
  = Some (String "{" (mid +:+ "}")).
Proof.
  intros Hpre Hpost. unfold match_braces.
  rewrite from_first_app by exact Hpre.
  change (String "{" (mid +:+ String "}" post))
    with (String "{" mid +:+ String "}" post).
  rewrite upto_last_app by exact Hpost. reflexivity.
Qed.

Lemma from_first_Some (c : ascii) (s r : string) :
  from_first c s = Some r -> exists pre rest, s = pre +:+ r /\ r = String c rest.
Proof.
  induction s as [| a s IH]; [discriminate |]. cbn [from_first].
  destruct (Ascii.eqb_spec a c) as [-> | _].
  - intros [= <-]. exists "", s. split; reflexivity.
  - intros H. destruct (IH H) as (pre & rest & -> & ->).
    exists (String a pre), rest. split; reflexivity.
Qed.

Lemma upto_last_Some (c : ascii) (s p : string) :
  upto_last c s = Some p ->
  exists mid post, p = mid +:+ String c "" /\ s = mid +:+ String c post.
Proof.
  revert p. induction s as [| a s IH]; [discriminate |]. intros p. cbn [upto_last].
  destruct (upto_last c s) as [q |].
  - intros [= <-]. destruct (IH q eq_refl) as (mid & post & -> & ->).
    exists (String a mid), post. split; reflexivity.
  - destruct (Ascii.eqb_spec a c) as [-> | _]; [| discriminate].
    intros [= <-]. exists "", s. split; reflexivity.
Qed.

(** What the braces expression matches is a part of the text, from an
    opening brace to a closing brace. *)
Lemma match_braces_Some (text m0 : string) :
  match_braces text = Some m0 ->
  exists pre mid post,
    text = pre +:+ String "{" (mid +:+ String "}" post)
    /\ m0 = String "{" (mid +:+ "}").
Proof.
  unfold match_braces. destruct (from_first "{" text) as [s |] eqn:F; [| discriminate].
  destruct (from_first_Some _ _ _ F) as (pre & rest & -> & ->).
  cbn [upto_last]. destruct (upto_last "}" rest) as [q |] eqn:U; [| discriminate].
  intros [= <-]. destruct (upto_last_Some _ _ _ U) as (mid & post & -> & ->).
  exists pre, mid, post. split; reflexivity.
Qed.

Lemma parse_members_object (fuel : nat) :
  forall s acc v r, parse_members fuel s acc = Some (v, r) -> exists props, v = JObj props.
Proof.
  induction fuel as [| fuel IH]; intros s acc v r H; [discriminate H |].
  cbn [parse_members] in H.
  destruct (skip_ws s) as [| q r0]; [discriminate H |].
  destruct (code q =? 34)%N; [| discriminate H].
  destruct (parse_string r0) as [[k r1] |]; [| discriminate H].
  destruct (skip_ws r1) as [| colon r2]; [discriminate H |].
  destruct (code colon =? 58)%N; [| discriminate H].
  destruct (parse_value fuel r2) as [[x r3] |]; [| discriminate H].
  destruct (skip_ws r3) as [| c r4]; [discriminate H |].
  destruct (code c =? 44)%N; [exact (IH _ _ _ _ H) |].
  destruct (code c =? 125)%N; [| discriminate H].
  injection H as <- _. eexists; reflexivity.
Qed.

(** A text that starts with an opening brace is, if anything, an object. *)
Lemma JSON_parse_object (rest : string) (v : jsval) :
  JSON_parse (String "{" rest) = Some v -> exists props, v = JObj props.
Proof.
  unfold JSON_parse.
  destruct (2 * String.length (String "{" rest) + 2)%nat as [| fuel] eqn:E;
    [discriminate |].
  clear E. cbn [parse_value].
  change (skip_ws (String "{" rest)) with (String "{" rest). cbv beta iota zeta.
  change (code "{" =? 123)%N with true. cbv beta iota.
  destruct (skip_ws rest) as [| c' rest']; [discriminate |].
  destruct (code c' =? 125)%N.
  - destruct (skip_ws rest'); [| discriminate]. intros [= <-]. eexists; reflexivity.
  - destruct (parse_members fuel rest []) as [[x r] |] eqn:P; [| discriminate].
    destruct (skip_ws r); [| discriminate]. intros [= <-].
    exact (parse_members_object _ _ _ _ _ P).
Qed.

Lemma tails_suffix (pre s : string) : In s (tails (pre +:+ s)).
Proof.
  induction pre as [| a pre IH]; cbn [append].
  - destruct s; cbn [tails In]; left; reflexivity.
  - cbn [tails In]. right. exact IH.
Qed.

Lemma inits_prefix (p post : string) : In p (inits (p +:+ post)).
Proof.
  induction p as [| a p IH]; cbn [append].
  - destruct post; cbn [inits In]; left; reflexivity.
  - cbn [inits In]. right. apply in_map. exact IH.
Qed.

Lemma append_assoc (a b c : string) : (a +:+ b) +:+ c = a +:+ (b +:+ c).
Proof.
  induction a as [| x a IH]; [reflexivity |].
  change (String x ((a +:+ b) +:+ c) = String x (a +:+ b +:+ c)).
  rewrite IH. reflexivity.
Qed.

(** The test finds every object within a text. *)
Lemma parses_object_within_false (text : string) :
  parses_object_within text = false -> ~ object_within text.
Proof.
  intros H (pre & mid & post & props & -> & P).
  assert (T : parses_object_within (pre +:+ String "{" (mid +:+ String "}" post)) = true).
  { unfold parses_object_within. apply existsb_exists.
    exists (String "{" (mid +:+ String "}" post)). split; [apply tails_suffix |].
    apply existsb_exists. exists (String "{" (mid +:+ "}")). split.
    - change (String "{" (mid +:+ String "}" post))
        with (String "{" (mid +:+ String "}" "" +:+ post)).
      rewrite <- append_assoc. apply (inits_prefix (String "{" (mid +:+ "}")) post).
    - rewrite P. reflexivity. }
  rewrite T in H. discriminate H.
Qed.

(** C3, as amended. [safeParseJson] never throws. A text that [JSON.parse]
    accepts gives the value it denotes. A text that [JSON.parse] rejects,
    made of an object text with commentary before it that has no opening
    brace and commentary after it that has no closing brace, gives the value
    of the object text. A text that [JSON.parse] rejects and that contains no
    JSON object (no part of it, from an opening brace to a closing brace, is
    the text of an object) gives [null]. *)
Theorem safeParseJson_recovers :
  (forall text v, JSON_parse text = Some v -> safeParseJson text = v)
  /\ (forall pre mid post v,
        JSON_parse (String "{" (mid +:+ "}")) = Some v ->
        JSON_parse (pre +:+ String "{" (mid +:+ String "}" post)) = None ->
        from_first "{" pre = None -> upto_last "}" post = None ->
        safeParseJson (pre +:+ String "{" (mid +:+ String "}" post)) = v)
  /\ (forall text,
        JSON_parse text = None -> ~ object_within text ->
        safeParseJson text = JNull).
Proof.
  split; [| split].
  - intros text v H. unfold safeParseJson. rewrite H. reflexivity.
  - intros pre mid post v Hobj Htext Hpre Hpost. unfold safeParseJson.
    rewrite Htext, match_braces_between, Hobj by assumption. reflexivity.
  - intros text H Hno. unfold safeParseJson. rewrite H.
    destruct (match_braces text) as [m0 |] eqn:Hm; [| reflexivity].
    destruct (JSON_parse m0) as [v |] eqn:Hv; [| reflexivity].
    exfalso. apply Hno.
    destruct (match_braces_Some _ _ Hm) as (pre & mid & post & Htext & ->).
    destruct (JSON_parse_object _ _ Hv) as (props & ->).
    exists pre, mid, post, props. split; assumption.
Qed.

(** C3, the three parts at concrete texts: an object text, an object text
    with commentary around it, a text without braces and a text with braces
    that hold no object. *)
Lemma safeParseJson_recovers_witness :
  safeParseJson ("{" +:+ quoted "a" +:+ ":1}") = JObj [("a", JNum (num_of_Z 1))]
  /\ safeParseJson ("Sure! {" +:+ quoted "a" +:+ ":1} Done.")
     = JObj [("a", JNum (num_of_Z 1))]
  /\ safeParseJson "no json here" = JNull
  /\ safeParseJson "no {json} here" = JNull.
Proof.
  destruct safeParseJson_recovers as (H1 & H2 & H3).
  split; [| split; [| split]].
  - apply H1. vm_compute. reflexivity.
  - apply (H2 "Sure! " (quoted "a" +:+ ":1") " Done."); vm_compute; reflexivity.
  - apply H3; [vm_compute; reflexivity |].
    apply parses_object_within_false. vm_compute. reflexivity.
  - apply H3; [vm_compute; reflexivity |].
    apply parses_object_within_false. vm_compute. reflexivity.
Defined.

(** C3, the claim as stated fails. The first text is the object text
    [{"a":1}] with commentary before it, and the result is [null]; the second
    text contains no object and the result is not [null]. *)
Lemma safeParseJson_commentary_with_braces :
  JSON_parse ("{" +:+ quoted "a" +:+ ":1}") = Some (JObj [("a", JNum (num_of_Z 1))])
  /\ safeParseJson ("Use {braces}: {" +:+ quoted "a" +:+ ":1}") = JNull
  /\ from_first "{" "42" = None
  /\ parses_object_within "42" = false
  /\ safeParseJson "42" = JNum (num_of_Z 42).
Proof. vm_compute. repeat split; reflexivity. Qed.

(** ** The price of a text call *)

Lemma num_mul_NaN (x : number) : num_mul x NaN = NaN.
Proof. destruct x; reflexivity. Qed.

(** C5, the code at the failing input: a model name that [Object.prototype]
    defines is not an entry of the table, and the cost is [NaN], not [0]. *)
Theorem calcTextCostUsd_inherited_name (vendor : ApiVendor) (usage : TokenUsage) :
  table_get (TEXT_RATES vendor) "toString" = None
  /\ calcTextCostUsd vendor "toString" usage = NaN.
Proof.
  split; [destruct vendor; reflexivity |].
  unfold calcTextCostUsd.
  replace (get_property (TEXT_RATES vendor) "toString") with (@Inherited TextRate)
    by (destruct vendor; reflexivity).
  cbn [rate_inputPerM rate_outputPerM]. rewrite !num_mul_NaN. reflexivity.
Qed.

(** A model that is neither an entry of the table nor inherited costs [0]. *)
Lemma calcTextCostUsd_absent (vendor : ApiVendor) (apiModel : string)
  (usage : TokenUsage) :
  get_property (TEXT_RATES vendor) apiModel = Undefined ->
  calcTextCostUsd vendor apiModel usage = num_of_Z 0.
Proof. intros H. unfold calcTextCostUsd. rewrite H. reflexivity. Qed.

(** An entry of the table is priced by the formula. *)
Lemma calcTextCostUsd_present (vendor : ApiVendor) (apiModel : string)
  (usage : TokenUsage) (rate : TextRate) :
  table_get (TEXT_RATES vendor) apiModel = Some rate ->
  calcTextCostUsd vendor apiModel usage
  = usd (num_add (num_mul (num_div (u_input usage) PER_M) (inputPerM rate))
                 (num_mul (num_div (u_output usage) PER_M) (outputPerM rate))).
Proof.
  intros H. unfold calcTextCostUsd, get_property. rewrite H. reflexivity.
Qed.

(** ** The handler *)

(** How the adapters and the pipeline run, in one environment. *)
Section Run.

Variable env : Env.

Lemma bind_run {A B : Type} (m : M A) (k : A -> M B) (st : State) :
  (m ≫= k) st =
  match m st with
  | (Val a, st') => k a st'
  | (Return r, st') => (Return r, st')
  | (Throw msg, st') => (Throw msg, st')
  end.
Proof. reflexivity. Qed.

Lemma after_calls_refl (st : State) : after_calls st st [].
Proof. unfold after_calls. rewrite app_nil_r. auto. Qed.

Lemma fetch_run (call : NetCall) (st : State) :
  exists st', fetch env call st = (Val (respond env (calls (world st)) call), st')
              /\ after_calls st st' [call].
Proof. eexists. split; [reflexivity |]. repeat split. Qed.

Lemma text_result_run (failure : string) (ans : Answer) (st : State) :
  (exists msg, text_result failure ans st = (Throw msg, st))
  \/ (exists t u, text_result failure ans st = (Val (t, u), st)).
Proof. destruct ans; simpl; eauto. Qed.

Lemma inline_image_run (dataUrl : option string) (st : State) :
  (exists msg, inline_image dataUrl st = (Throw msg, st))
  \/ (exists a, inline_image dataUrl st = (Val a, st)).
Proof.
  unfold inline_image. destruct (truthy_string dataUrl) as [d |]; [| right; eauto].
  destruct (parseDataUrl d) as [[mime b64] |]; [right | left]; eauto.
Qed.

(** A text call throws before any call, or makes one call to the vendor's
    endpoint and then throws or returns a text with its usage. It never
    touches the store. *)
Lemma callTextModel_run (vendor : ApiVendor) (apiModel : string)
  (prompt : Prompt) (dataUrl openaiKey geminiKey anthropicKey : option string)
  (st : State) :
  exists exit st' l,
    callTextModel env vendor apiModel prompt dataUrl
      openaiKey geminiKey anthropicKey st = (exit, st')
    /\ after_calls st st' l
    /\ ((l = [] /\ exists msg, exit = Throw msg)
        \/ (exists c, l = [c]
              /\ net_endpoint c = text_endpoint vendor
              /\ net_model c = apiModel /\ net_prompt c = prompt
              /\ ((exists msg, exit = Throw msg)
                  \/ exists t u, exit = Val (t, u)))).
Proof.
  assert (Hcall : forall call failure,
    net_endpoint call = text_endpoint vendor -> net_model call = apiModel ->
    net_prompt call = prompt ->
    exists exit st' l,
      (fetch env call ≫= text_result failure) st = (exit, st')
      /\ after_calls st st' l
      /\ ((l = [] /\ exists msg, exit = Throw msg)
          \/ (exists c, l = [c]
                /\ net_endpoint c = text_endpoint vendor
                /\ net_model c = apiModel /\ net_prompt c = prompt
                /\ ((exists msg, exit = Throw msg)
                    \/ exists t u, exit = Val (t, u))))).
  { intros call failure He Hm Hp. rewrite bind_run.
    destruct (fetch_run call st) as (st1 & -> & Hst1).
    destruct (text_result_run failure (respond env (calls (world st)) call) st1)
      as [(msg & ->) | (t & u & ->)];
      eexists _, st1, [call]; (split; [reflexivity |]); (split; [exact Hst1 |]);
      right; exists call; eauto 10. }
  unfold callTextModel. destruct vendor.
  - apply Hcall; reflexivity.
  - destruct (key_set geminiKey); cbn [negb].
    + rewrite bind_run.
      destruct (inline_image_run dataUrl st) as [(msg & ->) | (a & ->)].
      * eexists _, st, []. split; [reflexivity |].
        split; [apply after_calls_refl | left; eauto].
      * apply Hcall; reflexivity.
    + eexists _, st, []. split; [reflexivity |].
      split; [apply after_calls_refl | left; eauto].
  - destruct (key_set anthropicKey); cbn [negb].
    + rewrite bind_run.
      destruct (inline_image_run dataUrl st) as [(msg & ->) | (a & ->)].
      * eexists _, st, []. split; [reflexivity |].
        split; [apply after_calls_refl | left; eauto].
      * apply Hcall; reflexivity.
    + eexists _, st, []. split; [reflexivity |].
      split; [apply after_calls_refl | left; eauto].
Qed.

(** An image call likewise; what it returns is a truthy image payload. *)
Lemma callImageEdit_run (vendor : ApiVendor) (apiModel : string)
  (prompt : Prompt) (buf mime : string) (openaiKey geminiKey : option string)
  (st : State) :
  exists exit st' l,
    callImageEdit env vendor apiModel prompt buf mime openaiKey geminiKey st
    = (exit, st')
    /\ after_calls st st' l
    /\ ((l = [] /\ exists msg, exit = Throw msg)
        \/ (exists c, l = [c]
              /\ net_model c = apiModel /\ net_prompt c = prompt
              /\ ((exists msg, exit = Throw msg)
                  \/ exists b64 u, exit = Val (b64, u) /\ js_truthy b64 = true))).
Proof.
  unfold callImageEdit. destruct vendor.
  - rewrite bind_run.
    match goal with |- context [fetch env ?c st] =>
      destruct (fetch_run c st) as (st1 & -> & Hst1);
      destruct (respond env (calls (world st)) c) as [msg | text | msg | b]
    end.
    4: destruct (js_truthy (read_image b)) eqn:Hb; cbn [negb].
    all: eexists _, st1, [_]; (split; [reflexivity |]); (split; [exact Hst1 |]);
      right; eexists; (split; [reflexivity |]); eauto 10.
  - destruct (key_set geminiKey); cbn [negb].
    + rewrite bind_run.
      match goal with |- context [fetch env ?c st] =>
        destruct (fetch_run c st) as (st1 & -> & Hst1);
        destruct (respond env (calls (world st)) c) as [msg | text | msg | b]
      end.
      4: destruct (js_truthy (read_image b)) eqn:Hb; cbn [negb].
      all: eexists _, st1, [_]; (split; [reflexivity |]); (split; [exact Hst1 |]);
        right; eexists; (split; [reflexivity |]); eauto 10.
    + eexists _, st, []. split; [reflexivity |].
      split; [apply after_calls_refl | left; eauto].
  - eexists _, st, []. split; [reflexivity |].
    split; [apply after_calls_refl | left; eauto].
Qed.

Lemma item_create_run (data : RequestCostLineItem) (st : State) :
  exists st',
    requestCostLineItem_create data st = (Val tt, st')
    /\ requestLogId st' = requestLogId st
    /\ requestLogs (world st') = requestLogs (world st)
    /\ costLineItems (world st') = costLineItems (world st) ++ [data]
    /\ calls (world st') = calls (world st).
Proof. eexists. split; [reflexivity |]. repeat split. Qed.

Lemma log_update_run (id : nat) (f : RequestLog -> RequestLog) (st : State) :
  exists st',
    requestLog_update id f st = (Val tt, st')
    /\ requestLogId st' = requestLogId st
    /\ requestLogs (world st') = alter f id (requestLogs (world st))
    /\ costLineItems (world st') = costLineItems (world st)
    /\ calls (world st') = calls (world st).
Proof. eexists. split; [reflexivity |]. repeat split. Qed.

(** The prompt of the image call, when it can be built. *)
Lemma buildFinalImagePrompt_Some (title : string) (vision direction : jsval)
  (prompt : Prompt) :
  buildFinalImagePrompt title vision direction = Some prompt ->
  prompt = FinalImagePrompt title vision direction.
Proof.
  unfold buildFinalImagePrompt. intros H.
  destruct (immutable_line vision); [| discriminate H].
  cbn [mbind option_bind] in H.
  destruct (mapM _ direction_fields); [| discriminate H].
  injection H as <-. reflexivity.
Qed.

(** The pipeline never returns early; when it throws, the log rows are as
    they were and line items were only added; when it completes,
    [pipeline_done] holds. *)
Lemma pipeline_run (id : nat) (title userConcept : string)
  (cfg : EngineConfig) (buf mime dataUrl : string) (st : State) :
  exists exit st' new_calls,
    pipeline env id title userConcept cfg buf mime dataUrl st = (exit, st')
    /\ requestLogId st' = requestLogId st
    /\ calls (world st') = calls (world st) ++ new_calls
    /\ vision_first env title cfg new_calls
    /\ match exit with
       | Return _ => False
       | Throw _ =>
           requestLogs (world st') = requestLogs (world st)
           /\ exists items,
               costLineItems (world st') = costLineItems (world st) ++ items
       | Val resp => pipeline_done env id title userConcept st st' resp
       end.
Proof.
  unfold pipeline. cbv zeta.
  destruct (chooseVisionEngine cfg (OPENAI_API_KEY env) (GEMINI_API_KEY env))
    as [msg | engine] eqn:Hengine.
  { exists (Throw msg), st, []. split; [reflexivity |]. split; [reflexivity |].
    split; [symmetry; apply app_nil_r |]. split; [exact I |].
    split; [reflexivity |]. exists []. symmetry. apply app_nil_r. }
  cbn [or_throw]. rewrite bind_run. cbn [mret M_ret ret].
  (* VISION *)
  rewrite bind_run.
  match goal with |- context [callTextModel ?e ?v ?m ?p ?d ?a ?b ?c st] =>
    destruct (callTextModel_run v m p d a b c st)
      as (x1 & st1 & l1 & -> & (I1 & L1 & T1 & C1) & K1)
  end.
  destruct K1 as [(-> & msg & ->) | (c1 & -> & E1 & M1 & P1 & K1)].
  { exists (Throw msg), st1, []. split; [reflexivity |]. split; [exact I1 |].
    split; [exact C1 |]. split; [exact I |].
    split; [exact L1 |]. exists []. rewrite T1. symmetry. apply app_nil_r. }
  assert (V1 : forall more, vision_first env title cfg (c1 :: more))
    by (intros more; exists engine; auto).
  destruct K1 as [(msg & ->) | (t1 & u1 & ->)].
  { exists (Throw msg), st1, [c1]. split; [reflexivity |]. split; [exact I1 |].
    split; [exact C1 |]. split; [apply V1 |].
    split; [exact L1 |]. exists []. rewrite T1. symmetry. apply app_nil_r. }
  rewrite bind_run.
  match goal with |- context [requestCostLineItem_create ?d st1] =>
    destruct (item_create_run d st1) as (st2 & -> & I2 & L2 & T2 & C2);
    set (vItem := d) in *
  end.
  (* CONCEPT *)
  rewrite bind_run.
  match goal with |- context [callTextModel ?e ?v ?m ?p ?d ?a ?b ?c st2] =>
    destruct (callTextModel_run v m p d a b c st2)
      as (x3 & st3 & l3 & -> & (I3 & L3 & T3 & C3) & K3)
  end.
  assert (Hthrow3 : forall msg : string,
    requestLogId st3 = requestLogId st
    /\ calls (world st3) = calls (world st) ++ c1 :: l3
    /\ vision_first env title cfg (c1 :: l3)
    /\ requestLogs (world st3) = requestLogs (world st)
       /\ exists items, costLineItems (world st3) = costLineItems (world st) ++ items).
  { intros _. split; [congruence |].
    split; [rewrite C3, C2, C1, <- app_assoc; reflexivity |].
    split; [apply V1 |].
    split; [congruence |]. exists [vItem]. congruence. }
  destruct K3 as [(-> & msg & ->) | (c2 & -> & E3 & M3 & P3 & K3)].
  { exists (Throw msg), st3, [c1]. split; [reflexivity |]. apply (Hthrow3 msg). }
  destruct K3 as [(msg & ->) | (t3 & u3 & ->)].
  { exists (Throw msg), st3, [c1; c2]. split; [reflexivity |]. apply (Hthrow3 msg). }
  clear Hthrow3.
  rewrite bind_run.
  match goal with |- context [requestCostLineItem_create ?d st3] =>
    destruct (item_create_run d st3) as (st4 & -> & I4 & L4 & T4 & C4);
    set (cItem := d) in *
  end.
  (* the conversions *)
  assert (Hthrow4 :
    exists exit st' new_calls,
      (Throw primitive_error_message : Exit Response, st4) = (exit, st')
      /\ requestLogId st' = requestLogId st
      /\ calls (world st') = calls (world st) ++ new_calls
      /\ vision_first env title cfg new_calls
      /\ match exit with
         | Return _ => False
         | Throw _ =>
             requestLogs (world st') = requestLogs (world st)
             /\ exists items,
                 costLineItems (world st') = costLineItems (world st) ++ items
         | Val resp => pipeline_done env id title userConcept st st' resp
         end).
  { exists (Throw primitive_error_message), st4, [c1; c2].
    split; [reflexivity |]. split; [congruence |].
    split; [rewrite C4, C3, C2, C1, <- app_assoc; reflexivity |].
    split; [apply V1 |]. split; [congruence |].
    exists [vItem; cItem]. rewrite T4, T3, T2, T1, <- app_assoc. reflexivity. }
  rewrite bind_run.
  destruct (deriveConceptUsed _ userConcept) as [conceptUsed |] eqn:Hconcept;
    cbn [converted]; [| exact Hthrow4].
  cbn [mret M_ret ret]. rewrite bind_run.
  destruct (buildFinalImagePrompt title _ _) as [editPrompt |] eqn:Hprompt;
    cbn [converted]; [| exact Hthrow4].
  cbn [mret M_ret ret]. clear Hthrow4.
  apply buildFinalImagePrompt_Some in Hprompt. subst editPrompt.
  (* IMAGE EDIT *)
  rewrite bind_run.
  match goal with |- context [callImageEdit ?e ?v ?m ?p ?b ?mi ?a ?g st4] =>
    destruct (callImageEdit_run v m p b mi a g st4)
      as (x5 & st5 & l5 & -> & (I5 & L5 & T5 & C5) & K5)
  end.
  assert (Hthrow5 : forall msg : string,
    requestLogId st5 = requestLogId st
    /\ calls (world st5) = calls (world st) ++ c1 :: c2 :: l5
    /\ vision_first env title cfg (c1 :: c2 :: l5)
    /\ requestLogs (world st5) = requestLogs (world st)
       /\ exists items, costLineItems (world st5) = costLineItems (world st) ++ items).
  { intros _. split; [congruence |].
    split; [rewrite C5, C4, C3, C2, C1, <- !app_assoc; reflexivity |].
    split; [apply V1 |].
    split; [congruence |]. exists [vItem; cItem].
    rewrite T5, T4, T3, T2, T1, <- app_assoc. reflexivity. }
  destruct K5 as [(-> & msg & ->) | (c3 & -> & M5 & P5 & K5)].
  { exists (Throw msg), st5, [c1; c2]. split; [reflexivity |]. apply (Hthrow5 msg). }
  destruct K5 as [(msg & ->) | (b64 & u5 & -> & Hb64)].
  { exists (Throw msg), st5, [c1; c2; c3]. split; [reflexivity |]. apply (Hthrow5 msg). }
  destruct (Hthrow5 "") as (_ & C5' & _). clear Hthrow5.
  rewrite bind_run.
  match goal with |- context [requestCostLineItem_create ?d st5] =>
    destruct (item_create_run d st5) as (st6 & -> & I6 & L6 & T6 & C6);
    set (iItem := d) in *
  end.
  rewrite bind_run.
  match goal with |- context [requestLog_update ?i ?f st6] =>
    destruct (log_update_run i f st6) as (st7 & -> & I7 & L7 & T7 & C7)
  end.
  eexists _, st7, [c1; c2; c3]. split; [reflexivity |].
  split; [congruence |].
  split; [congruence |].
  split; [apply V1 |].
  exists conceptUsed,
    b64,
    (js_coalesce (safeParseJson t1) (default_vision t1)),
    (js_coalesce (safeParseJson t3) (default_direction userConcept)),
    vItem, cItem, iItem, c1, c2, c3.
  split; [reflexivity |]. split; [exact Hb64 |]. split; [exact Hconcept |].
  split; [rewrite T7, T6, T5, T4, T3, T2, T1, <- !app_assoc; reflexivity |].
  split; [reflexivity |]. split; [reflexivity |].
  split; [congruence |].
  split; [exact P1 |]. split; [exact P3 |]. split; [exact P5 |].
  rewrite L7, L6, L5, L4, L3, L2, L1. reflexivity.
Qed.

(** Every step of the handler only adds to the calls. *)
Lemma appends_ret {A : Type} (a : A) : appends (mret a : M A).
Proof. intros st. exists []. symmetry. apply app_nil_r. Qed.

Lemma appends_throw {A : Type} (msg : string) : appends (throw msg : M A).
Proof. intros st. exists []. symmetry. apply app_nil_r. Qed.

Lemma appends_bind {A B : Type} (m : M A) (k : A -> M B) :
  appends m -> (forall a, appends (k a)) -> appends (m ≫= k).
Proof.
  intros Hm Hk st. rewrite bind_run. destruct (Hm st) as (l & El).
  destruct (m st) as [[a | r | msg] st1]; cbn [snd] in *; [| exists l; exact El ..].
  destruct (Hk a st1) as (l' & El'). exists (l ++ l').
  rewrite El', El, app_assoc. reflexivity.
Qed.

Lemma appends_converted {A : Type} (r : option A) : appends (converted r).
Proof. destruct r; [apply appends_ret | apply appends_throw]. Qed.

Lemma appends_item (data : RequestCostLineItem) :
  appends (requestCostLineItem_create data).
Proof. intros st. exists []. symmetry. apply app_nil_r. Qed.

Lemma appends_update (id : nat) (f : RequestLog -> RequestLog) :
  appends (requestLog_update id f).
Proof. intros st. exists []. symmetry. apply app_nil_r. Qed.

Lemma appends_callTextModel (vendor : ApiVendor) (apiModel : string)
  (prompt : Prompt) (dataUrl openaiKey geminiKey anthropicKey : option string) :
  appends (callTextModel env vendor apiModel prompt dataUrl
             openaiKey geminiKey anthropicKey).
Proof.
  intros st.
  destruct (callTextModel_run vendor apiModel prompt dataUrl openaiKey geminiKey
              anthropicKey st) as (exit & st' & l & -> & (_ & _ & _ & C) & _).
  exists l. exact C.
Qed.

Lemma appends_callImageEdit (vendor : ApiVendor) (apiModel : string)
  (prompt : Prompt) (buf mime : string) (openaiKey geminiKey : option string) :
  appends (callImageEdit env vendor apiModel prompt buf mime openaiKey geminiKey).
Proof.
  intros st.
  destruct (callImageEdit_run vendor apiModel prompt buf mime openaiKey geminiKey st)
    as (exit & st' & l & -> & (_ & _ & _ & C) & _).
  exists l. exact C.
Qed.

Lemma calls_first_bind {A B : Type} (c : NetCall) (m : M A) (k : A -> M B) :
  calls_first c m -> (forall a, appends (k a)) -> calls_first c (m ≫= k).
Proof.
  intros Hm Hk st. rewrite bind_run. destruct (Hm st) as (l & El).
  destruct (m st) as [[a | r | msg] st1]; cbn [snd] in *; [| exists l; exact El ..].
  destruct (Hk a st1) as (l' & El'). exists (l ++ l').
  rewrite El', El, <- app_assoc. reflexivity.
Qed.

(** A text adapter that has its key and can attach the image makes its
    call. *)
Lemma callTextModel_calls_first (vendor : ApiVendor) (apiModel : string)
  (prompt : Prompt) (dataUrl : option string) (attached : Attachment) :
  vendor = VOpenai \/ key_set (vendor_key env vendor) = true ->
  text_attachment vendor dataUrl = Some attached ->
  calls_first {| net_endpoint := text_endpoint vendor; net_model := apiModel;
                 net_prompt := prompt; net_image := attached |}
    (callTextModel env vendor apiModel prompt dataUrl
       (OPENAI_API_KEY env) (GEMINI_API_KEY env) (ANTHROPIC_API_KEY env)).
Proof.
  intros Hk Ha.
  assert (Hcall : forall failure,
    calls_first {| net_endpoint := text_endpoint vendor; net_model := apiModel;
                   net_prompt := prompt; net_image := attached |}
      (fetch env {| net_endpoint := text_endpoint vendor; net_model := apiModel;
                    net_prompt := prompt; net_image := attached |}
         ≫= text_result failure)).
  { intros failure. apply calls_first_bind.
    - intros st. exists []. reflexivity.
    - intros ans st. exists [].
      destruct (text_result_run failure ans st) as [(msg & ->) | (t & u & ->)];
        symmetry; apply app_nil_r. }
  assert (Himage : vendor <> VOpenai ->
    forall st, inline_image dataUrl st = (Val attached, st)).
  { intros Hv st. unfold text_attachment in Ha. unfold inline_image.
    destruct (truthy_string dataUrl) as [d |].
    - destruct vendor; [contradiction | |];
        destruct (parseDataUrl d) as [[mime b64] |]; try discriminate Ha;
        injection Ha as <-; reflexivity.
    - injection Ha as <-. reflexivity. }
  unfold callTextModel. destruct vendor.
  - unfold text_attachment in Ha.
    destruct (truthy_string dataUrl); injection Ha as <-; apply Hcall.
  - destruct Hk as [Hk | Hk]; [discriminate Hk |]. cbn [vendor_key] in Hk.
    rewrite Hk. cbn [negb]. intros st. rewrite bind_run, Himage by discriminate.
    apply Hcall.
  - destruct Hk as [Hk | Hk]; [discriminate Hk |]. cbn [vendor_key] in Hk.
    rewrite Hk. cbn [negb]. intros st. rewrite bind_run, Himage by discriminate.
    apply Hcall.
Qed.

(** When the vision engine is chosen, has its key and can attach the upload,
    the first call of the pipeline is the vision call to that engine. *)
Lemma pipeline_vision_call (id : nat) (title userConcept : string)
  (cfg : EngineConfig) (buf mime dataUrl : string) (engine : VisionEngine)
  (attached : Attachment) :
  chooseVisionEngine cfg (OPENAI_API_KEY env) (GEMINI_API_KEY env) = inr engine ->
  ve_vendor engine = VOpenai \/ key_set (vendor_key env (ve_vendor engine)) = true ->
  text_attachment (ve_vendor engine) (Some dataUrl) = Some attached ->
  calls_first {| net_endpoint := text_endpoint (ve_vendor engine);
                 net_model := ve_apiModel engine;
                 net_prompt := VisionPrompt title; net_image := attached |}
    (pipeline env id title userConcept cfg buf mime dataUrl).
Proof.
  intros He Hk Ha st. unfold pipeline. cbv zeta. rewrite He.
  cbn [or_throw]. rewrite bind_run. cbn [mret M_ret ret].
  apply calls_first_bind.
  - exact (callTextModel_calls_first _ _ _ _ _ Hk Ha).
  - intros visionCall.
    repeat first
      [ apply appends_bind; [| intros ?]
      | apply appends_item | apply appends_update | apply appends_converted
      | apply appends_callTextModel | apply appends_callImageEdit
      | apply appends_ret ].
Qed.

End Run.

Lemma provider_of_value_inv (v : jsval) (p : Provider) :
  provider_of_value v = Some p -> v = JStr (provider_id p).
Proof.
  destruct v; try discriminate. simpl.
  destruct (String.eqb_spec s "openai") as [-> | _]; [intros [= <-]; reflexivity |].
  destruct (String.eqb_spec s "gemini") as [-> | _]; [intros [= <-]; reflexivity |].
  destruct (String.eqb_spec s "anthropic") as [-> | _]; [intros [= <-]; reflexivity |].
  discriminate.
Qed.

(** The configuration of a request is a normalized object read at its type. *)
Lemma loadEngineConfig_normalized (cfgRaw : string) :
  exists input,
    as_EngineConfig (normalizeEngineConfig input) = Some (loadEngineConfig cfgRaw).
Proof.
  unfold loadEngineConfig.
  destruct (JSON_parse cfgRaw) as [v |].
  - exists v. destruct (normalized_is_config v) as (cfg & ->). reflexivity.
  - exists (config_value defaultConfig).
    destruct (normalized_is_config (config_value defaultConfig)) as (cfg & ->).
    reflexivity.
Qed.

Lemma as_EngineConfig_fields (m : Merged) (cfg : EngineConfig) :
  as_EngineConfig m = Some cfg ->
  raw_textProvider m = JStr (provider_id (textProvider cfg))
  /\ raw_textModel m = JStr (textModel cfg)
  /\ raw_imageProvider m = JStr (provider_id (imageProvider cfg))
  /\ raw_imageModel m = JStr (imageModel cfg).
Proof.
  unfold as_EngineConfig. intros H.
  destruct (provider_of_value (raw_textProvider m)) as [tp |] eqn:Htp; [| discriminate].
  destruct (raw_textModel m) as [| | | | tm | |] eqn:Htm; try discriminate.
  destruct (provider_of_value (raw_imageProvider m)) as [ip |] eqn:Hip; [| discriminate].
  destruct (raw_imageModel m) as [| | | | im | |] eqn:Him; try discriminate.
  simpl in H. injection H as <-. simpl.
  apply provider_of_value_inv in Htp, Hip. auto.
Qed.

(** The image engine of a request is never [anthropic]. *)
Lemma loadEngineConfig_image (cfgRaw : string) :
  imageProvider (loadEngineConfig cfgRaw) <> Anthropic.
Proof.
  destruct (loadEngineConfig_normalized cfgRaw) as (input & H).
  apply as_EngineConfig_fields in H as (_ & _ & Hip & _).
  destruct (normalized_checks input) as (_ & Ha & _).
  intros E. rewrite Hip, E in Ha. discriminate Ha.
Qed.

(** Every request ends in one of the six ways. *)
Theorem POST_outcome (env : Env) (req : Request) (w : World) :
  Outcome env req w (fst (POST env req w)) (snd (POST env req w)).
Proof.
  unfold POST, handler.
  destruct (formData req) as [msg | form] eqn:Hform.
  { cbn. apply BadForm. exact Hform. }
  cbn [or_throw]. rewrite bind_run. cbn [mret M_ret ret]. cbv zeta.
  fold (title_of form). fold (concept_of form). fold (config_of form).
  destruct (String.eqb_spec (title_of form) "") as [Ht | Ht].
  { cbn. eapply MissingTitle; eauto. }
  destruct (table_get form "image") as [[s | file] |] eqn:Himage.
  1, 3: cbn; eapply MissingImage; eauto; intros f; congruence.
  pose proof (loadEngineConfig_image (form_string form "engineConfig" "{}")) as Hip.
  fold (config_of form) in Hip.
  destruct (missing_key env (config_of form)) as [vendor |] eqn:Hkey.
  {
    unfold missing_key in Hkey.
    rewrite bind_run.
    destruct (textProvider (config_of form)) eqn:Etp,
             (imageProvider (config_of form)) eqn:Eip;
      try (exfalso; exact (Hip eq_refl));
      cbn [getApiVendor vendor_key] in *;
      repeat match type of Hkey with
             | context [key_set ?k] => destruct (key_set k) eqn:?
             end;
      cbn [negb] in Hkey; try discriminate Hkey;
      cbn;
      lazymatch type of Hkey with
      | Some ?v = Some _ => apply (MissingKey env req w form file v)
      end; auto;
      unfold missing_key; rewrite Etp, Eip; cbn [getApiVendor vendor_key];
      repeat match goal with H : key_set _ = _ |- _ => rewrite H end;
      reflexivity. }
  assert (Hkeys :
    key_set (vendor_key env (getApiVendor (textProvider (config_of form)))) = true
    /\ key_set (vendor_key env (getApiVendor (imageProvider (config_of form)))) = true).
  { unfold missing_key in Hkey.
    destruct (key_set (vendor_key env (getApiVendor (textProvider (config_of form)))));
      [| discriminate Hkey].
    destruct (key_set (vendor_key env (getApiVendor (imageProvider (config_of form)))));
      [auto | discriminate Hkey]. }
  destruct Hkeys as (Hk1 & Hk2).
  set (st0 := {| world := w; requestLogId := None |}).
  match goal with
  | |- Outcome _ _ _ (fst (let '(exit, st) := ?run in _)) _ =>
      assert (Hrun : exists id st2,
        id = fresh (dom (requestLogs w))
        /\ requestLogId st2 = Some id
        /\ requestLogs (world st2)
           = <[id := initial_log (title_of form) (concept_of form) (config_of form)]>
               (requestLogs w)
        /\ costLineItems (world st2) = costLineItems w
        /\ calls (world st2) = calls w
        /\ run = pipeline env id (title_of form) (concept_of form) (config_of form)
                   (file_bytes file)
                   (if String.eqb (file_type file) "" then "image/png" else file_type file)
                   ("data:" +:+
                    (if String.eqb (file_type file) "" then "image/png" else file_type file)
                    +:+ ";base64," +:+ base64 (file_bytes file))
                   st2)
  end.
  { eexists _, _. split; [reflexivity |].
    rewrite (bind_run _ _ st0).
    destruct (textProvider (config_of form)), (imageProvider (config_of form));
      try (exfalso; exact (Hip eq_refl));
      cbn [getApiVendor vendor_key] in *; rewrite ?Hk1, ?Hk2; cbn [negb];
      cbn [mret M_ret ret];
      rewrite (bind_run _ _ st0); rewrite ?Hk1, ?Hk2; cbn [negb mret M_ret ret];
      (split; [| split; [| split; [| split; [| reflexivity]]]]); reflexivity. }
  destruct Hrun as (id & st2 & Hid & I2 & L2 & T2 & C2 & ->).
  destruct (pipeline_run env id (title_of form) (concept_of form) (config_of form)
              (file_bytes file)
              (if String.eqb (file_type file) "" then "image/png" else file_type file)
              ("data:" +:+
               (if String.eqb (file_type file) "" then "image/png" else file_type file)
               +:+ ";base64," +:+ base64 (file_bytes file))
              st2)
    as (exit & st' & new_calls & -> & I' & C' & V' & K').
  destruct exit as [resp | resp | msg]; [| destruct K' |].
  - destruct K' as (conceptUsed & b64 & vision & direction & vItem & cItem & iItem
                    & c1 & c2 & c3 & -> & Hb & Hc & T' & Hs & Hr & C'' & P1 & P2 & P3 & L').
    cbn [fst snd]. subst id.
    rewrite C'' in C'. apply app_inv_head in C'. subst new_calls.
    eapply Completed with (vision := vision) (direction := direction); eauto.
    + rewrite L', L2. apply alter_insert_eq.
    + rewrite T', T2. reflexivity.
    + rewrite C'', C2. reflexivity.
  - destruct K' as (L' & items & T').
    rewrite I', I2. cbn [fst snd]. subst id.
    eapply Failed with (items := items) (new_calls := new_calls); eauto.
    + cbn. rewrite L', L2. apply alter_insert_eq.
    + cbn. rewrite T', T2. reflexivity.
    + cbn. rewrite C', C2. reflexivity.
Qed.

Lemma missing_key_None (env : Env) (cfg : EngineConfig) :
  missing_key env cfg = None ->
  key_set (vendor_key env (getApiVendor (textProvider cfg))) = true
  /\ key_set (vendor_key env (getApiVendor (imageProvider cfg))) = true.
Proof.
  unfold missing_key. intros H.
  destruct (key_set (vendor_key env (getApiVendor (textProvider cfg))));
    [| discriminate H].
  destruct (key_set (vendor_key env (getApiVendor (imageProvider cfg))));
    [auto | discriminate H].
Qed.

(** A request that passes the checks of steps 1 to 5 stores its row and runs
    the pipeline. *)
Lemma handler_valid_request (env : Env) (req : Request)
  (form : list (string * FormValue)) (file : File) (w : World) :
  formData req = inr form ->
  title_of form <> "" ->
  table_get form "image" = Some (FormFile file) ->
  missing_key env (config_of form) = None ->
  handler env req {| world := w; requestLogId := None |}
  = pipeline env (fresh (dom (requestLogs w))) (title_of form) (concept_of form)
      (config_of form) (file_bytes file) (file_mime file) (file_dataUrl file)
      (logged w (initial_log (title_of form) (concept_of form) (config_of form))).
Proof.
  intros Hf Ht Hi Hk. unfold handler. rewrite Hf.
  cbn [or_throw]. rewrite bind_run. cbn [mret M_ret ret]. cbv zeta.
  fold (title_of form). fold (concept_of form). fold (config_of form).
  destruct (String.eqb_spec (title_of form) "") as [E | _]; [contradiction |].
  rewrite Hi.
  pose proof (loadEngineConfig_image (form_string form "engineConfig" "{}")) as Hip.
  fold (config_of form) in Hip.
  destruct (missing_key_None env _ Hk) as (Hk1 & Hk2).
  fold (file_mime file). fold (file_dataUrl file).
  set (st0 := {| world := w; requestLogId := None |}).
  rewrite (bind_run _ _ st0).
  destruct (textProvider (config_of form)), (imageProvider (config_of form));
    try (exfalso; exact (Hip eq_refl));
    cbn [getApiVendor vendor_key] in *; rewrite ?Hk1, ?Hk2; cbn [negb];
    cbn [mret M_ret ret];
    rewrite (bind_run _ _ st0); rewrite ?Hk1, ?Hk2; cbn [negb mret M_ret ret];
    reflexivity.
Qed.

(** ** The endpoint *)

Lemma fresh_row (w : World) : requestLogs w !! fresh (dom (requestLogs w)) = None.
Proof. apply not_elem_of_dom_1, is_fresh. Qed.

(** C8. A request whose title is empty or whose image is not a file is
    answered with status 400 and an error message, and the world is left as
    it was: no log row, no line item, no vendor call. *)
Theorem POST_missing_input (env : Env) (form : list (string * FormValue))
  (w : World) :
  title_of form = ""
  \/ (forall file, table_get form "image" <> Some (FormFile file)) ->
  POST env {| formData := inr form |} w
  = (bad "상품명(title)은 필수입니다." 400, w)
  \/ POST env {| formData := inr form |} w
     = (bad "이미지(image)는 필수입니다." 400, w).
Proof.
  intros H.
  pose proof (POST_outcome env {| formData := inr form |} w) as O.
  destruct (POST env {| formData := inr form |} w) as [resp w'].
  cbn [fst snd] in O.
  inversion O as [msg Hf | form' Hf Ht | form' Hf Ht Hi | form' file v Hf Ht Hi Hk
                 | form' file msg items new w'' Hf Ht Hi
                 | form' file cu b64 vi di a b c c1 c2 c3 w'' Hf Ht Hi];
    cbn in Hf; try discriminate Hf; injection Hf as <-; subst; auto.
  all: destruct H as [H | H]; [contradiction | exfalso; exact (H file Hi)].
Qed.

Lemma POST_missing_input_witness :
  POST env_openai {| formData := inr [("title", FormString "   ")] |} empty_world
  = (bad "상품명(title)은 필수입니다." 400, empty_world)
  \/ POST env_openai {| formData := inr [("title", FormString "   ")] |} empty_world
     = (bad "이미지(image)는 필수입니다." 400, empty_world).
Proof.
  apply (POST_missing_input env_openai [("title", FormString "   ")] empty_world).
  left. vm_compute. reflexivity.
Defined.

(** C6. When the answer has status 200, the row of the request is marked a
    success, its total cost is the sum of the costs of the three line items
    the request stored (VISION, CONCEPT, IMAGE_EDIT, in this order), its
    concept is the one the answer carries, derived from the direction sent to
    the image vendor, and the image of the answer is a truthy value (not the
    empty string). *)
Theorem POST_success (env : Env) (req : Request) (w : World) :
  status (fst (POST env req w)) = 200 ->
  exists id row conceptUsed b64 vItem cItem iItem,
    requestLogs w !! id = None
    /\ requestLogs (snd (POST env req w)) = <[id := row]> (requestLogs w)
    /\ log_success row = true
    /\ log_totalCostUsd row = sum_costs [vItem; cItem; iItem]
    /\ log_conceptUsed row = Some conceptUsed
    /\ costLineItems (snd (POST env req w))
       = costLineItems w ++ [vItem; cItem; iItem]
    /\ map item_stage [vItem; cItem; iItem] = [VISION; CONCEPT; IMAGE_EDIT]
    /\ map item_requestId [vItem; cItem; iItem] = [id; id; id]
    /\ fst (POST env req w) = {| status := 200; body := ResultBody conceptUsed b64 |}
    /\ js_truthy b64 = true /\ b64 <> JStr ""
    /\ exists form vision direction c1 c2 c3,
         formData req = inr form
         /\ calls (snd (POST env req w)) = calls w ++ [c1; c2; c3]
         /\ net_prompt c3 = FinalImagePrompt (title_of form) vision direction
         /\ deriveConceptUsed direction (concept_of form) = Some conceptUsed.
Proof.
  intros Hs.
  pose proof (POST_outcome env req w) as O.
  destruct (POST env req w) as [resp w']. cbn [fst snd] in *.
  inversion O as [msg Hf | form' Hf Ht | form' Hf Ht Hi | form' file v Hf Ht Hi Hk
                 | form' file msg items new w'' Hf Ht Hi
                 | form file cu b64 vi di a b c c1 c2 c3 w'' Hf Ht Hi Hk
                     Hb Hc HL HT HS HR HC HV HP2 HP3];
    subst; cbn in Hs; try discriminate Hs.
  eexists _, _, _, b64, a, b, c.
  split; [apply fresh_row |]. split; [exact HL |].
  split; [reflexivity |]. split; [reflexivity |]. split; [reflexivity |].
  split; [exact HT |]. split; [exact HS |]. split; [exact HR |].
  split; [reflexivity |]. split; [exact Hb |].
  split; [intros ->; discriminate Hb |].
  exists form, vi, di, c1, c2, c3. auto.
Qed.

(** C10. When a request fails after its row was created, the row is the
    initial row with [success = false], the error message and the latency
    written: its total cost is the initial [0] and its concept the initial
    [null], whatever line items the request stored. *)
Theorem POST_failure_after_log (env : Env) (req : Request) (w : World) :
  requestLogs (snd (POST env req w)) <> requestLogs w ->
  status (fst (POST env req w)) <> 200 ->
  exists id row msg items form,
    requestLogs w !! id = None
    /\ requestLogs (snd (POST env req w)) = <[id := row]> (requestLogs w)
    /\ fst (POST env req w) = bad msg 500
    /\ formData req = inr form
    /\ row = fail msg (finishedAt env - startedAt env)
               (initial_log (title_of form) (concept_of form) (config_of form))
    /\ log_success row = false
    /\ log_errorMessage row = Some msg
    /\ log_latencyMs row = finishedAt env - startedAt env
    /\ log_totalCostUsd row = num_of_Z 0
    /\ log_conceptUsed row = None
    /\ costLineItems (snd (POST env req w)) = costLineItems w ++ items.
Proof.
  intros Hl Hs.
  pose proof (POST_outcome env req w) as O.
  destruct (POST env req w) as [resp w']. cbn [fst snd] in *.
  inversion O as [msg Hf | form' Hf Ht | form' Hf Ht Hi | form' file v Hf Ht Hi Hk
                 | form file msg items new w'' Hf Ht Hi Hk HL HT HC HV
                 | form file cu b64 vi di a b c c1 c2 c3 w'' Hf Ht Hi Hk
                     Hb Hc HL HT HS HR HC HV HP2 HP3];
    subst; try (exfalso; apply Hl; reflexivity);
    try (exfalso; apply Hs; reflexivity).
  eexists _, _, msg, items, form.
  split; [apply fresh_row |]. split; [exact HL |].
  split; [reflexivity |]. split; [exact Hf |].
  repeat (split; [reflexivity |]). exact HT.
Qed.

(** For the text provider [anthropic], OpenAI is chosen when its key is set,
    else Gemini when its key is set, else the function throws. *)
Lemma chooseVisionEngine_anthropic (cfg : EngineConfig)
  (openaiKey geminiKey : option string) :
  textProvider cfg = Anthropic ->
  chooseVisionEngine cfg openaiKey geminiKey
  = if key_set openaiKey then inr openai_engine
    else if key_set geminiKey then inr gemini_engine
    else inl no_fallback_message.
Proof.
  intros H. unfold chooseVisionEngine. rewrite H.
  destruct (key_set openaiKey); [reflexivity |].
  destruct (key_set geminiKey); reflexivity.
Qed.

(** With the text provider [anthropic] and neither fallback key, a key check
    of step 5 fails. *)
Lemma missing_key_without_fallback (env : Env) (cfg : EngineConfig) :
  textProvider cfg = Anthropic -> imageProvider cfg <> Anthropic ->
  key_set (OPENAI_API_KEY env) = false -> key_set (GEMINI_API_KEY env) = false ->
  exists vendor, missing_key env cfg = Some vendor.
Proof.
  intros Ht Hi Ho Hg. unfold missing_key. rewrite Ht.
  cbn [getApiVendor vendor_key].
  destruct (key_set (ANTHROPIC_API_KEY env)); cbn [negb]; [| eauto].
  destruct (imageProvider cfg); [| | contradiction];
    cbn [getApiVendor vendor_key]; rewrite ?Ho, ?Hg; cbn [negb]; eauto.
Qed.

Lemma no_new_call (l : list NetCall) (c : NetCall) (rest : list NetCall) :
  l = l ++ c :: rest -> False.
Proof.
  intros H. rewrite <- (app_nil_r l) in H at 1.
  apply app_inv_head in H. discriminate H.
Qed.

(** The calls of a request that passes the checks of steps 1 to 5 are the
    calls of its pipeline. *)
Lemma POST_calls_valid (env : Env) (req : Request)
  (form : list (string * FormValue)) (file : File) (w : World) :
  formData req = inr form ->
  title_of form <> "" ->
  table_get form "image" = Some (FormFile file) ->
  missing_key env (config_of form) = None ->
  calls (snd (POST env req w))
  = calls (world (snd (pipeline env (fresh (dom (requestLogs w))) (title_of form)
                         (concept_of form) (config_of form) (file_bytes file)
                         (file_mime file) (file_dataUrl file)
                         (logged w (initial_log (title_of form) (concept_of form)
                                      (config_of form)))))).
Proof.
  intros Hf Ht Hi Hk. unfold POST.
  rewrite (handler_valid_request env req form file w Hf Ht Hi Hk).
  destruct (pipeline _ _ _ _ _ _ _ _ _) as [[resp | resp | msg] st]; cbn [fst snd];
    try reflexivity.
  destruct (requestLogId st); reflexivity.
Qed.

(** C7. When the text provider of a request is [anthropic]: the vision
    engine is OpenAI if its key is set, else Gemini if its key is set, else
    the choice throws; the first vendor call of the request, if it makes one,
    is the vision call to that engine; when neither key is set the request is
    refused with the world left as it was (no vendor call), by a missing-key
    error of status 500 whenever its title and image are there; and a
    request that passes the checks of steps 1 to 5 does make the vision call
    to the fallback engine: with the OpenAI key set its first call goes to
    OpenAI's gpt-4.1-mini with the vision prompt and the data URL of the
    upload, and otherwise the Gemini key is set and, when the data URL can be
    read back, its first call goes to Gemini's gemini-2.5-flash with the
    vision prompt and the type and payload of the upload. *)
Theorem vision_fallback (env : Env) (form : list (string * FormValue))
  (w : World) :
  textProvider (config_of form) = Anthropic ->
  chooseVisionEngine (config_of form) (OPENAI_API_KEY env) (GEMINI_API_KEY env)
  = (if key_set (OPENAI_API_KEY env) then inr openai_engine
     else if key_set (GEMINI_API_KEY env) then inr gemini_engine
     else inl no_fallback_message)
  /\ (forall c rest,
        calls (snd (POST env {| formData := inr form |} w)) = calls w ++ c :: rest ->
        net_prompt c = VisionPrompt (title_of form)
        /\ (net_endpoint c, net_model c)
           = if key_set (OPENAI_API_KEY env) then (Responses, "gpt-4.1-mini")
             else (GenerateContent, "gemini-2.5-flash"))
  /\ (key_set (OPENAI_API_KEY env) = false ->
      key_set (GEMINI_API_KEY env) = false ->
      snd (POST env {| formData := inr form |} w) = w
      /\ status (fst (POST env {| formData := inr form |} w)) <> 200
      /\ (title_of form <> "" ->
          (exists file, table_get form "image" = Some (FormFile file)) ->
          exists vendor,
            fst (POST env {| formData := inr form |} w) = bad (key_message vendor) 500))
  /\ (forall file,
        title_of form <> "" ->
        table_get form "image" = Some (FormFile file) ->
        missing_key env (config_of form) = None ->
        (key_set (OPENAI_API_KEY env) = true ->
         exists rest,
           calls (snd (POST env {| formData := inr form |} w))
           = calls w
             ++ {| net_endpoint := Responses; net_model := "gpt-4.1-mini";
                   net_prompt := VisionPrompt (title_of form);
                   net_image := ImageUrl (file_dataUrl file) |} :: rest)
        /\ (key_set (OPENAI_API_KEY env) = false ->
            key_set (GEMINI_API_KEY env) = true
            /\ forall mime b64,
                 parseDataUrl (file_dataUrl file) = Some (mime, b64) ->
                 exists rest,
                   calls (snd (POST env {| formData := inr form |} w))
                   = calls w
                     ++ {| net_endpoint := GenerateContent;
                           net_model := "gemini-2.5-flash";
                           net_prompt := VisionPrompt (title_of form);
                           net_image := InlineData mime b64 |} :: rest)).
Proof.
  intros Htext.
  pose proof (chooseVisionEngine_anthropic (config_of form)
                (OPENAI_API_KEY env) (GEMINI_API_KEY env) Htext) as Hchoice.
  pose proof (loadEngineConfig_image (form_string form "engineConfig" "{}")) as Hip.
  fold (config_of form) in Hip.
  split; [exact Hchoice |].
  assert (Hmade : forall file,
    title_of form <> "" ->
    table_get form "image" = Some (FormFile file) ->
    missing_key env (config_of form) = None ->
    (key_set (OPENAI_API_KEY env) = true ->
     exists rest,
       calls (snd (POST env {| formData := inr form |} w))
       = calls w
         ++ {| net_endpoint := Responses; net_model := "gpt-4.1-mini";
               net_prompt := VisionPrompt (title_of form);
               net_image := ImageUrl (file_dataUrl file) |} :: rest)
    /\ (key_set (OPENAI_API_KEY env) = false ->
        key_set (GEMINI_API_KEY env) = true
        /\ forall mime b64,
             parseDataUrl (file_dataUrl file) = Some (mime, b64) ->
             exists rest,
               calls (snd (POST env {| formData := inr form |} w))
               = calls w
                 ++ {| net_endpoint := GenerateContent;
                       net_model := "gemini-2.5-flash";
                       net_prompt := VisionPrompt (title_of form);
                       net_image := InlineData mime b64 |} :: rest)).
  { intros file Ht Hi Hk.
    rewrite (POST_calls_valid env {| formData := inr form |} form file w
               eq_refl Ht Hi Hk).
    split.
    - intros Ho. rewrite Ho in Hchoice.
      exact (pipeline_vision_call env (fresh (dom (requestLogs w))) (title_of form)
               (concept_of form) (config_of form) (file_bytes file) (file_mime file)
               (file_dataUrl file) openai_engine (ImageUrl (file_dataUrl file))
               Hchoice (or_introl eq_refl) eq_refl _).
    - intros Ho.
      assert (Hg : key_set (GEMINI_API_KEY env) = true).
      { destruct (key_set (GEMINI_API_KEY env)) eqn:Hg; [reflexivity |].
        destruct (missing_key_without_fallback env (config_of form) Htext Hip Ho Hg)
          as (vendor & Hmiss).
        rewrite Hmiss in Hk. discriminate Hk. }
      split; [exact Hg |]. intros mime b64 Hp.
      rewrite Ho, Hg in Hchoice.
      refine (pipeline_vision_call env (fresh (dom (requestLogs w))) (title_of form)
                (concept_of form) (config_of form) (file_bytes file) (file_mime file)
                (file_dataUrl file) gemini_engine (InlineData mime b64)
                Hchoice (or_intror Hg) _ _).
      unfold text_attachment.
      change (truthy_string (Some (file_dataUrl file))) with (Some (file_dataUrl file)).
      cbv beta iota. cbn [gemini_engine ve_vendor]. rewrite Hp. reflexivity. }
  pose proof (POST_outcome env {| formData := inr form |} w) as O.
  destruct (POST env {| formData := inr form |} w) as [resp w'].
  cbn [fst snd] in *.
  split; [| split; [| exact Hmade]].
  - intros c rest Hc.
    assert (Hfirst : forall new,
      calls w' = calls w ++ new ->
      vision_first env (title_of form) (config_of form) new ->
      net_prompt c = VisionPrompt (title_of form)
      /\ (net_endpoint c, net_model c)
         = if key_set (OPENAI_API_KEY env) then (Responses, "gpt-4.1-mini")
           else (GenerateContent, "gemini-2.5-flash")).
    { intros new HC HV. rewrite HC in Hc. apply app_inv_head in Hc. subst new.
      destruct HV as (engine & He & E1 & E2 & E3).
      rewrite Hchoice in He. split; [exact E3 |]. rewrite E1, E2.
      destruct (key_set (OPENAI_API_KEY env)); [injection He as <-; reflexivity |].
      destruct (key_set (GEMINI_API_KEY env)); [injection He as <-; reflexivity |].
      discriminate He. }
    inversion O as [msg Hf | form' Hf Ht | form' Hf Ht Hi | form' file v Hf Ht Hi Hk
                   | form' file msg items new w'' Hf Ht Hi Hk HL HT HC HV
                   | form' file cu b64 vi di a b c0 c1 c2 c3 w'' Hf Ht Hi Hk
                       Hb Hcu HL HT HS HR HC HV HP2 HP3];
      cbn in Hf; try discriminate Hf; try injection Hf as <-; subst;
      try (exfalso; exact (no_new_call _ _ _ Hc)).
    + exact (Hfirst new HC HV).
    + exact (Hfirst [c1; c2; c3] HC HV).
  - intros Ho Hg.
    destruct (missing_key_without_fallback env (config_of form) Htext Hip Ho Hg)
      as (vendor & Hmiss).
    inversion O as [msg Hf | form' Hf Ht | form' Hf Ht Hi | form' file v Hf Ht Hi Hk
                   | form' file msg items new w'' Hf Ht Hi Hk HL HT HC HV
                   | form' file cu b64 vi di a b c0 c1 c2 c3 w'' Hf Ht Hi Hk
                       Hb Hcu HL HT HS HR HC HV HP2 HP3];
      cbn in Hf; try discriminate Hf; try injection Hf as <-; subst;
      try (rewrite Hmiss in Hk; discriminate Hk).
    + split; [reflexivity |]. split; [discriminate |].
      intros Ht' _. contradiction.
    + split; [reflexivity |]. split; [discriminate |].
      intros _ (file & Hfile). exfalso. exact (Hi file Hfile).
    + split; [reflexivity |]. split; [discriminate |]. eauto.
Qed.

(** C7 at three requests with the text provider [anthropic]: without a
    fallback key the request is refused and nothing is called; with the
    OpenAI key the vision call goes to OpenAI; with the Gemini key only, to
    Gemini. *)
Lemma vision_fallback_witness :
  textProvider (config_of (sneaker_form claude_text)) = Anthropic
  /\ snd (POST env_claude_only (sneaker claude_text) empty_world) = empty_world
  /\ (exists vendor,
        fst (POST env_claude_only (sneaker claude_text) empty_world)
        = bad (key_message vendor) 500)
  /\ (exists rest,
        calls (snd (POST env_claude_and_openai (sneaker claude_text) empty_world))
        = calls empty_world
          ++ {| net_endpoint := Responses; net_model := "gpt-4.1-mini";
                net_prompt := VisionPrompt "Blue Sneaker";
                net_image := ImageUrl "data:image/png;base64,YWJj" |} :: rest)
  /\ textProvider (config_of (sneaker_form claude_text_gemini_image)) = Anthropic
  /\ (exists rest,
        calls (snd (POST env_claude_and_gemini (sneaker claude_text_gemini_image)
                      empty_world))
        = calls empty_world
          ++ {| net_endpoint := GenerateContent; net_model := "gemini-2.5-flash";
                net_prompt := VisionPrompt "Blue Sneaker";
                net_image := InlineData "image/png" "YWJj" |} :: rest).
Proof.
  assert (H : textProvider (config_of (sneaker_form claude_text)) = Anthropic)
    by (vm_compute; reflexivity).
  assert (H' : textProvider (config_of (sneaker_form claude_text_gemini_image))
               = Anthropic)
    by (vm_compute; reflexivity).
  split; [exact H |].
  destruct (vision_fallback env_claude_only (sneaker_form claude_text) empty_world H)
    as (_ & _ & K & _).
  destruct K as (K1 & _ & K3); [reflexivity | reflexivity |].
  split; [exact K1 |].
  split; [apply K3; [vm_compute; discriminate | exists photo; reflexivity] |].
  destruct (vision_fallback env_claude_and_openai (sneaker_form claude_text)
              empty_world H) as (_ & _ & _ & K).
  destruct (K photo) as (Kopenai & _);
    [vm_compute; discriminate | reflexivity | vm_compute; reflexivity |].
  split; [exact (Kopenai eq_refl) |].
  split; [exact H' |].
  destruct (vision_fallback env_claude_and_gemini
              (sneaker_form claude_text_gemini_image) empty_world H')
    as (_ & _ & _ & K').
  destruct (K' photo) as (_ & Kgemini);
    [vm_compute; discriminate | reflexivity | vm_compute; reflexivity |].
  destruct (Kgemini eq_refl) as (_ & Kcall).
  apply (Kcall "image/png" "YWJj"). vm_compute. reflexivity.
Defined.

(** The calls of the two requests that are served, in full: the vision call
    goes to the fallback engine, the concept call to Claude. *)
Example vision_fallback_calls :
  map (fun c => (net_endpoint c, net_model c))
    (calls (snd (POST env_claude_and_openai (sneaker claude_text) empty_world)))
  = [(Responses, "gpt-4.1-mini"); (Messages, "claude-3-5-sonnet-latest");
     (ImagesEdits, "gpt-image-1-mini")]
  /\ map (fun c => (net_endpoint c, net_model c))
       (calls (snd (POST env_claude_and_gemini (sneaker claude_text_gemini_image)
                      empty_world)))
     = [(GenerateContent, "gemini-2.5-flash"); (Messages, "claude-3-5-sonnet-latest");
        (GenerateContent, "gemini-2.5-flash-image")]
  /\ status (fst (POST env_claude_and_openai (sneaker claude_text) empty_world)) = 200
  /\ status (fst (POST env_claude_and_gemini (sneaker claude_text_gemini_image)
                    empty_world)) = 200.
Proof. vm_compute. repeat split; reflexivity. Qed.

(** The image pair of a configuration that names [anthropic] as image
    provider is the default pair. *)
Lemma anthropic_image_is_reset (cfgRaw : string) (v : jsval) :
  JSON_parse cfgRaw = Some v ->
  own_property v "imageProvider" = Some (JStr "anthropic") ->
  imageProvider (loadEngineConfig cfgRaw) = Openai
  /\ imageModel (loadEngineConfig cfgRaw) = "gpt-image-1-mini".
Proof.
  intros Hparse Hown.
  assert (Hraw : raw_imageProvider (normalizeEngineConfig v) = JStr "openai"
                 /\ raw_imageModel (normalizeEngineConfig v) = JStr "gpt-image-1-mini").
  { unfold normalizeEngineConfig. cbv zeta.
    assert (Hm : raw_imageProvider (merged_of v) = JStr "anthropic").
    { unfold merged_of. cbn [raw_imageProvider].
      destruct v; try discriminate Hown. cbn [js_or js_truthy].
      rewrite Hown. reflexivity. }
    generalize dependent (merged_of v). intros m0 Hm.
    destruct (isValidTextModel (raw_textProvider m0) (raw_textModel m0));
      simp_cfg; rewrite Hm; cbn; auto. }
  unfold loadEngineConfig. rewrite Hparse.
  destruct (normalized_is_config v) as (cfg & Hcfg). rewrite Hcfg.
  change (default defaultConfig (Some cfg)) with cfg.
  apply as_EngineConfig_fields in Hcfg as (_ & _ & Hp & Hm).
  destruct Hraw as (Hrp & Hrm). rewrite Hrp in Hp. rewrite Hrm in Hm.
  split; [| injection Hm as Hm; symmetry; exact Hm].
  destruct (imageProvider cfg); cbn in Hp;
    [reflexivity | discriminate Hp | discriminate Hp].
Qed.

(** C2, as amended. When the engineConfig of a request names [anthropic] as
    image provider, the request is handled with the default image engine
    (openai, gpt-image-1-mini); it is never answered with the 400 error for
    an Anthropic image engine, and it is answered with status 400 only when
    its title or its image is missing. *)
Theorem anthropic_image_engine_replaced (env : Env)
  (form : list (string * FormValue)) (w : World) (v : jsval) :
  JSON_parse (form_string form "engineConfig" "{}") = Some v ->
  own_property v "imageProvider" = Some (JStr "anthropic") ->
  imageProvider (config_of form) = Openai
  /\ imageModel (config_of form) = "gpt-image-1-mini"
  /\ fst (POST env {| formData := inr form |} w) <> bad anthropic_image_message 400
  /\ (status (fst (POST env {| formData := inr form |} w)) = 400 ->
      title_of form = ""
      \/ forall file, table_get form "image" <> Some (FormFile file)).
Proof.
  intros Hparse Hown.
  destruct (anthropic_image_is_reset _ v Hparse Hown) as (Hp & Hm).
  split; [exact Hp |]. split; [exact Hm |].
  pose proof (POST_outcome env {| formData := inr form |} w) as O.
  destruct (POST env {| formData := inr form |} w) as [resp w'].
  cbn [fst snd] in *.
  inversion O as [msg Hf | form' Hf Ht | form' Hf Ht Hi | form' file vd Hf Ht Hi Hk
                 | form' file msg items new w'' Hf Ht Hi Hk HL HT HC HV
                 | form' file cu b64 vi di a b c0 c1 c2 c3 w'' Hf Ht Hi Hk
                     Hb Hcu HL HT HS HR HC HV HP2 HP3];
    cbn in Hf; try discriminate Hf; try injection Hf as <-; subst;
    (split; [discriminate | intros Hs; cbn in Hs; try discriminate Hs; auto]).
Qed.

Lemma anthropic_image_engine_replaced_witness :
  imageProvider (config_of (sneaker_form anthropic_image)) = Openai
  /\ imageModel (config_of (sneaker_form anthropic_image)) = "gpt-image-1-mini"
  /\ fst (POST env_openai (sneaker anthropic_image) empty_world)
     <> bad anthropic_image_message 400
  /\ (status (fst (POST env_openai (sneaker anthropic_image) empty_world)) = 400 ->
      title_of (sneaker_form anthropic_image) = ""
      \/ forall file,
           table_get (sneaker_form anthropic_image) "image" <> Some (FormFile file)).
Proof.
  apply (anthropic_image_engine_replaced env_openai (sneaker_form anthropic_image)
           empty_world (JObj [("imageProvider", JStr "anthropic")]));
    vm_compute; reflexivity.
Defined.

(** C2, the claim as stated fails: the engineConfig names [anthropic] as
    image provider, and the request is answered with status 200 after three
    vendor calls. *)
Lemma anthropic_image_request_is_served :
  JSON_parse anthropic_image = Some (JObj [("imageProvider", JStr "anthropic")])
  /\ status (fst (POST env_openai (sneaker anthropic_image) empty_world)) = 200
  /\ map net_endpoint (calls (snd (POST env_openai (sneaker anthropic_image) empty_world)))
     = [Responses; Responses; ImagesEdits].
Proof. vm_compute. repeat split; reflexivity. Qed.

Lemma POST_success_witness :
  exists id row conceptUsed b64 vItem cItem iItem,
    requestLogs empty_world !! id = None
    /\ requestLogs (snd (POST env_openai (sneaker "{}") empty_world))
       = <[id := row]> (requestLogs empty_world)
    /\ log_success row = true
    /\ log_totalCostUsd row = sum_costs [vItem; cItem; iItem]
    /\ log_conceptUsed row = Some conceptUsed
    /\ costLineItems (snd (POST env_openai (sneaker "{}") empty_world))
       = costLineItems empty_world ++ [vItem; cItem; iItem]
    /\ map item_stage [vItem; cItem; iItem] = [VISION; CONCEPT; IMAGE_EDIT]
    /\ map item_requestId [vItem; cItem; iItem] = [id; id; id]
    /\ fst (POST env_openai (sneaker "{}") empty_world)
       = {| status := 200; body := ResultBody conceptUsed b64 |}
    /\ js_truthy b64 = true /\ b64 <> JStr ""
    /\ exists form vision direction c1 c2 c3,
         formData (sneaker "{}") = inr form
         /\ calls (snd (POST env_openai (sneaker "{}") empty_world))
            = calls empty_world ++ [c1; c2; c3]
         /\ net_prompt c3 = FinalImagePrompt (title_of form) vision direction
         /\ deriveConceptUsed direction (concept_of form) = Some conceptUsed.
Proof.
  apply (POST_success env_openai (sneaker "{}") empty_world).
  vm_compute. reflexivity.
Defined.

Lemma POST_failure_after_log_witness :
  (exists id row msg items form,
     requestLogs empty_world !! id = None
     /\ requestLogs (snd (POST env_second_call_fails (sneaker "{}") empty_world))
        = <[id := row]> (requestLogs empty_world)
     /\ fst (POST env_second_call_fails (sneaker "{}") empty_world) = bad msg 500
     /\ formData (sneaker "{}") = inr form
     /\ row = fail msg (finishedAt env_second_call_fails - startedAt env_second_call_fails)
                (initial_log (title_of form) (concept_of form) (config_of form))
     /\ log_success row = false
     /\ log_errorMessage row = Some msg
     /\ log_latencyMs row
        = finishedAt env_second_call_fails - startedAt env_second_call_fails
     /\ log_totalCostUsd row = num_of_Z 0
     /\ log_conceptUsed row = None
     /\ costLineItems (snd (POST env_second_call_fails (sneaker "{}") empty_world))
        = costLineItems empty_world ++ items)
  /\ map item_costUsd
       (costLineItems (snd (POST env_second_call_fails (sneaker "{}") empty_world)))
     = [dec 21 (-4)].
Proof.
  split.
  - apply (POST_failure_after_log env_second_call_fails (sneaker "{}") empty_world).
    + vm_compute. intros H. discriminate H.
    + vm_compute. intros H. discriminate H.
  - vm_compute. reflexivity.
Defined.

(* ===================================================================== *)
(** * Further properties *)
(* ===================================================================== *)
(** ** The registry and the price tables *)

Lemma provider_id_inj (p q : Provider) : provider_id p = provider_id q -> p = q.
Proof. destruct p, q; first [reflexivity | discriminate]. Qed.

Lemma Provider_eqb_eq (p q : Provider) : Provider_eqb p q = true <-> p = q.
Proof. destruct p, q; simpl; split; first [reflexivity | discriminate]. Qed.

Lemma Kind_eqb_eq (p q : Kind) : Kind_eqb p q = true <-> p = q.
Proof. destruct p, q; simpl; split; first [reflexivity | discriminate]. Qed.

Lemma catalog_kind (kind : Kind) (o : ModelOption) :
  In o (catalog kind) -> opt_kind o = kind.
Proof.
  destruct kind; simpl; intros H;
    repeat (destruct H as [<- | H]; [reflexivity |]); destruct H.
Qed.

Lemma getModelOption_Some (provider : Provider) (kind : Kind) (id : string)
  (o : ModelOption) :
  getModelOption provider kind id = Some o ->
  In o (catalog kind) /\ opt_provider o = provider /\ opt_kind o = kind
  /\ opt_id o = id /\ opt_enabled o = true.
Proof.
  unfold getModelOption. intros H. apply find_some in H as (Hin & H).
  apply andb_prop in H as (H & Hi). apply andb_prop in H as (H & Hk).
  apply andb_prop in H as (He & Hp).
  apply Provider_eqb_eq in Hp. apply Kind_eqb_eq in Hk. apply String.eqb_eq in Hi.
  auto.
Qed.

(** A pair is listed in a catalog exactly when [getModelOption] finds it. *)
Lemma listed_found (provider : Provider) (kind : Kind) (id : string) :
  listed (catalog kind) (JStr (provider_id provider)) (JStr id)
  <-> exists o, getModelOption provider kind id = Some o.
Proof.
  split.
  - intros (o & Hin & He & Hp & Hi).
    injection Hp as Hp. apply provider_id_inj in Hp. injection Hi as Hi.
    unfold getModelOption.
    destruct (find _ (catalog kind)) as [o' |] eqn:F; [eauto |].
    apply (find_none _ _ F) in Hin as Hn.
    rewrite He, <- Hp, <- Hi, (catalog_kind kind o Hin) in Hn.
    rewrite String.eqb_refl in Hn.
    destruct provider, kind; discriminate Hn.
  - intros (o & H). apply getModelOption_Some in H as (Hin & <- & _ & <- & He).
    exists o. auto.
Qed.

(** X1. The validity checks and the lookup agree: a pair of a provider and a
    model id passes [isValidTextModel] (or [isValidImageModel]) exactly when
    [getModelOption] finds an entry for it in that catalog; the entry found
    is an enabled entry of the catalog with that provider, kind and id; and
    every entry of a catalog is found under its own provider and id (no id
    occurs twice for a provider, and none is disabled). *)
Theorem valid_model_is_found (provider : Provider) (id : string) :
  (isValidTextModel (JStr (provider_id provider)) (JStr id) = true
   <-> exists o, getModelOption provider KText id = Some o)
  /\ (isValidImageModel (JStr (provider_id provider)) (JStr id) = true
      <-> exists o, getModelOption provider KImage id = Some o)
  /\ (forall kind o,
        getModelOption provider kind id = Some o ->
        In o (catalog kind) /\ opt_provider o = provider /\ opt_kind o = kind
        /\ opt_id o = id /\ opt_enabled o = true)
  /\ (forall kind o,
        In o (catalog kind) -> opt_provider o = provider -> opt_id o = id ->
        getModelOption provider kind id = Some o).
Proof.
  split; [| split; [| split]].
  - rewrite isValidTextModel_listed. apply (listed_found provider KText id).
  - rewrite isValidImageModel_listed. apply (listed_found provider KImage id).
  - intros kind o. apply getModelOption_Some.
  - intros kind o Hin <- <-.
    destruct kind; simpl in Hin;
      repeat (destruct Hin as [<- | Hin]; [reflexivity |]); destruct Hin.
Qed.

(** The pairs of a valid configuration are pairs of the catalogs. *)
Lemma valid_config_cases (cfg : EngineConfig) :
  valid_config cfg ->
  In (textProvider cfg, textModel cfg)
    (map (fun o => (opt_provider o, opt_id o)) TEXT_MODELS)
  /\ In (imageProvider cfg, imageModel cfg)
       (map (fun o => (opt_provider o, opt_id o)) IMAGE_MODELS).
Proof.
  intros ((o & Hin & _ & Hp & Hm) & (o' & Hin' & _ & Hp' & Hm')).
  injection Hm as Hm. injection Hm' as Hm'.
  injection Hp as Hp. apply provider_id_inj in Hp.
  injection Hp' as Hp'. apply provider_id_inj in Hp'.
  rewrite Hp, Hp', Hm, Hm'.
  split; apply (in_map (fun o => (opt_provider o, opt_id o))); assumption.
Qed.

Lemma normalized_valid (input : jsval) (cfg : EngineConfig) :
  as_EngineConfig (normalizeEngineConfig input) = Some cfg -> valid_config cfg.
Proof.
  intros H. apply as_EngineConfig_fields in H as (Htp & Htm & Hip & Him).
  destruct (normalized_checks input) as (Ht & _ & Hv).
  rewrite Htp, Htm in Ht. rewrite Hip, Him in Hv.
  split; [apply isValidTextModel_listed, Ht | apply isValidImageModel_listed, Hv].
Qed.

(** The configuration of a request is valid. *)
Lemma loadEngineConfig_valid (cfgRaw : string) : valid_config (loadEngineConfig cfgRaw).
Proof.
  destruct (loadEngineConfig_normalized cfgRaw) as (input & H).
  exact (normalized_valid input _ H).
Qed.

(** One goal for each of the valid configurations. *)
Ltac each_config H :=
  apply valid_config_cases in H; destruct H as (?Ht & ?Hi);
  cbn in Ht, Hi;
  repeat match goal with
         | H : _ \/ _ |- _ => destruct H as [H | H]
         | H : False |- _ => destruct H
         | H : (_, _) = (_, _) |- _ => injection H as <- <-
         end.

(** X2. Whatever [engineConfig] a request carries, the engines it runs have
    prices of their own in the tables: the text engine has a rate under its
    vendor and wire model name, so that the cost of a call to it is the
    rounded sum of the two token counts at that rate; the image engine has a
    price, with a low tier for OpenAI and a fixed price for Gemini; and the
    engine chosen for the vision step has a rate. The inherited names, for
    which [calcTextCostUsd] gives NaN, and the unknown models, which cost 0,
    do not arise from a request. *)
Theorem request_engines_are_priced (cfgRaw : string)
  (openaiKey geminiKey : option string) :
  let cfg := loadEngineConfig cfgRaw in
  let textVendor := getApiVendor (textProvider cfg) in
  let textApiModel := resolveApiModel (textProvider cfg) KText (textModel cfg) in
  (exists rate,
     get_property (TEXT_RATES textVendor) textApiModel = Own rate
     /\ forall usage,
          calcTextCostUsd textVendor textApiModel usage
          = usd (num_add (num_mul (num_div (u_input usage) PER_M) (inputPerM rate))
                         (num_mul (num_div (u_output usage) PER_M) (outputPerM rate))))
  /\ (exists price,
        get_property (IMAGE_PER_IMAGE (getApiVendor (imageProvider cfg)))
          (resolveApiModel (imageProvider cfg) KImage (imageModel cfg)) = Own price
        /\ (imageProvider cfg = Openai -> low price <> None)
        /\ (imageProvider cfg = Gemini -> fixedPerImage price <> None))
  /\ (forall engine,
        chooseVisionEngine cfg openaiKey geminiKey = inr engine ->
        exists rate,
          get_property (TEXT_RATES (ve_vendor engine)) (ve_apiModel engine) = Own rate).
Proof.
  intros cfg. pose proof (loadEngineConfig_valid cfgRaw) as H. fold cfg in H.
  clearbody cfg. destruct cfg as [tp tm ip im]. cbv zeta.
  each_config H.
  all: split;
    [eexists; split; [reflexivity |];
     intros usage; unfold calcTextCostUsd; cbv zeta;
     match goal with
     | |- context [get_property ?t ?m] =>
         let p := eval vm_compute in (get_property t m) in
         change (get_property t m) with p
     end; reflexivity |].
  all: split;
    [eexists; split; [reflexivity |];
     split; intros E; first [discriminate E | cbn; discriminate] |].
  all: intros engine He; unfold chooseVisionEngine in He; cbn in He.
  all: repeat match type of He with
         | context [if ?b then _ else _] => destruct b
         end; try discriminate He; injection He as <-; eexists; reflexivity.
Qed.

(** X3. What is not used costs nothing: a text call that reports no input
    and no output tokens costs 0 at every rate of the table; one image of an
    OpenAI model that has no price of its own costs 0, whatever the quality
    and the usage (also under an inherited name, where the text price is
    NaN); and so does one image of a Gemini model that has no price of its
    own, when no usage is given. *)
Theorem no_usage_no_cost :
  (forall vendor apiModel rate total,
     table_get (TEXT_RATES vendor) apiModel = Some rate ->
     calcTextCostUsd vendor apiModel
       {| u_input := num_of_Z 0; u_output := num_of_Z 0; u_total := total |}
     = num_of_Z 0)
  /\ (forall apiModel quality usage,
        table_get (IMAGE_PER_IMAGE VOpenai) apiModel = None ->
        calcImageCostUsd
          {| p_vendor := VOpenai; p_apiModel := apiModel; p_imageCount := num_of_Z 1;
             p_quality := quality; p_usage := usage |}
        = num_of_Z 0)
  /\ (forall apiModel quality,
        table_get (IMAGE_PER_IMAGE VGoogle) apiModel = None ->
        calcImageCostUsd
          {| p_vendor := VGoogle; p_apiModel := apiModel; p_imageCount := num_of_Z 1;
             p_quality := quality; p_usage := None |}
        = num_of_Z 0).
Proof.
  split; [| split].
  - intros vendor apiModel rate total H.
    destruct vendor; cbn [TEXT_RATES table_get] in H;
      repeat match type of H with
             | context [String.eqb ?a apiModel] =>
                 destruct (String.eqb_spec a apiModel) as [<- | ?]
             end; try discriminate H; vm_compute; reflexivity.
  - intros apiModel quality usage H.
    unfold calcImageCostUsd, get_property. cbv zeta. cbn [p_vendor p_apiModel].
    rewrite H. destruct (existsb _ _); vm_compute; reflexivity.
  - intros apiModel quality H.
    unfold calcImageCostUsd. cbv zeta. cbn [p_vendor p_apiModel p_usage p_imageCount].
    unfold get_property at 2.
    rewrite H. destruct (existsb _ _); vm_compute; reflexivity.
Qed.

(** ** Reading a vendor's response *)

Lemma js_or_num (x : number) : js_or (JNum x) (JNum (num_of_Z 0)) = JNum (or_zero x).
Proof. unfold js_or, or_zero. simpl. destruct (num_truthy x); reflexivity. Qed.

Lemma js_get_falsy_object (v : jsval) (k : string) :
  js_truthy v = false -> js_get (js_or v (JObj [])) k = JUndefined.
Proof. intros H. unfold js_or. rewrite H. reflexivity. Qed.

(** X4. The usage of a response. When the response has no usage object (or
    is itself [null]), the three accessors return three zeros. When it has
    one with numeric counts, the input and the output count are passed on (a
    zero or NaN count as 0); Claude's total is always their sum, even when
    the response reports a total; OpenAI's and Gemini's total is the reported
    total when that is truthy, and the sum otherwise. In all these cases the
    accessors do not throw. *)
Theorem usage_of_response (json : jsval) :
  (js_truthy (js_get json "usage") = false ->
   getOpenAIUsage json = Some zero_usage /\ claudeUsage json = Some zero_usage)
  /\ (js_truthy (js_get json "usageMetadata") = false ->
      geminiUsage json = Some zero_usage)
  /\ (forall u i o,
        js_get json "usage" = JObj u ->
        js_get (JObj u) "input_tokens" = JNum i ->
        js_get (JObj u) "output_tokens" = JNum o ->
        claudeUsage json ≫= as_TokenUsage
        = Some {| u_input := or_zero i; u_output := or_zero o;
                  u_total := num_add (or_zero i) (or_zero o) |}
        /\ getOpenAIUsage json
           = Some {| usage_input := JNum (or_zero i);
                     usage_output := JNum (or_zero o);
                     usage_total :=
                       if js_truthy (js_get (JObj u) "total_tokens")
                       then js_get (JObj u) "total_tokens"
                       else JNum (num_add (or_zero i) (or_zero o)) |})
  /\ (forall u i o,
        js_get json "usageMetadata" = JObj u ->
        js_get (JObj u) "promptTokenCount" = JNum i ->
        js_get (JObj u) "candidatesTokenCount" = JNum o ->
        geminiUsage json
        = Some {| usage_input := JNum (or_zero i);
                  usage_output := JNum (or_zero o);
                  usage_total :=
                    if js_truthy (js_get (JObj u) "totalTokenCount")
                    then js_get (JObj u) "totalTokenCount"
                    else JNum (num_add (or_zero i) (or_zero o)) |}).
Proof.
  split; [| split; [| split]].
  - intros H. unfold getOpenAIUsage, claudeUsage. cbv zeta.
    rewrite !(js_get_falsy_object _ _ H). split; reflexivity.
  - intros H. unfold geminiUsage. cbv zeta.
    rewrite !(js_get_falsy_object _ _ H). reflexivity.
  - intros u i o Hu Hi Ho. unfold getOpenAIUsage, claudeUsage. cbv zeta.
    rewrite Hu. change (js_or (JObj u) (JObj [])) with (JObj u).
    rewrite Hi, Ho, !js_or_num. split; [reflexivity |].
    unfold total_or_sum.
    destruct (js_truthy (js_get (JObj u) "total_tokens")); reflexivity.
  - intros u i o Hu Hi Ho. unfold geminiUsage. cbv zeta.
    rewrite Hu. change (js_or (JObj u) (JObj [])) with (JObj u).
    rewrite Hi, Ho, !js_or_num. unfold total_or_sum.
    destruct (js_truthy (js_get (JObj u) "totalTokenCount")); reflexivity.
Qed.

(** A count that has no string form cannot be added up: the accessor
    throws, unless a total is reported. *)
Example usage_without_string_form :
  let count := JObj [("toString", JNum (num_of_Z 1))] in
  claudeUsage (JObj [("usage", JObj [("input_tokens", count)])]) = None
  /\ getOpenAIUsage (JObj [("usage", JObj [("input_tokens", count)])]) = None
  /\ getOpenAIUsage
       (JObj [("usage", JObj [("input_tokens", count);
                              ("total_tokens", JNum (num_of_Z 7))])])
     = Some {| usage_input := count; usage_output := JNum (num_of_Z 0);
               usage_total := JNum (num_of_Z 7) |}.
Proof. vm_compute. repeat split; reflexivity. Qed.

Lemma js_join_texts (sep : string) (ts : list string) :
  js_join sep (map JStr ts) = Some (String.concat sep ts).
Proof.
  induction ts as [| t ts IH]; [reflexivity |].
  cbn [map js_join js_nullish js_String]. rewrite IH.
  destruct ts; reflexivity.
Qed.

Lemma filter_texts (ts : list string) :
  List.filter js_truthy (map JStr ts)
  = map JStr (List.filter (fun t => negb (String.eqb t "")) ts).
Proof.
  induction ts as [| t ts IH]; [reflexivity |].
  cbn [map List.filter js_truthy].
  destruct (negb (String.eqb t "")); cbn [map]; rewrite IH; reflexivity.
Qed.

Lemma output_texts_message (ts : list string) (type : jsval) :
  output_texts (JObj [("type", type); ("content", JArr (map text_block ts))])
  = Some (map JStr (List.filter (fun t => negb (String.eqb t "")) ts)).
Proof.
  unfold output_texts.
  change (js_member (JObj [("type", type); ("content", JArr (map text_block ts))]) "content")
    with (Some (JArr (map text_block ts))).
  cbn [mbind option_bind js_or js_truthy as_array].
  assert (E : mapM (fun c => js_member c "text") (map text_block ts) = Some (map JStr ts)).
  { induction ts as [| t ts IH]; [reflexivity |].
    cbn [map mapM]. rewrite IH. reflexivity. }
  rewrite E. cbn [mbind option_bind]. rewrite filter_texts. reflexivity.
Qed.

(** X5. The text of a response. From a response of the documented shape each
    accessor returns the non-empty texts in order, joined by line feeds: for
    OpenAI the texts of the content blocks of all output items, for Gemini
    the texts of the parts of the first candidate, for Claude the texts of
    the content blocks of type [text] only. On a [null] or [undefined] body
    the OpenAI accessor throws, the other two return the empty text. *)
Theorem text_of_response :
  (forall outputs, getOpenAITextOut (openai_response outputs) = Some (lines (concat outputs)))
  /\ (forall ts, geminiTextFromResponse (gemini_response (map text_part ts)) = Some (lines ts))
  /\ (forall blocks,
        claudeTextFromResponse (claude_response blocks)
        = Some (lines (map snd (List.filter (fun b => String.eqb (fst b) "text") blocks))))
  /\ (forall json, js_nullish json = true ->
        getOpenAITextOut json = None
        /\ geminiTextFromResponse json = Some ""
        /\ claudeTextFromResponse json = Some "").
Proof.
  split; [| split; [| split]].
  - intros outputs. unfold getOpenAITextOut, openai_response.
    match goal with |- context [js_member ?o "output"] =>
      match o with JObj [_; (_, ?x)] => change (js_member o "output") with (Some x) end
    end.
    cbn [mbind option_bind js_or js_truthy as_array].
    assert (E : mapM output_texts
                  (map (fun ts => JObj [("type", JStr "message");
                                        ("content", JArr (map text_block ts))]) outputs)
                = Some (map (fun ts => map JStr (List.filter (fun t => negb (String.eqb t "")) ts))
                          outputs)).
    { induction outputs as [| ts outputs IH]; [reflexivity |].
      cbn [map mapM]. rewrite output_texts_message, IH. reflexivity. }
    rewrite E. cbn [mbind option_bind]. unfold lines. clear E.
    assert (E : concat (map (fun ts => map JStr (List.filter (fun t => negb (String.eqb t "")) ts))
                          outputs)
                = map JStr (List.filter (fun t => negb (String.eqb t "")) (concat outputs))).
    { induction outputs as [| ts outputs IH]; [reflexivity |].
      cbn [map concat]. rewrite List.filter_app, map_app, IH. reflexivity. }
    rewrite E. apply js_join_texts.
  - intros ts. unfold geminiTextFromResponse, gemini_response.
    match goal with |- context [gemini_parts ?j] =>
      change (gemini_parts j) with (JArr (map text_part ts))
    end.
    cbn [mbind option_bind as_array]. unfold parts_text, lines.
    rewrite map_map.
    change (map (fun x => js_get (text_part x) "text") ts) with (map JStr ts).
    rewrite filter_texts. apply js_join_texts.
  - intros blocks. unfold claudeTextFromResponse, claude_response.
    match goal with |- context [js_get ?o "content"] =>
      match o with JObj [_; (_, ?x)] => change (js_get o "content") with x end
    end.
    cbn [mbind option_bind js_or js_truthy as_array]. unfold lines.
    match goal with |- js_join _ ?l = Some (String.concat _ ?r) =>
      assert (E : l = map JStr r)
    end.
    { induction blocks as [| [ty tx] blocks IH]; [reflexivity |].
      cbn [map List.filter fst snd].
      change (js_get (claude_block ty tx) "type") with (JStr ty).
      change (js_get (claude_block ty tx) "text") with (JStr tx).
      cbn [js_is_string js_truthy].
      destruct (String.eqb ty "text"); cbn [andb map List.filter snd]; [| exact IH].
      destruct (negb (String.eqb tx "")); cbn [map]; rewrite IH; reflexivity. }
    rewrite E. apply js_join_texts.
  - intros json H. destruct json; try discriminate H; repeat split.
Qed.

(** A text that has no string form makes the accessors throw. *)
Example text_without_string_form :
  let text := JObj [("toString", JNum (num_of_Z 1))] in
  geminiTextFromResponse (gemini_response [JObj [("text", text)]]) = None
  /\ claudeTextFromResponse
       (JObj [("content", JArr [JObj [("type", JStr "text"); ("text", text)]])])
     = None
  /\ getOpenAITextOut
       (JObj [("output", JArr [JObj [("content", JArr [JObj [("text", text)]])]])])
     = None.
Proof. vm_compute. repeat split; reflexivity. Qed.

(** X6. The image of a response. Of a Gemini answer the adapter takes the
    payload of the first part that has one, whatever follows it; a part
    carries its payload under [inline_data] or under [inlineData], a part
    that is a text carries none; when no part has a payload the value is
    [undefined], on which the adapter throws. Of an OpenAI answer it takes
    the [b64_json] of the first entry of [data], and [undefined] when [data]
    is empty or missing. *)
Theorem image_of_response :
  (forall before p after,
     Forall (fun q => js_truthy (inline_payload q) = false) before ->
     js_truthy (inline_payload p) = true ->
     gemini_b64 (gemini_response (before ++ p :: after)) = Some (inline_payload p))
  /\ (forall parts,
        Forall (fun q => js_truthy (inline_payload q) = false) parts ->
        gemini_b64 (gemini_response parts) = Some JUndefined)
  /\ (forall mime data,
        js_truthy data = true ->
        inline_payload (camel_image_part mime data) = data
        /\ inline_payload (snake_image_part mime data) = data)
  /\ (forall t, inline_payload (text_part t) = JUndefined)
  /\ (forall b64 more others,
        openai_b64 (JObj [("created", JNum (num_of_Z 0));
                          ("data", JArr (JObj (("b64_json", b64) :: more) :: others))])
        = default b64 (last_binding more "b64_json"))
  /\ openai_b64 (JObj [("data", JArr [])]) = JUndefined
  /\ openai_b64 (JObj [("error", JStr "bad request")]) = JUndefined.
Proof.
  split; [| split; [| split; [| split; [| split; [| split]]]]].
  - intros before p after Hb Hp. unfold gemini_b64, gemini_response.
    match goal with |- context [gemini_parts ?j] =>
      change (gemini_parts j) with (JArr (before ++ p :: after))
    end.
    cbn [mbind option_bind as_array]. f_equal.
    induction Hb as [| q before Hq Hb IH]; cbn [app find].
    + rewrite Hp. reflexivity.
    + rewrite Hq. exact IH.
  - intros parts Hb. unfold gemini_b64, gemini_response.
    match goal with |- context [gemini_parts ?j] =>
      change (gemini_parts j) with (JArr parts)
    end.
    cbn [mbind option_bind as_array]. f_equal.
    induction Hb as [| q before Hq Hb IH]; cbn [find]; [reflexivity |].
    rewrite Hq. exact IH.
  - intros mime data Hd. unfold inline_payload, camel_image_part, snake_image_part.
    split.
    + change (js_get (js_get (JObj [("inlineData", JObj [("mimeType", JStr mime); ("data", data)])]) "inline_data") "data") with JUndefined.
      change (js_get (js_get (JObj [("inlineData", JObj [("mimeType", JStr mime); ("data", data)])]) "inlineData") "data") with data.
      reflexivity.
    + change (js_get (js_get (JObj [("inline_data", JObj [("mime_type", JStr mime); ("data", data)])]) "inline_data") "data") with data.
      unfold js_or. rewrite Hd. reflexivity.
  - reflexivity.
  - intros b64 more others. unfold openai_b64.
    match goal with |- context [js_index0 ?j] =>
      change (js_index0 j) with (JObj (("b64_json", b64) :: more))
    end.
    unfold js_get, own_property. cbn [last_binding].
    destruct (last_binding more "b64_json"); reflexivity.
  - reflexivity.
  - reflexivity.
Qed.

(** ** The data URL of the upload *)

Lemma strip_prefix_app (p s : string) : strip_prefix p (p +:+ s) = Some s.
Proof.
  induction p as [| a p IH]; [reflexivity |].
  change (String a p +:+ s) with (String a (p +:+ s)).
  cbn [strip_prefix]. rewrite Ascii.eqb_refl. exact IH.
Qed.

Lemma semicolon_code (a : ascii) : (code a =? 59)%N = Ascii.eqb a ";".
Proof. destruct a as [[] [] [] [] [] [] [] []]; reflexivity. Qed.

Lemma before_semicolon_app (mime rest : string) :
  from_first ";" mime = None ->
  before_semicolon (mime +:+ String ";" rest) = (mime, String ";" rest).
Proof.
  induction mime as [| a mime IH]; intros H.
  - reflexivity.
  - change (String a mime +:+ String ";" rest) with (String a (mime +:+ String ";" rest)).
    cbn [before_semicolon from_first] in *. rewrite semicolon_code.
    destruct (Ascii.eqb a ";"); [discriminate H |].
    rewrite (IH H). reflexivity.
Qed.

(** The characters of a base64 text are plain. *)
Lemma b64_char_plain (n : N) : plain (b64_char n) = true.
Proof.
  unfold b64_char. generalize (N.to_nat n). intros k.
  do 65 (destruct k as [| k]; [reflexivity |]). reflexivity.
Qed.

Lemma plain_no_line_terminator (s : string) :
  all_plain s = true -> has_line_terminator s = false.
Proof.
  induction s as [| c s IH]; [reflexivity |].
  cbn [all_plain has_line_terminator]. intros H.
  apply andb_prop in H as (Hc & Hs). rewrite (IH Hs).
  unfold plain in Hc. apply negb_true_iff in Hc.
  apply orb_false_elim in Hc as (Hc & H226). apply orb_false_elim in Hc as (H10 & H13).
  rewrite H10, H13.
  cbn [strip_prefix bytes fold_right].
  assert (E : Ascii.eqb (byte_of 226) c = false).
  { apply Ascii.eqb_neq. intros <-. discriminate H226. }
  rewrite E. reflexivity.
Qed.

Lemma base64_plain (buf : string) : all_plain (base64 buf) = true.
Proof.
  assert (H : forall n buf, (String.length buf <= n)%nat -> all_plain (base64 buf) = true).
  { intros n. induction n as [| n IH]; intros b Hn.
    - destruct b; [reflexivity | simpl in Hn; lia].
    - destruct b as [| x [| y [| z rest]]]; [reflexivity | | |];
        cbn [base64 all_plain]; rewrite ?b64_char_plain; try reflexivity.
      cbn [andb]. apply IH. simpl in Hn. lia. }
  exact (H (String.length buf) buf (le_n _)).
Qed.

Lemma base64_empty (buf : string) : String.eqb (base64 buf) "" = String.eqb buf "".
Proof. destruct buf as [| x [| y [| z rest]]]; reflexivity. Qed.

(** [parseDataUrl] on a data URL made of a type without semicolon and of a
    base64 text. *)
Lemma parseDataUrl_base64 (mime buf : string) :
  from_first ";" mime = None -> String.eqb mime "" = false ->
  parseDataUrl ("data:" +:+ mime +:+ ";base64," +:+ base64 buf)
  = if String.eqb buf "" then None else Some (mime, base64 buf).
Proof.
  intros Hs Hne. unfold parseDataUrl.
  rewrite strip_prefix_app.
  change (";base64," +:+ base64 buf) with (String ";" ("base64," +:+ base64 buf)).
  rewrite (before_semicolon_app _ _ Hs). rewrite Hne.
  change (String ";" ("base64," +:+ base64 buf)) with (";base64," +:+ base64 buf).
  rewrite strip_prefix_app, base64_empty.
  rewrite (plain_no_line_terminator _ (base64_plain _)).
  destruct (String.eqb buf ""); reflexivity.
Qed.

(** The type step 4 gives an upload is not empty, and it holds a semicolon
    only if the type of the upload does. *)
Lemma file_mime_plain (file : File) :
  from_first ";" (file_type file) = None ->
  from_first ";" (file_mime file) = None /\ String.eqb (file_mime file) "" = false.
Proof.
  intros H. unfold file_mime.
  destruct (String.eqb_spec (file_type file) "") as [E | E].
  - split; reflexivity.
  - split; [exact H |]. apply String.eqb_neq. exact E.
Qed.

(** X7. [parseDataUrl] reads back the data URL that step 4 of [POST] builds
    from an upload whose type holds no semicolon: it returns the type (or
    [image/png] for an upload without a type) and the base64 text of the
    content, unless the upload is empty, in which case it throws. *)
Theorem parseDataUrl_of_file (file : File) :
  from_first ";" (file_type file) = None ->
  parseDataUrl (file_dataUrl file)
  = if String.eqb (file_bytes file) "" then None
    else Some (file_mime file, base64 (file_bytes file)).
Proof.
  intros H. destruct (file_mime_plain file H) as (Hs & Hne).
  exact (parseDataUrl_base64 (file_mime file) (file_bytes file) Hs Hne).
Qed.

Lemma parseDataUrl_of_file_witness :
  from_first ";" (file_type photo) = None
  /\ parseDataUrl (file_dataUrl photo) = Some ("image/png", "YWJj").
Proof.
  split; [reflexivity |].
  apply (parseDataUrl_of_file photo). reflexivity.
Defined.

(** ** Every request, stage by stage *)

Lemma chooseVisionEngine_vendor (cfg : EngineConfig) (openaiKey geminiKey : option string)
  (engine : VisionEngine) :
  chooseVisionEngine cfg openaiKey geminiKey = inr engine ->
  ve_vendor engine = getApiVendor (ve_provider engine)
  /\ ve_vendor engine <> VAnthropic.
Proof.
  unfold chooseVisionEngine. intros H.
  destruct (textProvider cfg);
    [| | destruct (key_set openaiKey); [| destruct (key_set geminiKey); [| discriminate H]]];
    injection H as <-; split; first [reflexivity | discriminate].
Qed.

(** The pipeline with its line items and its calls, in one environment. *)
Section Trace.

Variable env : Env.

Lemma pipeline_trace (id : nat) (title userConcept : string)
  (cfg : EngineConfig) (buf mime dataUrl : string) (st : State) :
  exists exit st' new_calls items,
    pipeline env id title userConcept cfg buf mime dataUrl st = (exit, st')
    /\ calls (world st') = calls (world st) ++ new_calls
    /\ costLineItems (world st') = costLineItems (world st) ++ items
    /\ Forall (logged_item env id cfg) items
    /\ match exit with
       | Val resp => status resp = 200 /\ stages_done items new_calls true
       | Throw _ => stages_done items new_calls false
       | Return _ => False
       end.
Proof.
  unfold pipeline. cbv zeta.
  destruct (chooseVisionEngine cfg (OPENAI_API_KEY env) (GEMINI_API_KEY env))
    as [msg | engine] eqn:Hengine.
  { exists (Throw msg), st, [], []. split; [reflexivity |].
    rewrite !app_nil_r. repeat split; auto; try (cbn; lia). }
  destruct (chooseVisionEngine_vendor _ _ _ _ Hengine) as (Hvendor & _).
  cbn [or_throw]. rewrite bind_run. cbn [mret M_ret ret].
  (* VISION *)
  rewrite bind_run.
  match goal with |- context [callTextModel ?e ?v ?m ?p ?d ?a ?b ?c st] =>
    destruct (callTextModel_run env v m p d a b c st)
      as (x1 & st1 & l1 & -> & (I1 & L1 & T1 & C1) & K1)
  end.
  destruct K1 as [(-> & msg & ->) | (c1 & -> & E1 & M1 & P1 & K1)].
  { exists (Throw msg), st1, [], []. split; [reflexivity |].
    rewrite C1, T1, !app_nil_r. repeat split; auto; try (cbn; lia). }
  destruct K1 as [(msg & ->) | (t1 & u1 & ->)].
  { exists (Throw msg), st1, [c1], []. split; [reflexivity |].
    rewrite C1, T1, !app_nil_r. repeat split; auto; try (cbn; lia). }
  rewrite bind_run.
  match goal with |- context [requestCostLineItem_create ?d st1] =>
    destruct (item_create_run d st1) as (st2 & -> & I2 & L2 & T2 & C2);
    set (vItem := d) in *
  end.
  assert (Hv : logged_item env id cfg vItem).
  { split; [reflexivity |]. unfold vItem. cbn [item_stage text_item]. split.
    - exists engine. auto.
    - exists u1. split; [destruct u1; reflexivity |].
      cbn [item_costUsd item_provider item_model text_item]. rewrite <- Hvendor.
      reflexivity. }
  (* CONCEPT *)
  rewrite bind_run.
  match goal with |- context [callTextModel ?e ?v ?m ?p ?d ?a ?b ?c st2] =>
    destruct (callTextModel_run env v m p d a b c st2)
      as (x3 & st3 & l3 & -> & (I3 & L3 & T3 & C3) & K3)
  end.
  assert (H3 : calls (world st3) = calls (world st) ++ c1 :: l3
               /\ costLineItems (world st3) = costLineItems (world st) ++ [vItem]).
  { split; [rewrite C3, C2, C1, <- app_assoc; reflexivity | congruence]. }
  destruct H3 as (C3' & T3').
  destruct K3 as [(-> & msg & ->) | (c2 & -> & E3 & M3 & P3 & K3)].
  { exists (Throw msg), st3, [c1], [vItem]. split; [reflexivity |].
    repeat split; auto; try (cbn; lia). }
  destruct K3 as [(msg & ->) | (t3 & u3 & ->)].
  { exists (Throw msg), st3, [c1; c2], [vItem]. split; [reflexivity |].
    repeat split; auto; try (cbn; lia). }
  rewrite bind_run.
  match goal with |- context [requestCostLineItem_create ?d st3] =>
    destruct (item_create_run d st3) as (st4 & -> & I4 & L4 & T4 & C4);
    set (cItem := d) in *
  end.
  assert (Hc : logged_item env id cfg cItem).
  { split; [reflexivity |]. unfold cItem. cbn [item_stage text_item].
    split; [reflexivity |]. split; [reflexivity |].
    exists u3. split; [destruct u3; reflexivity | reflexivity]. }
  (* the conversions *)
  assert (Hthrow4 :
    exists exit st' new_calls items,
      (Throw primitive_error_message : Exit Response, st4) = (exit, st')
      /\ calls (world st') = calls (world st) ++ new_calls
      /\ costLineItems (world st') = costLineItems (world st) ++ items
      /\ Forall (logged_item env id cfg) items
      /\ match exit with
         | Val resp => status resp = 200 /\ stages_done items new_calls true
         | Throw _ => stages_done items new_calls false
         | Return _ => False
         end).
  { exists (Throw primitive_error_message), st4, [c1; c2], [vItem; cItem].
    split; [reflexivity |]. split; [rewrite C4; exact C3' |].
    split; [rewrite T4, T3', <- app_assoc; reflexivity |].
    repeat split; auto; cbn; lia. }
  rewrite bind_run.
  destruct (deriveConceptUsed _ userConcept) as [conceptUsed |];
    cbn [converted]; [| exact Hthrow4].
  cbn [mret M_ret ret]. rewrite bind_run.
  destruct (buildFinalImagePrompt title _ _) as [editPrompt |];
    cbn [converted]; [| exact Hthrow4].
  cbn [mret M_ret ret]. clear Hthrow4.
  (* IMAGE EDIT *)
  rewrite bind_run.
  match goal with |- context [callImageEdit ?e ?v ?m ?p ?b ?mi ?a ?g st4] =>
    destruct (callImageEdit_run env v m p b mi a g st4)
      as (x5 & st5 & l5 & -> & (I5 & L5 & T5 & C5) & K5)
  end.
  assert (H5 : calls (world st5) = calls (world st) ++ c1 :: c2 :: l5
               /\ costLineItems (world st5) = costLineItems (world st) ++ [vItem; cItem]).
  { split; [rewrite C5, C4, C3', <- !app_assoc; reflexivity |].
    rewrite T5, T4, T3', <- app_assoc. reflexivity. }
  destruct H5 as (C5' & T5').
  destruct K5 as [(-> & msg & ->) | (c3 & -> & M5 & P5 & K5)].
  { exists (Throw msg), st5, [c1; c2], [vItem; cItem]. split; [reflexivity |].
    repeat split; auto; try (cbn; lia). }
  destruct K5 as [(msg & ->) | (b64 & u5 & -> & Hb64)].
  { exists (Throw msg), st5, [c1; c2; c3], [vItem; cItem]. split; [reflexivity |].
    repeat split; auto; try (cbn; lia). }
  rewrite bind_run.
  match goal with |- context [requestCostLineItem_create ?d st5] =>
    destruct (item_create_run d st5) as (st6 & -> & I6 & L6 & T6 & C6);
    set (iItem := d) in *
  end.
  rewrite bind_run.
  match goal with |- context [requestLog_update ?i ?f st6] =>
    destruct (log_update_run i f st6) as (st7 & -> & I7 & L7 & T7 & C7)
  end.
  eexists _, st7, [c1; c2; c3], [vItem; cItem; iItem]. split; [reflexivity |].
  split; [congruence |].
  split; [rewrite T7, T6, T5', <- app_assoc; reflexivity |].
  assert (Hi : logged_item env id cfg iItem).
  { split; [reflexivity |]. unfold iItem. cbn [item_stage image_item].
    repeat split. }
  split; [| repeat split].
  repeat (apply Forall_cons; split; [assumption |]). apply Forall_nil. exact I.
Qed.

End Trace.

Lemma POST_early_or_valid (env : Env) (req : Request) (w : World) :
  (snd (POST env req w) = w
   /\ (status (fst (POST env req w)) = 400 \/ status (fst (POST env req w)) = 500))
  \/ exists form file,
       formData req = inr form
       /\ title_of form <> ""
       /\ table_get form "image" = Some (FormFile file)
       /\ missing_key env (config_of form) = None.
Proof.
  pose proof (POST_outcome env req w) as O.
  destruct (POST env req w) as [resp w']. cbn [fst snd] in *.
  inversion O as [msg Hf | form' Hf Ht | form' Hf Ht Hi | form' file v Hf Ht Hi Hk
                 | form file msg items new w'' Hf Ht Hi Hk HL HT HC HV
                 | form file cu b64 vi di a b c c1 c2 c3 w'' Hf Ht Hi Hk
                     Hb Hc HL HT HS HR HC HV HP2 HP3];
    subst; cbn [status bad]; eauto 10.
Qed.

(** What a request adds to the line items and to the calls. *)
Lemma POST_trace (env : Env) (req : Request) (w : World) :
  exists items new_calls,
    costLineItems (snd (POST env req w)) = costLineItems w ++ items
    /\ calls (snd (POST env req w)) = calls w ++ new_calls
    /\ stages_done items new_calls (status (fst (POST env req w)) =? 200)
    /\ forall form,
         formData req = inr form ->
         Forall (logged_item env (fresh (dom (requestLogs w))) (config_of form)) items.
Proof.
  destruct (POST_early_or_valid env req w)
    as [(Hw & Hs) | (form & file & Hf & Ht & Hi & Hk)].
  - exists [], []. rewrite Hw, !app_nil_r.
    split; [reflexivity |]. split; [reflexivity |].
    split; [| intros; apply Forall_nil; exact I].
    destruct Hs as [-> | ->]; repeat split; cbn; lia.
  - unfold POST. rewrite (handler_valid_request env req form file w Hf Ht Hi Hk).
    destruct (pipeline_trace env (fresh (dom (requestLogs w))) (title_of form)
                (concept_of form) (config_of form) (file_bytes file) (file_mime file)
                (file_dataUrl file)
                (logged w (initial_log (title_of form) (concept_of form) (config_of form))))
      as (exit & st' & new_calls & items & -> & C & T & F & K).
    exists items, new_calls.
    assert (Hform : forall form',
      formData req = inr form' ->
      Forall (logged_item env (fresh (dom (requestLogs w))) (config_of form')) items).
    { intros form' Hf'. rewrite Hf in Hf'. injection Hf' as <-. exact F. }
    destruct exit as [resp | resp | msg]; [| destruct K |].
    + destruct K as (Hs & K). cbn [fst snd]. rewrite Hs. auto.
    + cbn [fst snd status bad]. 
      destruct (requestLogId st'); cbn [update_row costLineItems calls]; auto.
Qed.

(** X8. The configuration of a request is the default configuration when
    the form has no [engineConfig] field, when that field is a file, when its
    text is not JSON, and when it is JSON for anything but an object (a
    number, a string, an array, [null], [true]). *)
Theorem config_of_bad_input (form : list (string * FormValue)) :
  (table_get form "engineConfig" = None -> config_of form = defaultConfig)
  /\ (forall f, table_get form "engineConfig" = Some (FormFile f) ->
        config_of form = defaultConfig)
  /\ (JSON_parse (form_string form "engineConfig" "{}") = None ->
      config_of form = defaultConfig)
  /\ (forall v,
        JSON_parse (form_string form "engineConfig" "{}") = Some v ->
        (forall props, v <> JObj props) ->
        config_of form = defaultConfig).
Proof.
  split; [| split; [| split]].
  - unfold config_of, form_string. intros ->. reflexivity.
  - unfold config_of, form_string. intros f ->. vm_compute. reflexivity.
  - intros H. unfold config_of, loadEngineConfig. rewrite H. reflexivity.
  - intros v H Hv. unfold config_of, loadEngineConfig. rewrite H.
    destruct v; try reflexivity.
    + unfold normalizeEngineConfig, merged_of, js_or. cbn [js_truthy].
      destruct b; reflexivity.
    + unfold normalizeEngineConfig, merged_of, js_or. cbn [js_truthy].
      destruct (num_truthy x); reflexivity.
    + unfold normalizeEngineConfig, merged_of, js_or. cbn [js_truthy].
      destruct (negb (String.eqb s "")); reflexivity.
    + exfalso. exact (Hv props eq_refl).
Qed.

(** The vision engine of a request that passed the key checks. *)
Lemma vision_engine_key (env : Env) (cfg : EngineConfig) :
  imageProvider cfg <> Anthropic ->
  missing_key env cfg = None ->
  exists engine,
    chooseVisionEngine cfg (OPENAI_API_KEY env) (GEMINI_API_KEY env) = inr engine
    /\ key_set (vendor_key env (ve_vendor engine)) = true
    /\ ve_vendor engine
       = match textProvider cfg with
         | Openai => VOpenai
         | Gemini => VGoogle
         | Anthropic => if key_set (OPENAI_API_KEY env) then VOpenai else VGoogle
         end.
Proof.
  intros Hip Hk. destruct (missing_key_None env cfg Hk) as (Hk1 & Hk2).
  unfold chooseVisionEngine.
  destruct (textProvider cfg); cbn [getApiVendor vendor_key] in Hk1.
  - eexists. split; [reflexivity |]. split; [exact Hk1 | reflexivity].
  - eexists. split; [reflexivity |]. split; [exact Hk1 | reflexivity].
  - destruct (key_set (OPENAI_API_KEY env)) eqn:Ho.
    + eexists. split; [reflexivity |]. split; [exact Ho | reflexivity].
    + destruct (imageProvider cfg); cbn [getApiVendor vendor_key] in Hk2;
        [congruence | | contradiction].
      rewrite Hk2. eexists. split; [reflexivity |]. split; [exact Hk2 | reflexivity].
Qed.

(** X9. A request that passed the key checks of step 5 has a vision engine:
    [chooseVisionEngine] does not throw, the engine it returns is never
    Anthropic's, its vendor is the vendor of its provider, and the key of
    that vendor is set; unless the text provider is [anthropic], it is the
    text engine of the configuration. *)
Theorem vision_engine_of_request (env : Env) (form : list (string * FormValue)) :
  missing_key env (config_of form) = None ->
  exists engine,
    chooseVisionEngine (config_of form) (OPENAI_API_KEY env) (GEMINI_API_KEY env)
    = inr engine
    /\ ve_vendor engine <> VAnthropic
    /\ ve_vendor engine = getApiVendor (ve_provider engine)
    /\ key_set (vendor_key env (ve_vendor engine)) = true
    /\ (textProvider (config_of form) <> Anthropic ->
        ve_provider engine = textProvider (config_of form)
        /\ ve_apiModel engine = textModel (config_of form)).
Proof.
  intros Hk.
  pose proof (loadEngineConfig_image (form_string form "engineConfig" "{}")) as Hip.
  fold (config_of form) in Hip.
  destruct (vision_engine_key env _ Hip Hk) as (engine & He & Hkey & Hv).
  destruct (chooseVisionEngine_vendor _ _ _ _ He) as (Hvp & Hna).
  exists engine. repeat (split; [assumption |]).
  intros Hnot. unfold chooseVisionEngine in He.
  pose proof (loadEngineConfig_valid (form_string form "engineConfig" "{}")) as V.
  fold (config_of form) in V.
  destruct (config_of form) as [tp tm ip im]. cbn [textProvider textModel] in *.
  each_config V; try contradiction; injection He as <-; split; reflexivity.
Qed.

Lemma vision_engine_of_request_witness :
  missing_key env_openai (config_of (sneaker_form "{}")) = None
  /\ exists engine,
       chooseVisionEngine (config_of (sneaker_form "{}"))
         (OPENAI_API_KEY env_openai) (GEMINI_API_KEY env_openai) = inr engine
       /\ ve_vendor engine <> VAnthropic
       /\ ve_vendor engine = getApiVendor (ve_provider engine)
       /\ key_set (vendor_key env_openai (ve_vendor engine)) = true
       /\ (textProvider (config_of (sneaker_form "{}")) <> Anthropic ->
           ve_provider engine = textProvider (config_of (sneaker_form "{}"))
           /\ ve_apiModel engine = textModel (config_of (sneaker_form "{}"))).
Proof.
  assert (H : missing_key env_openai (config_of (sneaker_form "{}")) = None)
    by (vm_compute; reflexivity).
  split; [exact H |].
  exact (vision_engine_of_request env_openai (sneaker_form "{}") H).
Defined.

(** X10. The status of an answer is 200, 400 or 500. It is 400 exactly when
    the form was read and the title is empty or the image is not a file, and
    then the world is left as it was; it is 200 exactly when the body carries
    a concept and an image (every other body is an error message). *)
Theorem POST_status (env : Env) (req : Request) (w : World) :
  (status (fst (POST env req w)) = 200
   \/ status (fst (POST env req w)) = 400
   \/ status (fst (POST env req w)) = 500)
  /\ (status (fst (POST env req w)) = 400 <->
      exists form,
        formData req = inr form
        /\ (title_of form = ""
            \/ forall file, table_get form "image" <> Some (FormFile file)))
  /\ (status (fst (POST env req w)) = 200 <->
      exists conceptUsed b64, body (fst (POST env req w)) = ResultBody conceptUsed b64)
  /\ (status (fst (POST env req w)) = 400 -> snd (POST env req w) = w).
Proof.
  pose proof (POST_outcome env req w) as O.
  destruct (POST env req w) as [resp w']. cbn [fst snd] in *.
  inversion O as [msg Hf | form' Hf Ht | form' Hf Ht Hi | form' file v Hf Ht Hi Hk
                 | form file msg items new w'' Hf Ht Hi Hk HL HT HC HV
                 | form file cu b64 vi di a b c c1 c2 c3 w'' Hf Ht Hi Hk
                     Hb Hc HL HT HS HR HC HV HP2 HP3];
    subst; cbn [status body bad].
  all: split; [auto |].
  all: split; [split; [intros H; try discriminate H; eauto
                      | intros (f & Hf' & H); rewrite Hf in Hf';
                        try discriminate Hf'; injection Hf' as <-;
                        try reflexivity;
                        destruct H as [H | H]; first [contradiction | exfalso; exact (H _ Hi)]] |].
  all: split; [split; [intros H; try discriminate H; eauto
                      | intros (cu' & b' & H); first [discriminate H | reflexivity]] |].
  all: intros H; first [reflexivity | discriminate H].
Qed.

(** X11. A request never touches what was stored before it: every row of
    the log is still there, unchanged; the line items and the vendor calls so
    far are extended, never altered; and the log either is as it was or has
    one row more, under an id that was not in use. *)
Theorem POST_keeps_history (env : Env) (req : Request) (w : World) :
  (forall id row,
     requestLogs w !! id = Some row ->
     requestLogs (snd (POST env req w)) !! id = Some row)
  /\ (exists items, costLineItems (snd (POST env req w)) = costLineItems w ++ items)
  /\ (exists new_calls, calls (snd (POST env req w)) = calls w ++ new_calls)
  /\ (requestLogs (snd (POST env req w)) = requestLogs w
      \/ exists row,
           requestLogs w !! fresh (dom (requestLogs w)) = None
           /\ requestLogs (snd (POST env req w))
              = <[fresh (dom (requestLogs w)) := row]> (requestLogs w)).
Proof.
  pose proof (POST_outcome env req w) as O.
  destruct (POST env req w) as [resp w']. cbn [fst snd] in *.
  assert (Hnew : forall row' : RequestLog,
    requestLogs w' = <[fresh (dom (requestLogs w)) := row']> (requestLogs w) ->
    forall id row, requestLogs w !! id = Some row -> requestLogs w' !! id = Some row).
  { intros row' E id row H. rewrite E. rewrite lookup_insert_ne; [exact H |].
    intros <-. rewrite fresh_row in H. discriminate H. }
  inversion O as [msg Hf | form' Hf Ht | form' Hf Ht Hi | form' file v Hf Ht Hi Hk
                 | form file msg items new w'' Hf Ht Hi Hk HL HT HC HV
                 | form file cu b64 vi di a b c c1 c2 c3 w'' Hf Ht Hi Hk
                     Hb Hc HL HT HS HR HC HV HP2 HP3];
    subst.
  1-4: split; [auto |]; split; [exists []; symmetry; apply app_nil_r |];
       split; [exists []; symmetry; apply app_nil_r | left; reflexivity].
  all: split; [exact (Hnew _ HL) |]; split; [eauto |]; split; [eauto |];
       right; eexists; split; [apply fresh_row | exact HL].
Qed.

(** X12. How far a request goes. It makes at most three vendor calls. The
    line items it stores are the stages VISION, CONCEPT, IMAGE_EDIT in this
    order, cut off where it stopped: one item for each call that returned, so
    that a request that fails has stored fewer than three items and made as
    many calls as items or one more. An IMAGE_EDIT item is stored exactly
    when the answer has status 200. *)
Theorem POST_stages (env : Env) (req : Request) (w : World) :
  exists items new_calls,
    costLineItems (snd (POST env req w)) = costLineItems w ++ items
    /\ calls (snd (POST env req w)) = calls w ++ new_calls
    /\ stages_done items new_calls (status (fst (POST env req w)) =? 200)
    /\ (length new_calls <= 3)%nat
    /\ (In IMAGE_EDIT (map item_stage items) <-> status (fst (POST env req w)) = 200).
Proof.
  destruct (POST_trace env req w) as (items & new_calls & T & C & S & _).
  exists items, new_calls. split; [exact T |]. split; [exact C |]. split; [exact S |].
  destruct S as (Hst & Hn).
  destruct (Z.eqb_spec (status (fst (POST env req w))) 200) as [E | E].
  - destruct Hn as (Hi & Hc). split; [lia |].
    split; [intros _; exact E | intros _].
    rewrite Hst, Hi. cbn. auto.
  - destruct Hn as (Hi & Hc). split; [lia |].
    split; [| intros H; contradiction].
    rewrite Hst. intros H. exfalso.
    destruct (length items) as [| [| [| n]]]; cbn in H; [tauto | | | lia];
      intuition discriminate.
Qed.

(** X13. Every line item a request stores carries the id of the row of the
    request. A VISION item names the engine [chooseVisionEngine] chose, a
    CONCEPT item the text engine of the configuration with its wire model
    name, and the cost of each is the price of its own stored token counts at
    its own stored provider and model. An IMAGE_EDIT item names the image
    engine, stores no token count and counts one image. *)
Theorem POST_line_items (env : Env) (req : Request)
  (form : list (string * FormValue)) (w : World) :
  formData req = inr form ->
  exists items,
    costLineItems (snd (POST env req w)) = costLineItems w ++ items
    /\ Forall (logged_item env (fresh (dom (requestLogs w))) (config_of form)) items.
Proof.
  intros Hf. destruct (POST_trace env req w) as (items & new_calls & T & _ & _ & F).
  exists items. split; [exact T | exact (F form Hf)].
Qed.

Lemma POST_line_items_witness :
  exists items,
    costLineItems (snd (POST env_openai (sneaker "{}") empty_world))
    = costLineItems empty_world ++ items
    /\ Forall (logged_item env_openai (fresh (dom (requestLogs empty_world)))
                 (config_of (sneaker_form "{}"))) items.
Proof.
  apply (POST_line_items env_openai (sneaker "{}") (sneaker_form "{}") empty_world).
  reflexivity.
Defined.

(** Induction on a value, through its elements and its properties. *)
Lemma jsval_induction (P : jsval -> Prop) :
  P JUndefined -> P JNull -> (forall b, P (JBool b)) -> (forall x, P (JNum x)) ->
  (forall s, P (JStr s)) ->
  (forall xs, Forall P xs -> P (JArr xs)) ->
  (forall props, Forall (fun kv => P (snd kv)) props -> P (JObj props)) ->
  forall v, P v.
Proof.
  intros Hu Hn Hb Hx Hs Ha Ho. fix IH 1. intros [| | b | x | s | xs | props].
  - exact Hu.
  - exact Hn.
  - apply Hb.
  - apply Hx.
  - apply Hs.
  - apply Ha. induction xs as [| x xs IHxs]; constructor; [apply IH | exact IHxs].
  - apply Ho. induction props as [| [k x] props IHprops]; constructor;
      [apply IH | exact IHprops].
Qed.

Lemma js_String_array (xs : list jsval) : js_String (JArr xs) = js_join "," xs.
Proof.
  cbn [js_String]. induction xs as [| a r IH]; [reflexivity |].
  cbn [js_join]. rewrite IH. reflexivity.
Qed.

Lemma printable_no_toString (props : list (string * jsval)) :
  printable (JObj props) = true -> last_binding props "toString" = None.
Proof.
  cbn [printable]. induction props as [| [k x] props IH]; [reflexivity |].
  cbn [forallb last_binding]. intros H.
  apply andb_prop in H as (H & Hrest). apply andb_prop in H as (Hk & _).
  rewrite (IH Hrest). destruct (String.eqb k "toString"); [discriminate Hk | reflexivity].
Qed.

Lemma printable_join_elements (sep : string) (xs : list jsval) :
  Forall (fun v => printable v = true -> exists s, js_String v = Some s) xs ->
  forallb printable xs = true -> exists s, js_join sep xs = Some s.
Proof.
  induction 1 as [| a r Ha Hr IH]; [eexists; reflexivity |].
  cbn [forallb js_join]. intros H. apply andb_prop in H as (Hpa & Hpr).
  destruct (IH Hpr) as (t & Et). destruct (Ha Hpa) as (s & Es).
  rewrite Es, Et. destruct (js_nullish a), r; eexists; reflexivity.
Qed.

(** A value in which no object has a key [toString] has a string form. *)
Lemma printable_String (v : jsval) :
  printable v = true -> exists s, js_String v = Some s.
Proof.
  induction v as [| | b | x | s | xs IH | props IH] using jsval_induction;
    try (intros _; eexists; reflexivity).
  - intros H. rewrite js_String_array. exact (printable_join_elements "," xs IH H).
  - intros H. cbn [js_String]. rewrite (printable_no_toString props H).
    eexists; reflexivity.
Qed.

Lemma printable_join (sep : string) (xs : list jsval) :
  forallb printable xs = true -> exists s, js_join sep xs = Some s.
Proof.
  apply printable_join_elements, Forall_forall. intros v _. apply printable_String.
Qed.

Lemma printable_get (v : jsval) (k : string) :
  printable v = true -> printable (js_get v k) = true.
Proof.
  unfold js_get, own_property. destruct v as [| | | | | | props]; try reflexivity.
  cbn [printable]. induction props as [| [k' x] props IH]; [reflexivity |].
  cbn [forallb last_binding]. intros H.
  apply andb_prop in H as (H & Hrest). apply andb_prop in H as (_ & Hx).
  specialize (IH Hrest).
  destruct (last_binding props k); [exact IH |].
  destruct (String.eqb k' k); [exact Hx | reflexivity].
Qed.

Lemma printable_deriveConceptUsed (direction : jsval) (userConcept : string) :
  printable direction = true ->
  exists conceptUsed, deriveConceptUsed direction userConcept = Some conceptUsed.
Proof.
  intros H. unfold deriveConceptUsed.
  destruct (printable_String (js_or (js_get direction "one_line_concept") (JStr "")))
    as (s & ->).
  - unfold js_or. destruct (js_truthy _); [apply printable_get, H | reflexivity].
  - eexists; reflexivity.
Qed.

Lemma printable_buildFinalImagePrompt (title : string) (vision direction : jsval) :
  printable vision = true -> printable direction = true ->
  buildFinalImagePrompt title vision direction
  = Some (FinalImagePrompt title vision direction).
Proof.
  intros Hv Hd. unfold buildFinalImagePrompt.
  assert (Hline : exists line, immutable_line vision = Some line).
  { unfold immutable_line. cbv zeta.
    pose proof (printable_get vision "immutable_elements" Hv) as Hi.
    destruct (js_get vision "immutable_elements") as [| | | | | xs |];
      try (eexists; reflexivity).
    destruct xs as [| x xs]; [eexists; reflexivity |].
    destruct (printable_join "; " (x :: xs) Hi) as (joined & ->).
    eexists; reflexivity. }
  destruct Hline as (line & ->). cbn [mbind option_bind].
  assert (Hfields : forall fields,
    exists texts, mapM (fun field => js_String (js_get direction field)) fields
                  = Some texts).
  { induction fields as [| field fields (texts & IH)]; [eexists; reflexivity |].
    cbn [mapM]. destruct (printable_String _ (printable_get direction field Hd)) as (t & ->).
    rewrite IH. eexists; reflexivity. }
  destruct (Hfields direction_fields) as (texts & ->). reflexivity.
Qed.

Lemma printable_vision (text : string) :
  printable (safeParseJson text) = true ->
  printable (js_coalesce (safeParseJson text) (default_vision text)) = true.
Proof. intros H. unfold js_coalesce. destruct (js_nullish _); [reflexivity | exact H]. Qed.

Lemma printable_direction (text userConcept : string) :
  printable (safeParseJson text) = true ->
  printable (js_coalesce (safeParseJson text) (default_direction userConcept)) = true.
Proof. intros H. unfold js_coalesce. destruct (js_nullish _); [reflexivity | exact H]. Qed.

(** The pipeline when every vendor answers. *)
Section Answers.

Variable env : Env.
Hypothesis Hans : vendors_answer env.
Hypothesis Hprint : answers_printable env.

Lemma callTextModel_answers (vendor : ApiVendor) (apiModel : string) (prompt : Prompt)
  (dataUrl k1 k2 k3 : option string) (st : State) :
  key_set (match vendor with VOpenai => Some "-" | VGoogle => k2 | VAnthropic => k3 end)
  = true ->
  (vendor = VOpenai
   \/ match truthy_string dataUrl with
      | Some d => parseDataUrl d <> None
      | None => True
      end) ->
  exists t u st',
    callTextModel env vendor apiModel prompt dataUrl k1 k2 k3 st = (Val (t, u), st')
    /\ printable (safeParseJson t) = true.
Proof.
  intros Hk Hd.
  assert (Hcall : forall call failure st0,
    exists t u st',
      (fetch env call ≫= text_result failure) st0 = (Val (t, u), st')
      /\ printable (safeParseJson t) = true).
  { intros call failure st0. rewrite bind_run. cbn [fetch].
    destruct (Hans (calls (world st0)) call) as (b & E & _).
    pose proof (Hprint _ _ _ E) as Hb. rewrite E. cbn. eauto. }
  assert (Himg : vendor <> VOpenai ->
    exists a, inline_image dataUrl st = (Val a, st)).
  { intros Hv. destruct Hd as [-> | Hd]; [contradiction |].
    unfold inline_image. destruct (truthy_string dataUrl) as [d |]; [| eexists; reflexivity].
    destruct (parseDataUrl d) as [[m b] |]; [eexists; reflexivity | contradiction]. }
  unfold callTextModel. destruct vendor.
  - apply Hcall.
  - rewrite Hk. cbn [negb]. rewrite bind_run.
    destruct Himg as (a & ->); [discriminate |]. apply Hcall.
  - rewrite Hk. cbn [negb]. rewrite bind_run.
    destruct Himg as (a & ->); [discriminate |]. apply Hcall.
Qed.

Lemma callImageEdit_answers (vendor : ApiVendor) (apiModel : string) (prompt : Prompt)
  (buf mime : string) (k1 k2 : option string) (st : State) :
  vendor <> VAnthropic ->
  key_set (match vendor with VGoogle => k2 | _ => Some "-" end) = true ->
  exists r st', callImageEdit env vendor apiModel prompt buf mime k1 k2 st = (Val r, st').
Proof.
  intros Hv Hk. unfold callImageEdit. destruct vendor; [| | contradiction].
  - rewrite bind_run. cbn [fetch].
    match goal with |- context [respond env ?h ?c] =>
      destruct (Hans h c) as (b & -> & Hb) end.
    rewrite Hb. cbn. eauto.
  - rewrite Hk. cbn [negb]. rewrite bind_run. cbn [fetch].
    match goal with |- context [respond env ?h ?c] =>
      destruct (Hans h c) as (b & -> & Hb) end.
    rewrite Hb. cbn. eauto.
Qed.

Lemma pipeline_answers (id : nat) (title userConcept : string) (cfg : EngineConfig)
  (buf mime dataUrl : string) (st : State) :
  imageProvider cfg <> Anthropic ->
  missing_key env cfg = None ->
  (parseDataUrl dataUrl <> None
   \/ (textProvider cfg <> Gemini /\ key_set (OPENAI_API_KEY env) = true)) ->
  exists resp st',
    pipeline env id title userConcept cfg buf mime dataUrl st = (Val resp, st').
Proof.
  intros Hip Hk Hd.
  destruct (vision_engine_key env cfg Hip Hk) as (engine & He & Hkey & Hv).
  destruct (missing_key_None env cfg Hk) as (Hk1 & Hk2).
  unfold pipeline. cbv zeta. rewrite He.
  cbn [or_throw]. rewrite bind_run. cbn [mret M_ret ret].
  rewrite bind_run.
  match goal with |- context [callTextModel ?e ?v ?m ?p ?d ?a ?b ?c st] =>
    destruct (callTextModel_answers v m p d a b c st) as (t1 & u1 & st1 & -> & P1)
  end.
  { rewrite Hv in *. destruct (textProvider cfg); [reflexivity | exact Hkey |].
    destruct (key_set (OPENAI_API_KEY env)); [reflexivity | exact Hkey]. }
  { destruct Hd as [Hd | (Hg & Ho)].
    - right. cbn [truthy_string]. destruct (String.eqb dataUrl ""); [exact I | exact Hd].
    - left. rewrite Hv. destruct (textProvider cfg); [reflexivity | contradiction |].
      rewrite Ho. reflexivity. }
  rewrite bind_run.
  match goal with |- context [requestCostLineItem_create ?d st1] =>
    destruct (item_create_run d st1) as (st2 & -> & _)
  end.
  rewrite bind_run.
  match goal with |- context [callTextModel ?e ?v ?m ?p ?d ?a ?b ?c st2] =>
    destruct (callTextModel_answers v m p d a b c st2) as (t3 & u3 & st3 & -> & P3)
  end.
  { destruct (textProvider cfg); [reflexivity | exact Hk1 | exact Hk1]. }
  { right. exact I. }
  rewrite bind_run.
  match goal with |- context [requestCostLineItem_create ?d st3] =>
    destruct (item_create_run d st3) as (st4 & -> & _)
  end.
  cbn [fst snd].
  apply printable_vision in P1. apply (printable_direction t3 userConcept) in P3.
  rewrite bind_run.
  destruct (printable_deriveConceptUsed _ userConcept P3) as (conceptUsed & ->).
  cbn [converted mret M_ret ret]. rewrite bind_run.
  rewrite (printable_buildFinalImagePrompt title _ _ P1 P3).
  cbn [converted mret M_ret ret].
  rewrite bind_run.
  match goal with |- context [callImageEdit ?e ?v ?m ?p ?b ?mi ?a ?g st4] =>
    destruct (callImageEdit_answers v m p b mi a g st4) as (r & st5 & ->)
  end.
  { destruct (imageProvider cfg); [discriminate | discriminate | contradiction]. }
  { destruct (imageProvider cfg); [reflexivity | exact Hk2 | reflexivity]. }
  rewrite bind_run.
  match goal with |- context [requestCostLineItem_create ?d st5] =>
    destruct (item_create_run d st5) as (st6 & -> & _)
  end.
  rewrite bind_run.
  match goal with |- context [requestLog_update ?i ?f st6] =>
    destruct (log_update_run i f st6) as (st7 & -> & _)
  end.
  eauto.
Qed.

End Answers.

(** X14. A request succeeds when nothing stands in its way: with a title,
    an image file, the keys of its engines set, and vendors that answer every
    call with a body that holds an image and a text in which no object has a
    key [toString] (so that what the handler reads of the text has a string
    form), the answer has status 200, provided the data URL of the upload can
    be read back or the vision step runs on OpenAI (which takes the URL as it
    is). *)
Theorem POST_succeeds (env : Env) (req : Request) (form : list (string * FormValue))
  (file : File) (w : World) :
  formData req = inr form ->
  title_of form <> "" ->
  table_get form "image" = Some (FormFile file) ->
  missing_key env (config_of form) = None ->
  vendors_answer env ->
  answers_printable env ->
  parseDataUrl (file_dataUrl file) <> None
  \/ (textProvider (config_of form) <> Gemini /\ key_set (OPENAI_API_KEY env) = true) ->
  status (fst (POST env req w)) = 200.
Proof.
  intros Hf Ht Hi Hk Hans Hprint Hd.
  pose proof (loadEngineConfig_image (form_string form "engineConfig" "{}")) as Hip.
  fold (config_of form) in Hip.
  unfold POST. rewrite (handler_valid_request env req form file w Hf Ht Hi Hk).
  destruct (pipeline_answers env Hans Hprint (fresh (dom (requestLogs w))) (title_of form)
              (concept_of form) (config_of form) (file_bytes file) (file_mime file)
              (file_dataUrl file)
              (logged w (initial_log (title_of form) (concept_of form) (config_of form)))
              Hip Hk Hd) as (resp & st' & E).
  destruct (pipeline_trace env (fresh (dom (requestLogs w))) (title_of form)
              (concept_of form) (config_of form) (file_bytes file) (file_mime file)
              (file_dataUrl file)
              (logged w (initial_log (title_of form) (concept_of form) (config_of form))))
    as (exit & st'' & new_calls & items & E' & _ & _ & _ & K).
  rewrite E in E'. injection E' as <- <-. rewrite E. cbn [fst]. apply K.
Qed.

Lemma env_openai_answers : vendors_answer env_openai.
Proof. intros earlier call. exists good_body. split; reflexivity. Qed.

Lemma env_openai_printable : answers_printable env_openai.
Proof. intros earlier call b [= <-]. vm_compute. reflexivity. Qed.

Lemma POST_succeeds_witness :
  status (fst (POST env_openai (sneaker "{}") empty_world)) = 200.
Proof.
  apply (POST_succeeds env_openai (sneaker "{}") (sneaker_form "{}") photo empty_world).
  - reflexivity.
  - vm_compute. discriminate.
  - reflexivity.
  - vm_compute. reflexivity.
  - exact env_openai_answers.
  - exact env_openai_printable.
  - left. vm_compute. discriminate.
Defined.

(** Without that condition the request can fail between the concept call and
    the image call: the concept (or a field of the direction) the model
    answered has no string form, the conversion throws, and the request ends
    with status 500 after two calls and two line items, its row marked a
    failure. *)
Example POST_concept_without_string_form :
  let after := POST (env_answering unprintable_concept_text) (sneaker "{}") empty_world in
  fst after = bad primitive_error_message 500
  /\ map net_endpoint (calls (snd after)) = [Responses; Responses]
  /\ map item_stage (costLineItems (snd after)) = [VISION; CONCEPT]
  /\ (log_success <$> requestLogs (snd after) !! fresh (dom (requestLogs empty_world)))
     = Some false.
Proof. vm_compute. repeat split; reflexivity. Qed.

Example POST_direction_without_string_form :
  let after := POST (env_answering unprintable_background_text) (sneaker "{}") empty_world in
  fst after = bad primitive_error_message 500
  /\ map net_endpoint (calls (snd after)) = [Responses; Responses]
  /\ map item_stage (costLineItems (snd after)) = [VISION; CONCEPT].
Proof. vm_compute. repeat split; reflexivity. Qed.

(** X15. When the data URL of the upload cannot be read back (an empty
    file, for one) and the vision step runs on Gemini (the text provider is
    [gemini], or it is [anthropic] and the OpenAI key is not set), the
    request fails before any vendor is called: the answer is the error of
    [parseDataUrl] with status 500, the row of the request is stored as a
    failure with that message, and no line item and no call is added. *)
Theorem POST_unreadable_image (env : Env) (req : Request)
  (form : list (string * FormValue)) (file : File) (w : World) :
  formData req = inr form ->
  title_of form <> "" ->
  table_get form "image" = Some (FormFile file) ->
  missing_key env (config_of form) = None ->
  parseDataUrl (file_dataUrl file) = None ->
  textProvider (config_of form) = Gemini
  \/ (textProvider (config_of form) = Anthropic
      /\ key_set (OPENAI_API_KEY env) = false) ->
  POST env req w
  = (bad unreadable_image_message 500,
     {| requestLogs :=
          <[fresh (dom (requestLogs w)) :=
              fail unreadable_image_message (finishedAt env - startedAt env)
                (initial_log (title_of form) (concept_of form) (config_of form))]>
            (requestLogs w);
        costLineItems := costLineItems w;
        calls := calls w |}).
Proof.
  intros Hf Ht Hi Hk Hd Hp.
  pose proof (loadEngineConfig_image (form_string form "engineConfig" "{}")) as Hip.
  fold (config_of form) in Hip.
  destruct (vision_engine_key env _ Hip Hk) as (engine & He & Hkey & Hv).
  assert (Hg : ve_vendor engine = VGoogle).
  { rewrite Hv. destruct Hp as [-> | (-> & ->)]; reflexivity. }
  rewrite Hg in Hkey. cbn [vendor_key] in Hkey.
  unfold POST. rewrite (handler_valid_request env req form file w Hf Ht Hi Hk).
  unfold pipeline. cbv zeta. rewrite He.
  cbn [or_throw]. rewrite bind_run. cbn [mret M_ret ret].
  rewrite bind_run. rewrite Hg. cbn [callTextModel]. rewrite Hkey. cbn [negb].
  rewrite bind_run. unfold inline_image.
  change (truthy_string (Some (file_dataUrl file))) with (Some (file_dataUrl file)).
  cbv beta iota. rewrite Hd. cbn [throw logged requestLogId world].
  unfold update_row. cbn [requestLogs costLineItems calls].
  rewrite alter_insert_eq. reflexivity.
Qed.

Lemma POST_unreadable_image_witness :
  fst (POST env_two_keys {| formData := inr (empty_upload gemini_text) |} empty_world)
  = bad unreadable_image_message 500
  /\ calls (snd (POST env_two_keys {| formData := inr (empty_upload gemini_text) |}
                  empty_world)) = [].
Proof.
  rewrite (POST_unreadable_image env_two_keys
             {| formData := inr (empty_upload gemini_text) |}
             (empty_upload gemini_text) empty_photo empty_world).
  - split; reflexivity.
  - reflexivity.
  - vm_compute. discriminate.
  - reflexivity.
  - vm_compute. reflexivity.
  - vm_compute. reflexivity.
  - left. vm_compute. reflexivity.
Defined.

Lemma deriveConceptUsed_not_empty (direction : jsval) (userConcept conceptUsed : string) :
  deriveConceptUsed direction userConcept = Some conceptUsed ->
  String.eqb conceptUsed "" = false.
Proof.
  unfold deriveConceptUsed.
  destruct (js_String _) as [text |]; [| discriminate].
  cbn [mbind option_bind]. cbv zeta. intros [= <-].
  destruct (String.eqb (trim text) "") eqn:E; [| exact E].
  destruct (String.eqb userConcept "") eqn:E'; [reflexivity | exact E'].
Qed.

(** X16. The concept an answer carries is never the empty text, and the
    image it carries is a truthy value. *)
Theorem concept_used_is_not_empty (env : Env) (req : Request) (w : World)
  (conceptUsed : string) (b64 : jsval) :
  body (fst (POST env req w)) = ResultBody conceptUsed b64 ->
  String.eqb conceptUsed "" = false /\ js_truthy b64 = true.
Proof.
  intros Hb.
  pose proof (POST_outcome env req w) as O.
  destruct (POST env req w) as [resp w']. cbn [fst snd] in *.
  inversion O as [msg Hf | form' Hf Ht | form' Hf Ht Hi | form' file v Hf Ht Hi Hk
                 | form file msg items new w'' Hf Ht Hi Hk HL HT HC HV
                 | form file cu b64' vi di a b c c1 c2 c3 w'' Hf Ht Hi Hk
                     Hb' Hc HL HT HS HR HC HV HP2 HP3];
    subst; cbn in Hb; try discriminate Hb.
  injection Hb as <- <-.
  split; [exact (deriveConceptUsed_not_empty _ _ _ Hc) | exact Hb'].
Qed.

Lemma concept_used_is_not_empty_witness :
  body (fst (POST env_openai (sneaker "{}") empty_world))
  = ResultBody "clean studio" (JStr "aGVsbG8=")
  /\ String.eqb "clean studio" "" = false
  /\ js_truthy (JStr "aGVsbG8=") = true.
Proof.
  assert (H : body (fst (POST env_openai (sneaker "{}") empty_world))
              = ResultBody "clean studio" (JStr "aGVsbG8="))
    by (vm_compute; reflexivity).
  split; [exact H |].
  exact (concept_used_is_not_empty env_openai (sneaker "{}") empty_world
           "clean studio" (JStr "aGVsbG8=") H).
Defined.

Lemma filter_foreign (w : World) (id : nat) :
  referential_integrity w -> requestLogs w !! id = None -> lineItems w id = [].
Proof.
  unfold referential_integrity, lineItems. intros H Hid.
  induction H as [| it items Hit H IH]; [reflexivity |].
  cbn [List.filter]. destruct (Nat.eqb_spec (item_requestId it) id) as [E | E].
  - rewrite E in Hit. contradiction.
  - exact IH.
Qed.

Lemma filter_own (id : nat) (items : list RequestCostLineItem) :
  Forall (fun it => item_requestId it = id) items ->
  List.filter (fun it => Nat.eqb (item_requestId it) id) items = items.
Proof.
  intros H. induction H as [| it items Hit H IH]; [reflexivity |].
  cbn [List.filter]. rewrite Hit, Nat.eqb_refl, IH. reflexivity.
Qed.

Lemma logged_item_id (env : Env) (id : nat) (cfg : EngineConfig)
  (items : list RequestCostLineItem) :
  Forall (logged_item env id cfg) items ->
  Forall (fun it => item_requestId it = id) items.
Proof. intros H. apply (Forall_impl _ _ _ H). intros it (Hid & _). exact Hid. Qed.

(** What a request does to the store. *)
Lemma POST_store (env : Env) (req : Request) (w : World) :
  exists items,
    costLineItems (snd (POST env req w)) = costLineItems w ++ items
    /\ Forall (fun it => item_requestId it = fresh (dom (requestLogs w))) items
    /\ (items = [] \/ requestLogs (snd (POST env req w)) !! fresh (dom (requestLogs w)) <> None)
    /\ (forall id, requestLogs w !! id <> None ->
          requestLogs (snd (POST env req w)) !! id <> None)
    /\ (status (fst (POST env req w)) = 200 ->
        exists row,
          requestLogs (snd (POST env req w)) !! fresh (dom (requestLogs w)) = Some row
          /\ log_totalCostUsd row = sum_costs items).
Proof.
  destruct (POST_trace env req w) as (items & new_calls & T & _ & _ & F).
  exists items. split; [exact T |].
  pose proof (POST_outcome env req w) as O.
  destruct (POST env req w) as [resp w']. cbn [fst snd] in *.
  assert (Hnew : forall row' : RequestLog,
    requestLogs w' = <[fresh (dom (requestLogs w)) := row']> (requestLogs w) ->
    forall id, requestLogs w !! id <> None -> requestLogs w' !! id <> None).
  { intros row' E id H. rewrite E.
    destruct (decide (fresh (dom (requestLogs w)) = id)) as [<- | N].
    - rewrite lookup_insert_eq. discriminate.
    - rewrite lookup_insert_ne by exact N. exact H. }
  inversion O as [msg Hf | form' Hf Ht | form' Hf Ht Hi | form' file v Hf Ht Hi Hk
                 | form file msg items' new w'' Hf Ht Hi Hk HL HT HC HV
                 | form file cu b64 vi di a b c c1 c2 c3 w'' Hf Ht Hi Hk
                     Hb Hc HL HT HS HR HC HV HP2 HP3];
    subst.
  1-4: assert (items = []) as ->
         by (rewrite <- (app_nil_r (costLineItems w')) in T at 1;
             apply app_inv_head in T; symmetry; exact T);
       split; [apply Forall_nil; exact I |]; split; [left; reflexivity |];
       split; [auto |]; cbn; intros H; discriminate H.
  - split; [exact (logged_item_id _ _ _ _ (F form Hf)) |].
    split; [right; rewrite HL, lookup_insert_eq; discriminate |].
    split; [exact (Hnew _ HL) |]. cbn. intros H; discriminate H.
  - split; [exact (logged_item_id _ _ _ _ (F form Hf)) |].
    split; [right; rewrite HL, lookup_insert_eq; discriminate |].
    split; [exact (Hnew _ HL) |]. intros _.
    rewrite HT in T. apply app_inv_head in T. subst items.
    eexists. split; [rewrite HL; apply lookup_insert_eq | reflexivity].
Qed.

(** X17. A request preserves the foreign key of the line items: if every
    line item belongs to a row of the log before the request, so it is after
    it; and the line items of the row the request created are exactly the
    items the request stored. *)
Theorem POST_referential_integrity (env : Env) (req : Request) (w : World) :
  referential_integrity w ->
  referential_integrity (snd (POST env req w))
  /\ exists items,
       costLineItems (snd (POST env req w)) = costLineItems w ++ items
       /\ lineItems (snd (POST env req w)) (fresh (dom (requestLogs w))) = items.
Proof.
  intros H.
  destruct (POST_store env req w) as (items & T & Fid & Hrow & Hold & _).
  split.
  - unfold referential_integrity. rewrite T. apply Forall_app. split.
    + apply (Forall_impl _ _ _ H). intros it Hit. apply Hold, Hit.
    + destruct Hrow as [-> | Hrow]; [apply Forall_nil; exact I |].
      apply (Forall_impl _ _ _ Fid). intros it ->. exact Hrow.
  - exists items. split; [exact T |].
    unfold lineItems. rewrite T, List.filter_app.
    fold (lineItems w (fresh (dom (requestLogs w)))).
    rewrite (filter_foreign w _ H (fresh_row w)), (filter_own _ _ Fid). reflexivity.
Qed.

Lemma POST_referential_integrity_witness :
  referential_integrity
    (snd (POST env_second_call_fails (sneaker "{}")
            (snd (POST env_openai (sneaker "{}") empty_world))))
  /\ length (costLineItems
               (snd (POST env_second_call_fails (sneaker "{}")
                       (snd (POST env_openai (sneaker "{}") empty_world))))) = 3%nat
  /\ size (requestLogs
             (snd (POST env_second_call_fails (sneaker "{}")
                     (snd (POST env_openai (sneaker "{}") empty_world))))) = 2%nat.
Proof.
  split.
  - apply (POST_referential_integrity env_second_call_fails (sneaker "{}")
             (snd (POST env_openai (sneaker "{}") empty_world))).
    apply (POST_referential_integrity env_openai (sneaker "{}") empty_world).
    apply Forall_nil. exact I.
  - split; vm_compute; reflexivity.
Defined.

(** ** What a request sends and records *)

(** The call an adapter makes. *)
Section Calls.

Variable env : Env.



End Calls.

Section Sent.

Variable env : Env.


End Sent.


(** X19. The row of a request records the request: when a request has
    changed the log, its row holds the trimmed title (not empty), the user's
    concept ([null] when empty), and the configuration the request ran with,
    which is a valid configuration; it is marked a success exactly when the
    answer has status 200, it has an error message exactly when it has not,
    and its latency is the time the request took. *)
Theorem POST_row_records_request (env : Env) (req : Request) (w : World) :
  requestLogs (snd (POST env req w)) <> requestLogs w ->
  exists form row,
    formData req = inr form
    /\ requestLogs (snd (POST env req w)) !! fresh (dom (requestLogs w)) = Some row
    /\ log_title row = title_of form
    /\ log_title row <> ""
    /\ log_userConcept row = truthy_string (Some (concept_of form))
    /\ (log_textProvider row, log_textModel row)
       = (textProvider (config_of form), textModel (config_of form))
    /\ (log_imageProvider row, log_imageModel row)
       = (imageProvider (config_of form), imageModel (config_of form))
    /\ valid_config {| textProvider := log_textProvider row;
                       textModel := log_textModel row;
                       imageProvider := log_imageProvider row;
                       imageModel := log_imageModel row |}
    /\ log_success row = (status (fst (POST env req w)) =? 200)
    /\ (log_errorMessage row = None <-> status (fst (POST env req w)) = 200)
    /\ log_latencyMs row = finishedAt env - startedAt env.
Proof.
  intros Hl.
  pose proof (POST_outcome env req w) as O.
  destruct (POST env req w) as [resp w']. cbn [fst snd] in *.
  inversion O as [msg Hf | form' Hf Ht | form' Hf Ht Hi | form' file v Hf Ht Hi Hk
                 | form file msg items new w'' Hf Ht Hi Hk HL HT HC HV
                 | form file cu b64 vi di a b c c1 c2 c3 w'' Hf Ht Hi Hk
                     Hb Hc HL HT HS HR HC HV HP2 HP3];
    subst; try (exfalso; apply Hl; reflexivity).
  all: pose proof (loadEngineConfig_valid (form_string form "engineConfig" "{}")) as V;
    fold (config_of form) in V.
  all: eexists form, _; split; [exact Hf |];
    split; [rewrite HL; apply lookup_insert_eq |].
  all: cbn [fail succeed initial_log log_title log_userConcept log_textProvider
              log_textModel log_imageProvider log_imageModel log_success
              log_errorMessage log_latencyMs status bad].
  all: split; [reflexivity |]; split; [exact Ht |].
  all: split; [cbn [truthy_string]; reflexivity |].
  all: split; [reflexivity |]; split; [reflexivity |].
  all: split; [destruct (config_of form); exact V |].
  all: split; [reflexivity |].
  all: split; [split; intros H; first [discriminate H | reflexivity] | reflexivity].
Qed.

Lemma POST_row_records_request_witness :
  exists row,
    requestLogs (snd (POST env_second_call_fails (sneaker "{}") empty_world))
      !! fresh (dom (requestLogs empty_world)) = Some row
    /\ log_title row = "Blue Sneaker"
    /\ log_success row = false.
Proof.
  destruct (POST_row_records_request env_second_call_fails (sneaker "{}") empty_world)
    as (form & row & Hf & Hr & Ht & _ & _ & _ & _ & _ & Hs & _).
  - vm_compute. intros H. discriminate H.
  - exists row. split; [exact Hr |].
    injection Hf as <-. split; [rewrite Ht; vm_compute; reflexivity |].
    rewrite Hs. vm_compute. reflexivity.
Defined.

(** ** app/admin/page.tsx *)

Lemma stageCostMap_stages (items : list RequestCostLineItem) :
  map item_stage items = take (length items) [VISION; CONCEPT; IMAGE_EDIT] ->
  stageCostMap items
  = map (fun it => (item_stage it, num_add (num_of_Z 0) (item_costUsd it))) items.
Proof.
  unfold stageCostMap.
  destruct items as [| a [| b [| c [| d rest]]]]; cbn [map length take fold_left];
    intros H; try discriminate H.
  - reflexivity.
  - reflexivity.
  - injection H as -> ->. reflexivity.
  - injection H as -> -> ->. reflexivity.
Qed.

(** X20. What the admin page shows for the row of a request, in a store
    that respects the foreign key: the stage costs are one entry for each
    line item of the request, in the order VISION, CONCEPT, IMAGE_EDIT, each
    entry the cost of its item added to 0 (no two items share a stage, so
    nothing is summed up); and for a request answered with status 200 the
    total cost of the row is the sum of the costs of these line items, and
    all three stages are listed. *)
Theorem admin_view_of_request (env : Env) (req : Request) (w : World) :
  referential_integrity w ->
  let id := fresh (dom (requestLogs w)) in
  let w' := snd (POST env req w) in
  stageCostMap (lineItems w' id)
  = map (fun it => (item_stage it, num_add (num_of_Z 0) (item_costUsd it)))
      (lineItems w' id)
  /\ map fst (stageCostMap (lineItems w' id))
     = take (length (lineItems w' id)) [VISION; CONCEPT; IMAGE_EDIT]
  /\ (status (fst (POST env req w)) = 200 ->
      exists row,
        requestLogs w' !! id = Some row
        /\ log_totalCostUsd row = sum_costs (lineItems w' id)
        /\ map fst (stageCostMap (lineItems w' id)) = [VISION; CONCEPT; IMAGE_EDIT]).
Proof.
  intros H id w'. subst id w'.
  destruct (POST_store env req w) as (items & T & Fid & _ & _ & Hrow).
  destruct (POST_trace env req w) as (items' & new_calls & T' & _ & (S & Sn) & _).
  rewrite T in T'. apply app_inv_head in T'. subst items'.
  assert (E : lineItems (snd (POST env req w)) (fresh (dom (requestLogs w))) = items).
  { unfold lineItems. rewrite T, List.filter_app.
    fold (lineItems w (fresh (dom (requestLogs w)))).
    rewrite (filter_foreign w _ H (fresh_row w)), (filter_own _ _ Fid). reflexivity. }
  rewrite E. pose proof (stageCostMap_stages items S) as M. rewrite M.
  split; [reflexivity |].
  rewrite map_map. cbn [fst]. split; [exact S |].
  intros Hs. destruct (Hrow Hs) as (row & Hr & Hc).
  exists row. split; [exact Hr |]. split; [exact Hc |].
  rewrite Hs in Sn. cbn in Sn. destruct Sn as (Hl & _).
  rewrite Hl in S. exact S.
Qed.

Lemma admin_view_of_request_witness :
  map fst (stageCostMap
             (lineItems (snd (POST env_openai (sneaker "{}") empty_world))
                (fresh (dom (requestLogs empty_world)))))
  = [VISION; CONCEPT; IMAGE_EDIT].
Proof.
  destruct (admin_view_of_request env_openai (sneaker "{}") empty_world)
    as (_ & _ & K).
  - apply Forall_nil. exact I.
  - destruct K as (row & _ & _ & K); [vm_compute; reflexivity | exact K].
Defined.


(** ** app/components/SettingsModal.tsx *)

Lemma valid_config_image (cfg : EngineConfig) :
  valid_config cfg -> imageProvider cfg <> Anthropic.
Proof.
  intros (_ & H) E. apply isValidImageModel_listed, image_model_not_anthropic in H.
  rewrite E in H. discriminate H.
Qed.

(** A valid configuration is a fixed point of [normalizeEngineConfig]. *)
Lemma normalize_valid_config (cfg : EngineConfig) :
  valid_config cfg ->
  as_EngineConfig (normalizeEngineConfig (config_value cfg)) = Some cfg.
Proof.
  intros (Ht & Hi).
  apply isValidTextModel_listed in Ht. apply isValidImageModel_listed in Hi.
  pose proof (image_model_not_anthropic _ _ Hi) as Ha.
  unfold normalizeEngineConfig. cbv zeta.
  change (merged_of (config_value cfg))
    with {| raw_textProvider := JStr (provider_id (textProvider cfg));
            raw_textModel := JStr (textModel cfg);
            raw_imageProvider := JStr (provider_id (imageProvider cfg));
            raw_imageModel := JStr (imageModel cfg) |}.
  simp_cfg. rewrite Ht. simp_cfg. rewrite Ha. simp_cfg. rewrite Hi. simp_cfg.
  unfold as_EngineConfig. simp_cfg. rewrite !provider_of_value_id.
  destruct cfg; reflexivity.
Qed.

Lemma normalized_default_valid (input : jsval) :
  valid_config (default defaultConfig (as_EngineConfig (normalizeEngineConfig input))).
Proof.
  destruct (normalized_is_config input) as (cfg & H). rewrite H.
  exact (normalized_valid input cfg H).
Qed.

Lemma firstEnabledTextModel_listed (p : Provider) :
  listed TEXT_MODELS (JStr (provider_id p)) (JStr (firstEnabledTextModel p)).
Proof. apply isValidTextModel_listed. destruct p; reflexivity. Qed.

Lemma firstEnabledImageModel_listed (p : Provider) :
  p <> Anthropic ->
  listed IMAGE_MODELS (JStr (provider_id p)) (JStr (firstEnabledImageModel p)).
Proof.
  intros H. apply isValidImageModel_listed. destruct p; [reflexivity | reflexivity | contradiction].
Qed.

(** The checks that hold of what [normalizeWithAvailability] returns. *)
Lemma normalizeWithAvailability_sound (inputCfg : jsval) (a : ProviderAvailability) :
  let cfg := normalizeWithAvailability inputCfg a in
  valid_config cfg
  /\ imageProvider cfg <> Anthropic
  /\ (av_openai a || av_gemini a || av_anthropic a = true ->
      available a (textProvider cfg) = true)
  /\ (av_openai a || av_gemini a = true ->
      available a (imageProvider cfg) = true).
Proof.
  intros cfg.
  assert (V : valid_config cfg).
  { subst cfg. unfold normalizeWithAvailability. cbv zeta.
    pose proof (normalized_default_valid inputCfg) as (Ht & Hi).
    pose proof (valid_config_image _ (conj Ht Hi)) as Hn.
    destruct (default defaultConfig (as_EngineConfig (normalizeEngineConfig inputCfg)))
      as [tp tm ip im].
    cbn [textProvider textModel imageProvider imageModel] in *.
    unfold pickFirstAvailableTextProvider, pickFirstAvailableImageProvider.
    destruct a as [[] [] []], tp, ip; try contradiction;
      cbn [available av_openai av_gemini av_anthropic negb Provider_eqb andb orb
             textProvider textModel imageProvider imageModel];
      (split; cbn [textProvider textModel imageProvider imageModel];
       first [assumption
             | apply firstEnabledTextModel_listed
             | apply firstEnabledImageModel_listed; discriminate]). }
  split; [exact V |]. split; [exact (valid_config_image cfg V) |].
  subst cfg. unfold normalizeWithAvailability. cbv zeta.
  pose proof (valid_config_image _ (normalized_default_valid inputCfg)) as Hn.
  destruct (default defaultConfig (as_EngineConfig (normalizeEngineConfig inputCfg)))
    as [tp tm ip im].
  cbn [imageProvider] in Hn.
  unfold pickFirstAvailableTextProvider, pickFirstAvailableImageProvider.
  destruct a as [[] [] []], tp, ip; try contradiction;
    cbn; split; intros H; first [reflexivity | discriminate H].
Qed.

(** X21. What [normalizeWithAvailability] returns, for every input and
    every availability: a configuration whose text pair and image pair are
    enabled entries of the catalogs and whose image provider is not
    [anthropic]; its text provider is available whenever some provider is,
    and its image provider is available whenever OpenAI or Gemini is; when
    neither of the two is available, the image provider is left as
    [normalizeEngineConfig] gave it. *)
Theorem normalizeWithAvailability_valid (inputCfg : jsval) (a : ProviderAvailability) :
  let cfg := normalizeWithAvailability inputCfg a in
  valid_config cfg
  /\ imageProvider cfg <> Anthropic
  /\ (av_openai a || av_gemini a || av_anthropic a = true ->
      available a (textProvider cfg) = true)
  /\ (av_openai a || av_gemini a = true ->
      available a (imageProvider cfg) = true)
  /\ (av_openai a || av_gemini a = false ->
      imageProvider cfg
      = imageProvider (default defaultConfig
                         (as_EngineConfig (normalizeEngineConfig inputCfg)))).
Proof.
  intros cfg.
  destruct (normalizeWithAvailability_sound inputCfg a) as (V & Hn & At & Ai).
  fold cfg in V, Hn, At, Ai. repeat (split; [assumption |]).
  subst cfg. unfold normalizeWithAvailability, pickFirstAvailableImageProvider.
  cbv zeta. intros H. apply orb_false_elim in H as (-> & ->).
  rewrite !andb_false_r. cbn [orb negb].
  match goal with |- context [if ?b then _ else _] => destruct b end;
    [destruct (pickFirstAvailableTextProvider a) |]; reflexivity.
Qed.

Lemma normalizeWithAvailability_idem (inputCfg : jsval) (a : ProviderAvailability) :
  normalizeWithAvailability (config_value (normalizeWithAvailability inputCfg a)) a
  = normalizeWithAvailability inputCfg a.
Proof.
  destruct (normalizeWithAvailability_sound inputCfg a) as (V & Vn & At & Ai).
  set (cfg := normalizeWithAvailability inputCfg a) in *.
  unfold normalizeWithAvailability at 1. cbv zeta.
  rewrite (normalize_valid_config cfg V).
  change (default defaultConfig (Some cfg)) with cfg.
  clearbody cfg. clear V.
  unfold pickFirstAvailableTextProvider, pickFirstAvailableImageProvider.
  destruct cfg as [tp tm ip im].
  destruct a as [[] [] []], tp, ip; try (exfalso; exact (Vn eq_refl));
    cbn in *; try reflexivity;
    first [specialize (At eq_refl); discriminate At
          | specialize (Ai eq_refl); discriminate Ai].
Qed.

(** X22. [normalizeWithAvailability] changes only what it must: a text
    engine whose provider is available is kept as [normalizeEngineConfig]
    gave it, and so is an image engine whose provider is available; and the
    function is idempotent: applied to its own result, with the same
    availability, it returns that result. *)
Theorem normalizeWithAvailability_keeps (inputCfg : jsval) (a : ProviderAvailability) :
  let stored := default defaultConfig (as_EngineConfig (normalizeEngineConfig inputCfg)) in
  let cfg := normalizeWithAvailability inputCfg a in
  (available a (textProvider stored) = true ->
   textProvider cfg = textProvider stored /\ textModel cfg = textModel stored)
  /\ (available a (imageProvider stored) = true ->
      imageProvider cfg = imageProvider stored /\ imageModel cfg = imageModel stored)
  /\ normalizeWithAvailability (config_value cfg) a = cfg.
Proof.
  intros stored cfg.
  pose proof (normalized_default_valid inputCfg) as Vs. fold stored in Vs.
  pose proof (valid_config_image _ Vs) as Hn.
  split; [| split].
  - subst cfg. unfold normalizeWithAvailability. cbv zeta. fold stored.
    intros H. rewrite H. cbn [negb].
    match goal with |- context [if ?b then _ else _] => destruct b end;
      [| auto].
    destruct (pickFirstAvailableImageProvider a); auto.
  - subst cfg. unfold normalizeWithAvailability. cbv zeta. fold stored.
    intros H.
    assert (K : forall next : EngineConfig,
      imageProvider next = imageProvider stored ->
      (Provider_eqb (imageProvider next) Openai && av_openai a
       || Provider_eqb (imageProvider next) Gemini && av_gemini a) = true).
    { intros next ->. destruct (imageProvider stored); cbn in *;
        [rewrite H; reflexivity | rewrite H; reflexivity | contradiction]. }
    destruct (negb (available a (textProvider stored)));
      [destruct (pickFirstAvailableTextProvider a) |];
      rewrite K by reflexivity; auto.
  - apply normalizeWithAvailability_idem.
Qed.

(** *** [JSON.parse] reads back what [JSON.stringify] wrote *)

Lemma string_body_escape (c : ascii) (rest : string) (acc : list (ascii + N)) :
  string_body (json_escape c +:+ rest) acc = string_body rest (unit_of c :: acc).
Proof.
  destruct c as [[] [] [] [] [] [] [] []]; reflexivity.
Qed.

Lemma string_body_escaped (s rest : string) (acc : list (ascii + N)) :
  string_body (json_escaped s +:+ quote +:+ rest) acc
  = Some (rev acc ++ units_of s, rest).
Proof.
  revert acc. induction s as [| c s IH]; intros acc.
  - simpl. rewrite app_nil_r. reflexivity.
  - cbn [json_escaped units_of]. rewrite append_assoc, string_body_escape, IH.
    cbn [rev]. rewrite <- app_assoc. reflexivity.
Qed.

Lemma encode_units_of (s : string) : encode_units (units_of s) = s.
Proof.
  induction s as [| c s IH]; [reflexivity |].
  cbn [units_of].
  destruct c as [[] [] [] [] [] [] [] []];
    try (cbn [unit_of]; simpl; rewrite IH; reflexivity).
  all: change (unit_of ?c) with (@inr ascii N (code c)).
  all: cbn [encode_units].
  all: destruct (units_of s) as [| [a | lo] r] eqn:E; simpl in *; rewrite ?IH; try reflexivity.
Qed.

Lemma parse_string_stringify (s rest : string) :
  parse_string (json_escaped s +:+ quote +:+ rest) = Some (s, rest).
Proof.
  unfold parse_string. rewrite string_body_escaped. cbn [rev app].
  rewrite encode_units_of. reflexivity.
Qed.

Lemma stringify_cons (s rest : string) :
  JSON_stringify_string s +:+ rest
  = String (byte_of 34) (json_escaped s +:+ quote +:+ rest).
Proof. unfold JSON_stringify_string. rewrite !append_assoc. reflexivity. Qed.

Lemma parse_value_stringify (fuel : nat) (s rest : string) :
  parse_value (S fuel) (JSON_stringify_string s +:+ rest) = Some (JStr s, rest).
Proof.
  rewrite stringify_cons. cbn [parse_value skip_ws is_json_ws].
  change (is_json_ws (byte_of 34)) with false. cbv iota.
  change (code (byte_of 34) =? 123)%N with false.
  change (code (byte_of 34) =? 91)%N with false.
  change (code (byte_of 34) =? 34)%N with true. cbv iota.
  rewrite parse_string_stringify. reflexivity.
Qed.

Lemma parse_member_more (fuel : nat) (key v rest : string)
  (acc : list (string * jsval)) :
  parse_members (S (S fuel))
    (JSON_stringify_string key +:+ ":" +:+ JSON_stringify_string v +:+ "," +:+ rest) acc
  = parse_members (S fuel) rest ((key, JStr v) :: acc).
Proof.
  rewrite stringify_cons.
  cbn [parse_members skip_ws].
  change (is_json_ws (byte_of 34)) with false. cbv iota.
  change (code (byte_of 34) =? 34)%N with true. cbv iota.
  rewrite parse_string_stringify.
  change (":" +:+ JSON_stringify_string v +:+ "," +:+ rest)
    with (String ":" (JSON_stringify_string v +:+ "," +:+ rest)).
  cbn [skip_ws]. change (is_json_ws ":") with false. cbv iota.
  change (code ":" =? 58)%N with true. cbv iota.
  rewrite parse_value_stringify.
  reflexivity.
Qed.

Lemma parse_member_last (fuel : nat) (key v rest : string)
  (acc : list (string * jsval)) :
  parse_members (S (S fuel))
    (JSON_stringify_string key +:+ ":" +:+ JSON_stringify_string v +:+ "}" +:+ rest) acc
  = Some (JObj (rev ((key, JStr v) :: acc)), rest).
Proof.
  rewrite stringify_cons.
  cbn [parse_members skip_ws].
  change (is_json_ws (byte_of 34)) with false. cbv iota.
  change (code (byte_of 34) =? 34)%N with true. cbv iota.
  rewrite parse_string_stringify.
  change (":" +:+ JSON_stringify_string v +:+ "}" +:+ rest)
    with (String ":" (JSON_stringify_string v +:+ "}" +:+ rest)).
  cbn [skip_ws]. change (is_json_ws ":") with false. cbv iota.
  change (code ":" =? 58)%N with true. cbv iota.
  rewrite parse_value_stringify.
  reflexivity.
Qed.

Lemma storeConfig_parse (cfg : EngineConfig) :
  JSON_parse (storeConfig cfg) = Some (config_value cfg).
Proof.
  unfold JSON_parse.
  assert (F : exists k, (2 * String.length (storeConfig cfg) + 2)%nat
                        = S (S (S (S (S (S k)))))).
  { assert (E : exists r, storeConfig cfg = String "{" (String (byte_of 34) r))
      by (eexists; reflexivity).
    destruct E as (r & ->). cbn [String.length].
    exists (2 * String.length r)%nat. lia. }
  destruct F as (k & ->).
  unfold storeConfig.
  change (quoted "textProvider") with (JSON_stringify_string "textProvider").
  change (quoted "textModel") with (JSON_stringify_string "textModel").
  change (quoted "imageProvider") with (JSON_stringify_string "imageProvider").
  change (quoted "imageModel") with (JSON_stringify_string "imageModel").
  match goal with |- context [parse_value _ ("{" +:+ ?r)] =>
    change (parse_value (S (S (S (S (S (S k)))))) ("{" +:+ r))
      with (parse_value (S (S (S (S (S (S k)))))) (String "{" r));
    set (members := r)
  end.
  assert (M : parse_members (S (S (S (S (S k))))) members []
              = Some (config_value cfg, "")).
  { subst members.
    rewrite !parse_member_more.
    change "}" with ("}" +:+ "").
    rewrite parse_member_last. reflexivity. }
  cbn [parse_value skip_ws]. change (is_json_ws "{") with false. cbv iota.
  change (code "{" =? 123)%N with true. cbv iota.
  assert (Q : exists r, members = String (byte_of 34) r).
  { subst members. rewrite stringify_cons. eauto. }
  destruct Q as (r & Q). rewrite Q at 1.
  cbn [skip_ws]. change (is_json_ws (byte_of 34)) with false. cbv iota.
  change (code (byte_of 34) =? 125)%N with false. cbv iota.
  rewrite M. reflexivity.
Qed.

Lemma storeConfig_truthy (cfg : EngineConfig) :
  truthy_string (Some (storeConfig cfg)) = Some (storeConfig cfg).
Proof. reflexivity. Qed.

Lemma storeConfig_round_trip (cfg : EngineConfig) :
  getStoredConfig (Item (Some (storeConfig cfg)))
  = default defaultConfig (as_EngineConfig (normalizeEngineConfig (config_value cfg)))
  /\ loadEngineConfig (storeConfig cfg)
     = default defaultConfig (as_EngineConfig (normalizeEngineConfig (config_value cfg))).
Proof.
  pose proof (storeConfig_parse cfg) as P.
  unfold getStoredConfig, loadEngineConfig. rewrite storeConfig_truthy, P.
  split; reflexivity.
Qed.

(** X23. The stored configuration. The text [storeConfig] writes is JSON for
    the configuration, whatever its two model names are; read back by
    [getStoredConfig] it gives the normalized configuration, and so it does
    when the server reads it as the [engineConfig] of a request; a valid
    configuration comes back as it was, through the storage and through the
    form. And whatever the storage holds, [getStoredConfig] returns a valid
    configuration. *)
Theorem stored_config_round_trip (cfg : EngineConfig) :
  JSON_parse (storeConfig cfg) = Some (config_value cfg)
  /\ (forall storage, valid_config (getStoredConfig storage))
  /\ getStoredConfig (Item (Some (storeConfig cfg)))
     = default defaultConfig (as_EngineConfig (normalizeEngineConfig (config_value cfg)))
  /\ loadEngineConfig (storeConfig cfg) = getStoredConfig (Item (Some (storeConfig cfg)))
  /\ (valid_config cfg ->
      getStoredConfig (Item (Some (storeConfig cfg))) = cfg
      /\ loadEngineConfig (storeConfig cfg) = cfg).
Proof.
  destruct (storeConfig_round_trip cfg) as (G & L).
  split; [apply storeConfig_parse |].
  split.
  { assert (D : valid_config defaultConfig)
      by (exact (normalized_default_valid JNull)).
    intros [| | raw]; cbn [getStoredConfig]; try exact D.
    destruct (truthy_string raw) as [text |]; [| exact D].
    destruct (JSON_parse text) as [v |]; [apply normalized_default_valid | exact D]. }
  split; [exact G |].
  split; [rewrite G; exact L |].
  intros V. rewrite L, G, (normalize_valid_config cfg V). split; reflexivity.
Qed.

(** X24. Saving and reopening: when the dialog opens on the text it stored
    at the last save, under the same availability, it shows the configuration
    that was saved. *)
Theorem reopened_dialog_shows_saved_config (inputCfg : jsval)
  (answer : option ProviderAvailability) :
  let saved := normalizeWithAvailability inputCfg (fetchAvailability answer) in
  opened_config (Item (Some (storeConfig saved))) answer = saved.
Proof.
  intros saved. unfold opened_config. cbv zeta.
  destruct (normalizeWithAvailability_sound inputCfg (fetchAvailability answer))
    as (V & _).
  fold saved in V.
  destruct (storeConfig_round_trip saved) as (-> & _).
  rewrite (normalize_valid_config saved V).
  change (default defaultConfig (Some saved)) with saved.
  apply normalizeWithAvailability_idem.
Qed.

(** X25. Client and server agree. The configuration the dialog saves for the
    availability the server reports, sent as the [engineConfig] of a request,
    is the configuration the server runs; it passes the key checks of step 5
    and has a vision engine, whenever the OpenAI or the Gemini key is set. *)
Theorem saved_config_is_accepted (env : Env) (inputCfg : jsval)
  (form : list (string * FormValue)) :
  let saved := normalizeWithAvailability inputCfg (fetchAvailability (Some (GET env))) in
  table_get form "engineConfig" = Some (FormString (storeConfig saved)) ->
  key_set (OPENAI_API_KEY env) || key_set (GEMINI_API_KEY env) = true ->
  config_of form = saved
  /\ missing_key env (config_of form) = None
  /\ exists engine,
       chooseVisionEngine (config_of form) (OPENAI_API_KEY env) (GEMINI_API_KEY env)
       = inr engine.
Proof.
  intros saved Hform Hkeys.
  destruct (normalizeWithAvailability_sound inputCfg (fetchAvailability (Some (GET env))))
    as (V & Hn & At & Ai).
  fold saved in V, Hn, At, Ai.
  cbn [fetchAvailability GET av_openai av_gemini av_anthropic] in At, Ai.
  assert (C : config_of form = saved).
  { unfold config_of, form_string. rewrite Hform.
    change (String.eqb (storeConfig saved) "") with false. cbv iota.
    destruct (storeConfig_round_trip saved) as (_ & ->).
    rewrite (normalize_valid_config saved V). reflexivity. }
  rewrite C.
  assert (K : missing_key env saved = None).
  { unfold missing_key.
    assert (Kt : key_set (vendor_key env (getApiVendor (textProvider saved))) = true).
    { rewrite <- At by (rewrite Hkeys; reflexivity).
      destruct (textProvider saved); reflexivity. }
    assert (Ki : key_set (vendor_key env (getApiVendor (imageProvider saved))) = true).
    { rewrite <- (Ai Hkeys).
      destruct (imageProvider saved); [reflexivity | reflexivity | contradiction]. }
    rewrite Kt, Ki. reflexivity. }
  split; [reflexivity |]. split; [exact K |].
  destruct (vision_engine_key env saved Hn K) as (engine & He & _). eauto.
Qed.

Lemma saved_config_is_accepted_witness :
  config_of saved_form = defaultConfig
  /\ missing_key env_openai (config_of saved_form) = None
  /\ exists engine,
       chooseVisionEngine (config_of saved_form) (OPENAI_API_KEY env_openai)
         (GEMINI_API_KEY env_openai) = inr engine.
Proof.
  apply (saved_config_is_accepted env_openai (config_value defaultConfig) saved_form).
  - reflexivity.
  - reflexivity.
Defined.
